(** * VEO3-Generator: questionnaire model, prompt translator and generation client

    A shallow embedding of [src/sop_questionnaire.py], [src/sop_translator.py]
    and [src/veo3_client.py], followed by the properties stated about them.

    Conventions of the embedding:
    - a Python [str] is a [string]; its characters range over the code points
      0..255, which is what [ascii] offers;
    - a Python [int] is a [Z], a [len(...)] is a [nat];
    - [Optional[T]] is [option T], [None] is [None];
    - what is read from JSON, a loaded record or the answer to a status
      request, is a [value] and is used as the code uses it, with no type
      assumed; an object built from it holds it as it is. Numbers with a
      fraction are left out of [value];
    - a function that may raise returns a [result]; the remote service, the
      file system and the clock are an explicit [World] and every request made
      to them is counted in an explicit state. Logging is left out. *)

From Stdlib Require Import String Ascii List ZArith Lia Bool DecimalString
  DecimalZ.
Import ListNotations.

Set Warnings "-register-all,-abstract-large-number".

Open Scope string_scope.
Open Scope list_scope.

Infix "+++" := String.append (right associativity, at level 60).

(* ================================================================== *)
(** * Python primitives used by the three source files *)
(* ================================================================== *)

Module Py.

(** [bool(s)] for a [str]: every string but the empty one is true. *)
Definition truthy_str (s : string) : bool :=
  match s with
  | EmptyString => false
  | String _ _ => true
  end.

(** [bool(o)] for an [Optional[str]]. *)
Definition truthy_opt (o : option string) : bool :=
  match o with
  | Some s => truthy_str s
  | None => false
  end.

(** [bool(l)] for a list. *)
Definition truthy_list {A : Type} (l : list A) : bool :=
  match l with
  | [] => false
  | _ :: _ => true
  end.

(** [str(n)] for an [int], as an f-string prints it. *)
Definition str_of_int (n : Z) : string :=
  NilZero.string_of_int (Z.to_int n).

(** [f"{o}"] for an [Optional[str]]. *)
Definition str_of_opt (o : option string) : string :=
  match o with
  | Some s => s
  | None => "None"
  end.

Definition LF : ascii := ascii_of_nat 10.
Definition newline : string := String LF "".

(** [sep.join(parts)]. *)
Definition join (sep : string) (parts : list string) : string :=
  String.concat sep parts.

(** [x in l] for a list of strings. *)
Definition str_in (x : string) (l : list string) : bool :=
  existsb (String.eqb x) l.

(** [c.isspace()] on the code points below 256. *)
Definition isspace (c : ascii) : bool :=
  let n := nat_of_ascii c in
  (Nat.leb 9 n && Nat.leb n 13) || (Nat.leb 28 n && Nat.leb n 32)
  || Nat.eqb n 133 || Nat.eqb n 160.

Fixpoint lstrip (s : string) : string :=
  match s with
  | EmptyString => EmptyString
  | String c s' => if isspace c then lstrip s' else s
  end.

Fixpoint rstrip (s : string) : string :=
  match s with
  | EmptyString => EmptyString
  | String c s' =>
      match rstrip s' with
      | EmptyString => if isspace c then EmptyString else String c EmptyString
      | r => String c r
      end
  end.

(** [s.strip()]. *)
Definition strip (s : string) : string := rstrip (lstrip s).

(** Values a [dict] built by [to_dict] or read by [json.load] holds: [None],
    booleans, integers, strings, lists and dictionaries with string keys.
    Numbers with a fraction are left out. A dictionary is kept as the list
    of its bindings, the first one of a key being the one in force. *)
Inductive value : Type :=
| VNone
| VBool (b : bool)
| VInt (n : Z)
| VStr (s : string)
| VList (l : list value)
| VDict (d : list (string * value)).

(** [bool(v)]. *)
Definition truthy (v : value) : bool :=
  match v with
  | VNone => false
  | VBool b => b
  | VInt n => negb (Z.eqb n 0)
  | VStr s => truthy_str s
  | VList l => truthy_list l
  | VDict d => truthy_list d
  end.

(** [type(v).__name__]. *)
Definition type_name (v : value) : string :=
  match v with
  | VNone => "NoneType"
  | VBool _ => "bool"
  | VInt _ => "int"
  | VStr _ => "str"
  | VList _ => "list"
  | VDict _ => "dict"
  end.

(** The keys of a dictionary, each once, in the order of their first
    binding. *)
Fixpoint keys (d : list (string * value)) : list string :=
  match d with
  | [] => []
  | (k, _) :: d' => k :: filter (fun k' => negb (String.eqb k' k)) (keys d')
  end.

(** [d.get(k)]: the first binding of [k]. *)
Fixpoint dict_get (d : list (string * value)) (k : string) : option value :=
  match d with
  | [] => None
  | (k', v) :: d' => if String.eqb k k' then Some v else dict_get d' k
  end.

(** Exceptions raised by the questionnaire model and the translator.
    [NotAMember enum v] is the [ValueError] an [Enum] class raises when it is
    called on a value [v] that is no member's value; [TypeError v] is raised
    by an iteration over, or a subscript by a string of, a value [v] whose
    type has no such operation. *)
Inductive exn : Type :=
| KeyError (key : string)
| ValueError (msg : string)
| NotAMember (enum : string) (v : value)
| FileNotFoundError (path : string)
| TypeError (v : value).

Inductive result (E A : Type) : Type :=
| Ok (a : A)
| Raise (e : E).
Arguments Ok {E A} a.
Arguments Raise {E A} e.

Definition bind {E A B : Type} (r : result E A) (k : A -> result E B)
  : result E B :=
  match r with
  | Ok a => k a
  | Raise e => Raise e
  end.

(** Evaluate [f] on each element in order; the first exception wins. *)
Fixpoint map_result {E A B : Type} (f : A -> result E B) (l : list A)
  : result E (list B) :=
  match l with
  | [] => Ok []
  | a :: l' =>
      bind (f a) (fun b => bind (map_result f l') (fun bs => Ok (b :: bs)))
  end.

(** [d[k]]. *)
Definition getitem (d : list (string * value)) (k : string)
  : result exn value :=
  match dict_get d k with
  | Some v => Ok v
  | None => Raise (KeyError k)
  end.

(** [d.get(k, default)]. *)
Definition get_default (d : list (string * value)) (k : string)
           (default : value) : value :=
  match dict_get d k with
  | Some v => v
  | None => default
  end.

(** [for x in v]: the elements of a list, the keys of a dictionary, the
    characters of a string; nothing else read from JSON can be iterated. *)
Definition iterate (v : value) : result exn (list value) :=
  match v with
  | VList l => Ok l
  | VDict d => Ok (map VStr (keys d))
  | VStr s => Ok (map (fun c => VStr (String c "")) (list_ascii_of_string s))
  | _ => Raise (TypeError v)
  end.

Definition of_opt_str (o : option string) : value :=
  match o with
  | Some s => VStr s
  | None => VNone
  end.

Definition of_str_list (l : list string) : value := VList (map VStr l).

(** [c.lower()] on the code points below 256: the letters A-Z and the
    accented capitals 192-222 (but the sign 215) move up by 32. *)
Definition lower_char (c : ascii) : ascii :=
  let n := nat_of_ascii c in
  if (Nat.leb 65 n && Nat.leb n 90)
     || (Nat.leb 192 n && Nat.leb n 222 && negb (Nat.eqb n 215))
  then ascii_of_nat (n + 32)
  else c.

(** [s.lower()]. *)
Fixpoint lower (s : string) : string :=
  match s with
  | EmptyString => EmptyString
  | String c s' => String (lower_char c) (lower s')
  end.

(** [sum(l)] for a list of integers. *)
Definition sum_ints (l : list Z) : Z := fold_right Z.add 0%Z l.

End Py.

(* ================================================================== *)
(** * src/sop_questionnaire.py *)
(* ================================================================== *)

Module Questionnaire.
Import Py.

Inductive VideoStyle : Type :=
| PROFESSIONAL | CASUAL | EDUCATIONAL | PROMOTIONAL.

Inductive PlatformTarget : Type :=
| INSTAGRAM | TIKTOK | YOUTUBE_SHORTS | FACEBOOK | LINKEDIN | TWITTER.

(** [VideoStyle.X.value]. *)
Definition VideoStyle_value (v : VideoStyle) : string :=
  match v with
  | PROFESSIONAL => "professional"
  | CASUAL => "casual"
  | EDUCATIONAL => "educational"
  | PROMOTIONAL => "promotional"
  end.

Definition PlatformTarget_value (p : PlatformTarget) : string :=
  match p with
  | INSTAGRAM => "instagram"
  | TIKTOK => "tiktok"
  | YOUTUBE_SHORTS => "youtube_shorts"
  | FACEBOOK => "facebook"
  | LINKEDIN => "linkedin"
  | TWITTER => "twitter"
  end.

Definition all_VideoStyle : list VideoStyle :=
  [PROFESSIONAL; CASUAL; EDUCATIONAL; PROMOTIONAL].

Definition all_PlatformTarget : list PlatformTarget :=
  [INSTAGRAM; TIKTOK; YOUTUBE_SHORTS; FACEBOOK; LINKEDIN; TWITTER].

(** [VideoStyle(v)]: the member whose value is exactly [v]; any other
    value, of any type, raises. *)
Definition VideoStyle_of_value (v : value) : result exn VideoStyle :=
  match v with
  | VStr s =>
      match find (fun m => String.eqb (VideoStyle_value m) s)
                 all_VideoStyle with
      | Some m => Ok m
      | None => Raise (NotAMember "VideoStyle" v)
      end
  | _ => Raise (NotAMember "VideoStyle" v)
  end.

Definition PlatformTarget_of_value (v : value)
  : result exn PlatformTarget :=
  match v with
  | VStr s =>
      match find (fun m => String.eqb (PlatformTarget_value m) s)
                 all_PlatformTarget with
      | Some m => Ok m
      | None => Raise (NotAMember "PlatformTarget" v)
      end
  | _ => Raise (NotAMember "PlatformTarget" v)
  end.

Record SOPSegment : Type := mkSegment {
  segment_number : Z;
  title : string;
  description : string;
  key_action : string;
  visual_focus : string;
  duration : Z;
  text_overlay : option string;
  voiceover_script : option string;
  props_needed : list string;
  location : option string
}.

Record SOPQuestionnaire : Type := mkQuestionnaire {
  project_title : string;
  sop_purpose : string;
  target_audience : string;
  video_style : VideoStyle;
  brand_colors : list string;
  brand_fonts : list string;
  target_platforms : list PlatformTarget;
  presenter_type : string;
  presenter_description : option string;
  presenter_clothing : option string;
  primary_location : string;
  location_description : string;
  lighting_preference : string;
  segments : list SOPSegment;
  company_name : option string;
  logo_placement : option string;
  intro_outro_needed : bool;
  music_style : option string;
  voiceover_needed : bool;
  voiceover_language : string;
  consistency_mode : string
}.

(** The body of the [for segment in self.segments] loop of [validate],
    followed by the [return True, None] the loop falls through to. *)
Fixpoint validate_segments (segs : list SOPSegment) : bool * option string :=
  match segs with
  | [] => (true, None)
  | segment :: rest =>
      if negb (truthy_str (title segment)) then
        (false, Some ("Segment " +++ str_of_int (segment_number segment)
                      +++ " missing title"))
      else if negb (truthy_str (description segment)) then
        (false, Some ("Segment " +++ str_of_int (segment_number segment)
                      +++ " missing description"))
      else if negb (truthy_str (key_action segment)) then
        (false, Some ("Segment " +++ str_of_int (segment_number segment)
                      +++ " missing key action"))
      else validate_segments rest
  end.

(** [SOPQuestionnaire.validate]. *)
Definition validate (self : SOPQuestionnaire) : bool * option string :=
  if negb (truthy_str (project_title self)) then
    (false, Some "Project title is required")
  else if negb (truthy_str (sop_purpose self)) then
    (false, Some "SOP purpose is required")
  else if negb (truthy_str (target_audience self)) then
    (false, Some "Target audience is required")
  else if Nat.eqb (length (segments self)) 0 then
    (false, Some "At least one segment is required")
  else if Nat.ltb 6 (length (segments self)) then
    (false, Some "Maximum 6 segments allowed (48 seconds total)")
  else validate_segments (segments self).

(** The dictionary [to_dict] builds for one segment. *)
Definition segment_to_dict (s : SOPSegment) : value :=
  VDict [ ("segment_number", VInt (segment_number s));
          ("title", VStr (title s));
          ("description", VStr (description s));
          ("key_action", VStr (key_action s));
          ("visual_focus", VStr (visual_focus s));
          ("duration", VInt (duration s));
          ("text_overlay", of_opt_str (text_overlay s));
          ("voiceover_script", of_opt_str (voiceover_script s));
          ("props_needed", of_str_list (props_needed s));
          ("location", of_opt_str (location s)) ].

(** [SOPQuestionnaire.to_dict]. *)
Definition to_dict (self : SOPQuestionnaire) : list (string * value) :=
  [ ("project_title", VStr (project_title self));
    ("sop_purpose", VStr (sop_purpose self));
    ("target_audience", VStr (target_audience self));
    ("video_style", VStr (VideoStyle_value (video_style self)));
    ("brand_colors", of_str_list (brand_colors self));
    ("brand_fonts", of_str_list (brand_fonts self));
    ("target_platforms",
      VList (map (fun p => VStr (PlatformTarget_value p))
                 (target_platforms self)));
    ("presenter_type", VStr (presenter_type self));
    ("presenter_description", of_opt_str (presenter_description self));
    ("presenter_clothing", of_opt_str (presenter_clothing self));
    ("primary_location", VStr (primary_location self));
    ("location_description", VStr (location_description self));
    ("lighting_preference", VStr (lighting_preference self));
    ("segments", VList (map segment_to_dict (segments self)));
    ("company_name", of_opt_str (company_name self));
    ("logo_placement", of_opt_str (logo_placement self));
    ("intro_outro_needed", VBool (intro_outro_needed self));
    ("music_style", of_opt_str (music_style self));
    ("voiceover_needed", VBool (voiceover_needed self));
    ("voiceover_language", VStr (voiceover_language self));
    ("consistency_mode", VStr (consistency_mode self)) ].

Local Notation "x <- c ;; k" := (bind c (fun x => k))
  (at level 61, c at next level, right associativity).

(** The objects the two dataclass constructors build from values read from
    JSON. A dataclass checks no type, so an attribute holds whatever value
    the constructor was given; only the style and the platforms, which
    [from_json] passes through their [Enum] classes, and the segments, which
    it builds itself, have the declared type. *)
Record SegmentObject : Type := mkSegmentObject {
  so_segment_number : value;
  so_title : value;
  so_description : value;
  so_key_action : value;
  so_visual_focus : value;
  so_duration : value;
  so_text_overlay : value;
  so_voiceover_script : value;
  so_props_needed : value;
  so_location : value
}.

Record QuestionnaireObject : Type := mkQuestionnaireObject {
  qo_project_title : value;
  qo_sop_purpose : value;
  qo_target_audience : value;
  qo_video_style : VideoStyle;
  qo_brand_colors : value;
  qo_brand_fonts : value;
  qo_target_platforms : list PlatformTarget;
  qo_presenter_type : value;
  qo_presenter_description : value;
  qo_presenter_clothing : value;
  qo_primary_location : value;
  qo_location_description : value;
  qo_lighting_preference : value;
  qo_segments : list SegmentObject;
  qo_company_name : value;
  qo_logo_placement : value;
  qo_intro_outro_needed : value;
  qo_music_style : value;
  qo_voiceover_needed : value;
  qo_voiceover_language : value;
  qo_consistency_mode : value
}.

(** The object whose attributes hold the values of a segment, and of a
    questionnaire, of the declared types. *)
Definition segment_object (s : SOPSegment) : SegmentObject :=
  mkSegmentObject (VInt (segment_number s)) (VStr (title s))
    (VStr (description s)) (VStr (key_action s)) (VStr (visual_focus s))
    (VInt (duration s)) (of_opt_str (text_overlay s))
    (of_opt_str (voiceover_script s)) (of_str_list (props_needed s))
    (of_opt_str (location s)).

Definition questionnaire_object (q : SOPQuestionnaire) : QuestionnaireObject :=
  mkQuestionnaireObject (VStr (project_title q)) (VStr (sop_purpose q))
    (VStr (target_audience q)) (video_style q)
    (of_str_list (brand_colors q)) (of_str_list (brand_fonts q))
    (target_platforms q) (VStr (presenter_type q))
    (of_opt_str (presenter_description q))
    (of_opt_str (presenter_clothing q)) (VStr (primary_location q))
    (VStr (location_description q)) (VStr (lighting_preference q))
    (map segment_object (segments q)) (of_opt_str (company_name q))
    (of_opt_str (logo_placement q)) (VBool (intro_outro_needed q))
    (of_opt_str (music_style q)) (VBool (voiceover_needed q))
    (VStr (voiceover_language q)) (VStr (consistency_mode q)).

(** [to_dict] on an object, whatever its attributes hold. *)
Definition segment_object_items (s : SegmentObject)
  : list (string * value) :=
  [ ("segment_number", so_segment_number s);
    ("title", so_title s);
    ("description", so_description s);
    ("key_action", so_key_action s);
    ("visual_focus", so_visual_focus s);
    ("duration", so_duration s);
    ("text_overlay", so_text_overlay s);
    ("voiceover_script", so_voiceover_script s);
    ("props_needed", so_props_needed s);
    ("location", so_location s) ].

Definition segment_object_to_dict (s : SegmentObject) : value :=
  VDict (segment_object_items s).

Definition object_to_dict (self : QuestionnaireObject)
  : list (string * value) :=
  [ ("project_title", qo_project_title self);
    ("sop_purpose", qo_sop_purpose self);
    ("target_audience", qo_target_audience self);
    ("video_style", VStr (VideoStyle_value (qo_video_style self)));
    ("brand_colors", qo_brand_colors self);
    ("brand_fonts", qo_brand_fonts self);
    ("target_platforms",
      VList (map (fun p => VStr (PlatformTarget_value p))
                 (qo_target_platforms self)));
    ("presenter_type", qo_presenter_type self);
    ("presenter_description", qo_presenter_description self);
    ("presenter_clothing", qo_presenter_clothing self);
    ("primary_location", qo_primary_location self);
    ("location_description", qo_location_description self);
    ("lighting_preference", qo_lighting_preference self);
    ("segments", VList (map segment_object_to_dict (qo_segments self)));
    ("company_name", qo_company_name self);
    ("logo_placement", qo_logo_placement self);
    ("intro_outro_needed", qo_intro_outro_needed self);
    ("music_style", qo_music_style self);
    ("voiceover_needed", qo_voiceover_needed self);
    ("voiceover_language", qo_voiceover_language self);
    ("consistency_mode", qo_consistency_mode self) ].

(** The [SOPSegment(...)] call of [from_json] for one element [s] of
    [data["segments"]]; keyword arguments are evaluated in order. The first
    of them subscripts [s] by a string, which only a dictionary allows. *)
Definition segment_from_dict (v : value) : result exn SegmentObject :=
  match v with
  | VDict s =>
      a_number <- getitem s "segment_number" ;;
      a_title <- getitem s "title" ;;
      a_description <- getitem s "description" ;;
      a_key_action <- getitem s "key_action" ;;
      a_visual_focus <- getitem s "visual_focus" ;;
      Ok (mkSegmentObject a_number a_title a_description a_key_action
            a_visual_focus
            (get_default s "duration" (VInt 8))
            (get_default s "text_overlay" VNone)
            (get_default s "voiceover_script" VNone)
            (get_default s "props_needed" (VList []))
            (get_default s "location" VNone))
  | _ => Raise (TypeError v)
  end.

(** The [cls(...)] expression of [SOPQuestionnaire.from_json], applied to
    the record [data] that [json.load] returned. The keyword arguments are
    evaluated in order; those read with [get] cannot fail. *)
Definition from_dict (data : list (string * value))
  : result exn QuestionnaireObject :=
  a_project_title <- getitem data "project_title" ;;
  a_sop_purpose <- getitem data "sop_purpose" ;;
  a_target_audience <- getitem data "target_audience" ;;
  a_video_style <- bind (getitem data "video_style") VideoStyle_of_value ;;
  a_target_platforms <-
    bind (iterate (get_default data "target_platforms" (VList [])))
         (map_result PlatformTarget_of_value) ;;
  a_segments <-
    bind (iterate (get_default data "segments" (VList [])))
         (map_result segment_from_dict) ;;
  Ok (mkQuestionnaireObject a_project_title a_sop_purpose a_target_audience
        a_video_style
        (get_default data "brand_colors" (VList []))
        (get_default data "brand_fonts" (VList []))
        a_target_platforms
        (get_default data "presenter_type" (VStr "none"))
        (get_default data "presenter_description" VNone)
        (get_default data "presenter_clothing" VNone)
        (get_default data "primary_location" (VStr ""))
        (get_default data "location_description" (VStr ""))
        (get_default data "lighting_preference" (VStr "bright_professional"))
        a_segments
        (get_default data "company_name" VNone)
        (get_default data "logo_placement" VNone)
        (get_default data "intro_outro_needed" (VBool true))
        (get_default data "music_style" VNone)
        (get_default data "voiceover_needed" (VBool false))
        (get_default data "voiceover_language" (VStr "english"))
        (get_default data "consistency_mode" (VStr "strict"))).

(** The files questionnaires are saved to and loaded from: a path holds the
    JSON document last written to it. [json.dump] followed by [json.load]
    gives back the dictionary it was given when its values are strings,
    integers, booleans, [None], lists and dictionaries with string keys, as
    here, so a document is kept as that dictionary. *)
Definition FileSystem : Type := list (string * list (string * value)).

Fixpoint read_file (fs : FileSystem) (path : string)
  : option (list (string * value)) :=
  match fs with
  | [] => None
  | (path', document) :: fs' =>
      if String.eqb path path' then Some document else read_file fs' path
  end.

(** [SOPQuestionnaire.to_json]: the file system after the write. *)
Definition to_json (self : SOPQuestionnaire) (filepath : string)
           (fs : FileSystem) : FileSystem :=
  (filepath, to_dict self) :: fs.

(** [SOPQuestionnaire.from_json]. *)
Definition from_json (filepath : string) (fs : FileSystem)
  : result exn QuestionnaireObject :=
  match read_file fs filepath with
  | Some data => from_dict data
  | None => Raise (FileNotFoundError filepath)
  end.

(** [SOPSegment(segment_number, title, description, key_action,
    visual_focus)]: the other fields take the defaults of the dataclass. *)
Definition SOPSegment_positional (a_number : Z)
           (a_title a_description a_key_action a_visual_focus : string)
  : SOPSegment :=
  mkSegment a_number a_title a_description a_key_action a_visual_focus
            8 None None [] None.

(** [SOPQuestionnaire(project_title=..., sop_purpose=..., target_audience=...,
    video_style=...)]: the other fields take the defaults of the
    dataclass. *)
Definition SOPQuestionnaire_required (a_project_title a_sop_purpose
           a_target_audience : string) (a_video_style : VideoStyle)
  : SOPQuestionnaire :=
  mkQuestionnaire a_project_title a_sop_purpose a_target_audience
    a_video_style [] [] [] "none" None None "" "" "bright_professional"
    [] None None true None false "english" "strict".

(** The same call when the four values are those of a record, of any
    type. *)
Definition QuestionnaireObject_required (a_project_title a_sop_purpose
           a_target_audience : value) (a_video_style : VideoStyle)
  : QuestionnaireObject :=
  mkQuestionnaireObject a_project_title a_sop_purpose a_target_audience
    a_video_style (VList []) (VList []) [] (VStr "none") VNone VNone
    (VStr "") (VStr "") (VStr "bright_professional") [] VNone VNone
    (VBool true) VNone (VBool false) (VStr "english") (VStr "strict").

(** The call the four templates of [QuestionnaireBuilder] make:
    [SOPQuestionnaire(project_title=..., sop_purpose=..., target_audience=...,
    video_style=..., presenter_type="person", primary_location=...,
    segments=[...])]. *)
Definition template_questionnaire (a_project_title a_sop_purpose
           a_target_audience : string) (a_video_style : VideoStyle)
           (a_primary_location : string) (a_segments : list SOPSegment)
  : SOPQuestionnaire :=
  mkQuestionnaire a_project_title a_sop_purpose a_target_audience
    a_video_style [] [] [] "person" None None a_primary_location ""
    "bright_professional" a_segments None None true None false "english"
    "strict".

(** [QuestionnaireBuilder._product_demo_template]. *)
Definition _product_demo_template : SOPQuestionnaire :=
  template_questionnaire "Product Demo Template"
    "Demonstrate product features and benefits" "Potential customers"
    PROMOTIONAL "clean_modern_office"
    [ SOPSegment_positional 1 "Introduction" "Introduce the product"
        "Show product" "Product close-up";
      SOPSegment_positional 2 "Key Feature 1" "Demonstrate main feature"
        "Use feature" "Feature in action";
      SOPSegment_positional 3 "Key Feature 2" "Show second feature"
        "Demonstrate benefit" "Results";
      SOPSegment_positional 4 "Call to Action" "Encourage purchase/signup"
        "Show CTA" "CTA text and link" ].

(** [QuestionnaireBuilder._how_to_template]. *)
Definition _how_to_template : SOPQuestionnaire :=
  template_questionnaire "How-To Template"
    "Teach a specific skill or process" "Learners/Students"
    EDUCATIONAL "workshop_or_classroom"
    [ SOPSegment_positional 1 "Overview" "Explain what will be taught"
        "State goal" "Instructor speaking";
      SOPSegment_positional 2 "Step 1" "First step of process"
        "Demonstrate step 1" "Hands-on action";
      SOPSegment_positional 3 "Step 2" "Second step"
        "Demonstrate step 2" "Continued action";
      SOPSegment_positional 4 "Result" "Show final outcome"
        "Display result" "Finished product" ].

(** [QuestionnaireBuilder._training_template]. *)
Definition _training_template : SOPQuestionnaire :=
  template_questionnaire "Training Template"
    "Train employees on procedure" "Employees"
    PROFESSIONAL "workplace"
    [ SOPSegment_positional 1 "Safety First" "Safety guidelines"
        "Show safety gear" "PPE and precautions";
      SOPSegment_positional 2 "Setup" "Prepare workspace"
        "Arrange tools" "Organized workspace";
      SOPSegment_positional 3 "Procedure" "Execute main task"
        "Perform procedure" "Correct technique";
      SOPSegment_positional 4 "Completion" "Wrap up and verify"
        "Quality check" "Verification process" ].

(** [QuestionnaireBuilder._announcement_template]. *)
Definition _announcement_template : SOPQuestionnaire :=
  template_questionnaire "Announcement Template"
    "Announce news or updates" "Team members or customers"
    PROFESSIONAL "office_or_studio"
    [ SOPSegment_positional 1 "Greeting" "Welcome and introduce topic"
        "Greet audience" "Presenter speaking";
      SOPSegment_positional 2 "Announcement" "Share the news"
        "State announcement" "Key information";
      SOPSegment_positional 3 "Impact" "Explain what it means"
        "Describe benefits" "Visual of impact";
      SOPSegment_positional 4 "Next Steps" "Call to action"
        "Direct next steps" "Action items" ].

(** [d.get(k, default)] on a dictionary of questionnaires. *)
Fixpoint template_get (d : list (string * SOPQuestionnaire)) (k : string)
         (default : SOPQuestionnaire) : SOPQuestionnaire :=
  match d with
  | [] => default
  | (k', v) :: d' => if String.eqb k k' then v else template_get d' k default
  end.

(** [QuestionnaireBuilder.quick_template]. *)
Definition quick_template (template_name : string) : SOPQuestionnaire :=
  let templates :=
    [ ("product_demo", _product_demo_template);
      ("how_to", _how_to_template);
      ("training", _training_template);
      ("announcement", _announcement_template) ] in
  template_get templates template_name _product_demo_template.

End Questionnaire.

(* ================================================================== *)
(** * src/config.py *)
(* ================================================================== *)

Module Config.

(** The fields of [VEO3Config] the client reads. *)
Record VEO3Config : Type := mkConfig {
  api_key : string;
  model : string;
  api_endpoint : string;
  default_duration : Z;
  resolution : string;
  fps : Z;
  aspect_ratio : string;
  output_dir : string;
  max_retries : Z
}.

End Config.

(* ================================================================== *)
(** * src/veo3_client.py *)
(* ================================================================== *)

Module Client.
Import Py.

Definition dict : Type := list (string * value).

Record VideoGenerationRequest : Type := mkRequest {
  prompt : string;
  duration : option Z;
  resolution : option string;
  fps : option Z;
  aspect_ratio : option string;
  consistency_markers : option dict;
  scene_id : option string;
  sequence_id : option string
}.

(** The dataclass checks no type: [video_url], [metadata] and [error] hold
    whatever the client was answered, so they are kept as JSON values,
    [VNone] being [None]. *)
Record VideoGenerationResponse : Type := mkResponse {
  success : bool;
  video_path : option string;
  video_url : value;
  metadata : value;
  error : value;
  retry_count : Z
}.

(** [VideoGenerationResponse(success=False, error=message)]. *)
Definition failed_with (message : value) : VideoGenerationResponse :=
  mkResponse false None VNone VNone message 0.

(** The same with a text for [error]. *)
Definition failed (msg : string) : VideoGenerationResponse :=
  failed_with (VStr msg).

(** [VideoGenerationResponse(success=True, video_path=..., video_url=...,
    metadata=...)]. *)
Definition succeeded (path : string) (url meta : value)
  : VideoGenerationResponse :=
  mkResponse true (Some path) url meta VNone 0.

(** What the client can catch: the HTTP library's [RequestException]
    (connection errors, bad status codes) and any other [Exception];
    each carries the text [str(e)] yields. *)
Inductive Exception : Type :=
| RequestException (text : string)
| OtherException (text : string).

Definition str_of_exception (e : Exception) : string :=
  match e with
  | RequestException t => t
  | OtherException t => t
  end.

(** The [AttributeError] of [v.name] when [v] has no attribute [name]. *)
Definition no_attribute (v : value) (name : string) : Exception :=
  OtherException
    ("'" +++ type_name v +++ "' object has no attribute '" +++ name +++ "'").

(** The JSON object answered to the [generateVideo] POST, read at the keys
    the client looks at. *)
Record GenerateResult : Type := mkGenerateResult {
  operationId : option string;
  videoUrl : option string;
  result_metadata : option dict
}.

(** The collaborators of the client. [post_generate url payload] is
    [requests.post(...)], [raise_for_status()] and [json()] together;
    [get_operation url k] is the same for the status GET issued after [k]
    earlier ones, its answer being whatever JSON value the service sent;
    [fetch_video url path] is the [requests.get] on the value found under
    ["videoUrl"] and the streaming of the artifact into [path], and answers
    the exception that interrupted them, if any; [time_now k] is
    [int(time.time())] when the clock is read after [k] earlier readings. *)
Record World : Type := mkWorld {
  post_generate : string -> dict -> result Exception GenerateResult;
  get_operation : string -> nat -> result Exception value;
  fetch_video : value -> string -> option Exception;
  time_now : nat -> Z
}.

(** What the client has done so far: requests sent, seconds slept, files
    written, latest first, and readings of the clock. *)
Record Effects : Type := mkEffects {
  posts : nat;
  polls : nat;
  slept : Z;
  downloads : list string;
  clock_reads : nat
}.

Definition no_effects : Effects := mkEffects 0 0 0 [] 0.

(** Computations that count their effects and may raise. *)
Definition M (A : Type) : Type := Effects -> result Exception A * Effects.

Definition ret {A : Type} (a : A) : M A := fun st => (Ok a, st).

Definition raise {A : Type} (e : Exception) : M A := fun st => (Raise e, st).

Definition bindM {A B : Type} (c : M A) (k : A -> M B) : M B :=
  fun st =>
    match c st with
    | (Ok a, st') => k a st'
    | (Raise e, st') => (Raise e, st')
    end.

(** [try: c  except Exception as e: h e]. *)
Definition try_except {A : Type} (c : M A) (h : Exception -> M A) : M A :=
  fun st =>
    match c st with
    | (Ok a, st') => (Ok a, st')
    | (Raise e, st') => h e st'
    end.

Local Notation "x <- c ;; k" := (bindM c (fun x => k))
  (at level 61, c at next level, right associativity).
Local Notation "c ;;; k" := (bindM c (fun _ => k))
  (at level 61, right associativity).

Definition http_post (w : World) (url : string) (payload : dict)
  : M GenerateResult :=
  fun st =>
    (post_generate w url payload,
     mkEffects (S (posts st)) (polls st) (slept st) (downloads st)
               (clock_reads st)).

Definition http_get (w : World) (url : string) : M value :=
  fun st =>
    (get_operation w url (polls st),
     mkEffects (posts st) (S (polls st)) (slept st) (downloads st)
               (clock_reads st)).

(** [time.sleep(seconds)]. *)
Definition sleep (seconds : Z) : M unit :=
  fun st =>
    (Ok tt,
     mkEffects (posts st) (polls st) (slept st + seconds) (downloads st)
               (clock_reads st)).

(** [int(time.time())]. *)
Definition read_clock (w : World) : M Z :=
  fun st =>
    (Ok (time_now w (clock_reads st)),
     mkEffects (posts st) (polls st) (slept st) (downloads st)
               (S (clock_reads st))).

(** The [requests.get(..., stream=True)], [raise_for_status()] and chunked
    write of [_download_video]. *)
Definition stream_to_file (w : World) (url : value) (path : string)
  : M unit :=
  fun st =>
    match fetch_video w url path with
    | Some e => (Raise e, st)
    | None =>
        (Ok tt,
         mkEffects (posts st) (polls st) (slept st) (path :: downloads st)
                   (clock_reads st))
    end.

(** [v.get(k, default)]: only a dictionary has a [get]. *)
Definition get_attr (v : value) (k : string) (default : value) : M value :=
  match v with
  | VDict d => ret (get_default d k default)
  | _ => raise (no_attribute v "get")
  end.

(** [a or b] on an optional [int] and on an optional [str]. *)
Definition or_int (a : option Z) (b : Z) : Z :=
  match a with
  | Some n => if Z.eqb n 0 then b else n
  | None => b
  end.

Definition or_str (a : option string) (b : string) : string :=
  match a with
  | Some s => if truthy_str s then s else b
  | None => b
  end.

Definition startswith_sep (s : string) : bool :=
  match s with
  | String c _ => Ascii.eqb c "/"%char
  | EmptyString => false
  end.

Fixpoint endswith_sep (s : string) : bool :=
  match s with
  | EmptyString => false
  | String c EmptyString => Ascii.eqb c "/"%char
  | String _ s' => endswith_sep s'
  end.

(** [os.path.join(a, b)] on a POSIX system. *)
Definition os_path_join (a b : string) : string :=
  if startswith_sep b then b
  else if negb (truthy_str a) || endswith_sep a then a +++ b
  else a +++ "/" +++ b.

Definition max_polls : nat := 60.
Definition poll_interval : Z := 5.

Section WithConfig.
Variable config : Config.VEO3Config.
Variable w : World.

(** [VEO3Client._download_video]. *)
Definition _download_video (a_video_url : value)
           (a_scene_id : option string) : M string :=
  now <- read_clock w ;;
  let filename :=
    or_str a_scene_id "video" +++ "_" +++ str_of_int now +++ ".mp4" in
  let output_path := os_path_join (Config.output_dir config) filename in
  try_except
    (stream_to_file w a_video_url output_path ;;;
     ret output_path)
    (fun e => raise e).

(** One turn of the [for i in range(max_polls)] loop of
    [_poll_generation_status]: [Some r] when the turn executes
    [return r], [None] when it reaches the end of the loop body. The first
    use of the answer is [result.get("done")], which raises an
    [AttributeError] on anything but a dictionary; ["error" in result] and
    [result["error"]] then act on a dictionary [d]. *)
Definition poll_once (api_url : string) (request : VideoGenerationRequest)
  : M (option VideoGenerationResponse) :=
  try_except
    (result <- http_get w api_url ;;
     returned <-
       match result with
       | VDict d =>
           if truthy (get_default d "done" VNone) then
             match dict_get d "error" with
             | Some err =>
                 message <- get_attr err "message" (VStr "Unknown error") ;;
                 ret (Some (failed_with message))
             | None =>
                 a_video_url <-
                   get_attr (get_default d "response" (VDict []))
                            "videoUrl" VNone ;;
                 if truthy a_video_url then
                   a_video_path <-
                     _download_video a_video_url (scene_id request) ;;
                   a_metadata <-
                     get_attr (get_default d "response" (VDict []))
                              "metadata" (VDict []) ;;
                   ret (Some (succeeded a_video_path a_video_url a_metadata))
                 else ret None
             end
           else ret None
       | _ => raise (no_attribute result "get")
       end ;;
     match returned with
     | Some r => ret (Some r)
     | None => sleep poll_interval ;;; ret None
     end)
    (fun e =>
       ret (Some (failed ("Polling failed: " +++ str_of_exception e)))).

(** The loop of [_poll_generation_status] with [n] turns left, and the
    [return] that follows it. *)
Fixpoint poll_loop (api_url : string) (request : VideoGenerationRequest)
         (n : nat) : M VideoGenerationResponse :=
  match n with
  | O => ret (failed "Generation timeout")
  | S n' =>
      returned <- poll_once api_url request ;;
      match returned with
      | Some r => ret r
      | None => poll_loop api_url request n'
      end
  end.

(** [VEO3Client._poll_generation_status]. *)
Definition _poll_generation_status (operation_id : string)
           (request : VideoGenerationRequest) : M VideoGenerationResponse :=
  let api_url :=
    Config.api_endpoint config +++ "/operations/" +++ operation_id in
  poll_loop api_url request max_polls.

(** The request body [generate_video] sends. *)
Definition payload_of (request : VideoGenerationRequest) : dict :=
  let a_duration :=
    or_int (duration request) (Config.default_duration config) in
  let a_resolution :=
    or_str (resolution request) (Config.resolution config) in
  let a_fps := or_int (fps request) (Config.fps config) in
  let a_aspect_ratio :=
    or_str (aspect_ratio request) (Config.aspect_ratio config) in
  let payload :=
    [ ("prompt", VStr (prompt request));
      ("parameters",
        VDict [ ("duration", VInt a_duration);
                ("resolution", VStr a_resolution);
                ("fps", VInt a_fps);
                ("aspect_ratio", VStr a_aspect_ratio) ]) ] in
  match consistency_markers request with
  | Some ((_ :: _) as markers) =>
      payload ++ [("consistency_markers", VDict markers)]
  | _ => payload
  end.

(** [VEO3Client.generate_video]. *)
Definition generate_video (request : VideoGenerationRequest)
  : M VideoGenerationResponse :=
  let api_url :=
    Config.api_endpoint config +++ "/" +++ Config.model config
    +++ ":generateVideo" in
  let payload := payload_of request in
  try_except
    (result <- http_post w api_url payload ;;
     match operationId result with
     | Some operation_id => _poll_generation_status operation_id request
     | None =>
         match videoUrl result with
         | Some url =>
             a_video_path <- _download_video (VStr url) (scene_id request) ;;
             ret (succeeded a_video_path (VStr url)
                    (VDict match result_metadata result with
                           | Some m => m
                           | None => []
                           end))
         | None => ret (failed "Unexpected API response format")
         end
     end)
    (fun e =>
       match e with
       | RequestException _ => ret (failed (str_of_exception e))
       | OtherException _ => ret (failed (str_of_exception e))
       end).

(** [VEO3Client.validate_prompt]. *)
Definition validate_prompt (a_prompt : string) : bool * option string :=
  if negb (truthy_str a_prompt)
     || Nat.eqb (String.length (strip a_prompt)) 0 then
    (false, Some "Prompt cannot be empty")
  else if Nat.ltb (String.length a_prompt) 10 then
    (false, Some "Prompt too short (minimum 10 characters)")
  else if Nat.ltb 5000 (String.length a_prompt) then
    (false, Some "Prompt too long (maximum 5000 characters)")
  else (true, None).

End WithConfig.

End Client.

(* ================================================================== *)
(** * src/sop_translator.py *)
(* ================================================================== *)

Module Translator.
Import Py.
Import Questionnaire.

Definition VideoStyle_eqb (a b : VideoStyle) : bool :=
  match a, b with
  | PROFESSIONAL, PROFESSIONAL | CASUAL, CASUAL
  | EDUCATIONAL, EDUCATIONAL | PROMOTIONAL, PROMOTIONAL => true
  | _, _ => false
  end.

(** [d.get(k, default)] on a dictionary keyed by [VideoStyle]. *)
Fixpoint style_get (d : list (VideoStyle * string)) (k : VideoStyle)
         (default : string) : string :=
  match d with
  | [] => default
  | (k', v) :: d' => if VideoStyle_eqb k k' then v else style_get d' k default
  end.

(** The two tables [SOPPromptTranslator.__init__] builds. *)
Definition style_to_cinematography : list (VideoStyle * string) :=
  [ (PROFESSIONAL,
      "steady, professional camera work, clean composition, corporate aesthetic");
    (CASUAL,
      "handheld feel, natural movement, relaxed framing, approachable style");
    (EDUCATIONAL,
      "clear, focused shots, instructional framing, detailed visibility");
    (PROMOTIONAL,
      "dynamic angles, engaging movement, polished production, eye-catching") ].

Definition style_to_lighting : list (VideoStyle * string) :=
  [ (PROFESSIONAL, "bright, even professional lighting, high-key setup");
    (CASUAL, "natural lighting, soft shadows, warm tones");
    (EDUCATIONAL,
      "clear, well-lit environment, no harsh shadows, visibility priority");
    (PROMOTIONAL,
      "dramatic lighting, vibrant colors, high contrast, professional grade") ].

Section Segment.
Variable segment : SOPSegment.
Variable questionnaire : SOPQuestionnaire.
Variable previous_segment : option SOPSegment.

(** Lines 50-58: header and scene description. *)
Definition scene_part : list string :=
  [ "[8-second video segment - " +++ title segment +++ "]";
    "";
    "Scene: " +++ description segment;
    "Key Action: " +++ key_action segment;
    "Visual Focus: " +++ visual_focus segment;
    "" ].

(** Lines 60-73: presenter. *)
Definition presenter_part : list string :=
  if String.eqb (presenter_type questionnaire) "person" then
    (match presenter_description questionnaire with
     | Some d => if truthy_str d then ["Presenter: " +++ d] else []
     | None => []
     end)
    ++ (match presenter_clothing questionnaire with
        | Some c => if truthy_str c then ["Clothing: " +++ c] else []
        | None => []
        end)
    ++ [ "Presenter position: Center frame, professional posture, engaging with camera";
         "" ]
  else if String.eqb (presenter_type questionnaire) "animated_character" then
    (match presenter_description questionnaire with
     | Some d => if truthy_str d then ["Animated Character: " +++ d] else []
     | None => []
     end)
    ++ [ "Character animation: Smooth, professional quality, expressive";
         "" ]
  else [].

(** Lines 75-84: location and environment. *)
Definition location_part : list string :=
  (if truthy_opt (location segment) then
     ["Location: " +++ str_of_opt (location segment)]
   else if truthy_str (primary_location questionnaire) then
     ["Location: " +++ primary_location questionnaire]
   else [])
  ++ (if truthy_str (location_description questionnaire) then
        [location_description questionnaire]
      else [])
  ++ [""].

(** Lines 86-99: cinematography and lighting. *)
Definition style_part : list string :=
  let cinematography :=
    style_get style_to_cinematography (video_style questionnaire)
              "professional, clean composition" in
  let lighting :=
    style_get style_to_lighting (video_style questionnaire)
              (lighting_preference questionnaire) in
  [ "Cinematography: " +++ cinematography;
    "Lighting: " +++ lighting;
    "" ].

(** Lines 101-105: brand colors. *)
Definition colors_part : list string :=
  if truthy_list (brand_colors questionnaire) then
    let colors := join ", " (brand_colors questionnaire) in
    [ "Color palette: " +++ colors +++ ", maintaining brand consistency";
      "" ]
  else [].

(** Lines 107-113: text overlay. *)
Definition overlay_part : list string :=
  if truthy_opt (text_overlay segment) then
    [ "Text Overlay: '" +++ str_of_opt (text_overlay segment) +++ "'";
      "Text position: Lower third, clean sans-serif font, high contrast" ]
    ++ (match brand_colors questionnaire with
        | c0 :: _ => ["Text color: " +++ c0]
        | [] => []
        end)
    ++ [""]
  else [].

(** Lines 115-119: props. *)
Definition props_part : list string :=
  if truthy_list (props_needed segment) then
    let props := join ", " (props_needed segment) in
    [ "Props visible: " +++ props; "" ]
  else [].

(** Lines 121-135: continuity anchors. A dataclass instance is always
    true, so [previous_segment] is true exactly when it is not [None]. *)
Definition continuity_part : list string :=
  match previous_segment with
  | Some previous =>
      if Z.ltb 1 (segment_number segment) then
        ["CONTINUITY REQUIREMENTS:"]
        ++ (if str_in (presenter_type questionnaire)
                      ["person"; "animated_character"] then
              [ "- Presenter MUST match exact appearance from Segment "
                +++ str_of_int (segment_number previous) ]
              ++ (if truthy_opt (presenter_clothing questionnaire) then
                    [ "- Maintain exact clothing: "
                      +++ str_of_opt (presenter_clothing questionnaire) ]
                  else [])
            else [])
        ++ (if truthy_str (primary_location questionnaire) then
              [ "- Location MUST be identical to previous segment";
                "- Lighting MUST match previous segment exactly" ]
            else [])
        ++ [ "- Color palette MUST be consistent with previous segment";
             "" ]
      else []
  | None => []
  end.

(** Lines 137-143: quality constraints. *)
Definition technical_part : list string :=
  [ "Technical Requirements:";
    "- Exactly 8 seconds duration";
    "- Smooth, professional quality";
    "- No camera shake or jitter";
    "- Clear, in-focus subjects";
    "- Professional production value" ].

(** Lines 145-151: consistency mode enforcement. *)
Definition mode_line : string :=
  if String.eqb (consistency_mode questionnaire) "strict" then
    "- STRICT consistency: no variations from established baseline"
  else if String.eqb (consistency_mode questionnaire) "balanced" then
    "- Balanced: maintain core consistency while allowing natural variation"
  else
    "- Creative: preserve key elements but allow creative expression".

(** Lines 155-163: negative constraints. *)
Definition negative_part : list string :=
  [ "DO NOT INCLUDE:";
    "- Unrelated objects or people";
    "- Sudden lighting changes";
    "- Jump cuts or abrupt transitions";
    "- Inconsistent styles or aesthetics" ]
  ++ (if Z.ltb 1 (segment_number segment) then
        [ "- ANY changes to presenter appearance";
          "- ANY changes to location or background" ]
      else []).

(** The list [prompt_parts] as it stands at the [return]. *)
Definition prompt_parts : list string :=
  scene_part ++ presenter_part ++ location_part ++ style_part
  ++ colors_part ++ overlay_part ++ props_part ++ continuity_part
  ++ technical_part ++ [mode_line] ++ [""] ++ negative_part.

(** [SOPPromptTranslator.translate_segment]. *)
Definition translate_segment : string := join newline prompt_parts.

End Segment.

(** The [consistency_markers] dictionary of one request. *)
Definition markers_of (segment : SOPSegment) (questionnaire : SOPQuestionnaire)
  : list (string * value) :=
  [ ("segment_number", VInt (segment_number segment));
    ("sequence_id", VStr (project_title questionnaire));
    ("consistency_mode", VStr (consistency_mode questionnaire)) ]
  ++ (if str_in (presenter_type questionnaire)
                ["person"; "animated_character"] then
        [("presenter_id", VStr "presenter_001")]
      else [])
  ++ (if truthy_str (primary_location questionnaire) then
        [("location_id", VStr "location_001")]
      else []).

(** The body of the [for segment in questionnaire.segments] loop. *)
Definition request_of (segment : SOPSegment) (questionnaire : SOPQuestionnaire)
           (previous_segment : option SOPSegment)
  : Client.VideoGenerationRequest :=
  let a_prompt := translate_segment segment questionnaire previous_segment in
  Client.mkRequest
    a_prompt
    (Some (duration segment))
    None None None
    (Some (markers_of segment questionnaire))
    (Some (project_title questionnaire +++ "_segment_"
           +++ str_of_int (segment_number segment)))
    (Some (project_title questionnaire)).

(** The loop itself: the requests appended for [segs], in order, starting
    with [previous_segment] as the predecessor. *)
Fixpoint translate_loop (questionnaire : SOPQuestionnaire)
         (segs : list SOPSegment) (previous_segment : option SOPSegment)
  : list Client.VideoGenerationRequest :=
  match segs with
  | [] => []
  | segment :: rest =>
      request_of segment questionnaire previous_segment
      :: translate_loop questionnaire rest (Some segment)
  end.

(** [SOPPromptTranslator.translate_questionnaire]. *)
Definition translate_questionnaire (questionnaire : SOPQuestionnaire)
  : result exn (list Client.VideoGenerationRequest) :=
  let '(is_valid, a_error) := validate questionnaire in
  if negb is_valid then
    Raise (ValueError ("Invalid questionnaire: " +++ str_of_opt a_error))
  else Ok (translate_loop questionnaire (segments questionnaire) None).

(** [SOPPromptTranslator.generate_intro_outro]. *)
Definition intro_outro_parts (questionnaire : SOPQuestionnaire)
           (segment_type : string) : list string :=
  let company :=
    if truthy_opt (company_name questionnaire) then
      ["Company: " +++ str_of_opt (company_name questionnaire)]
    else [] in
  let brand :=
    if truthy_list (brand_colors questionnaire) then
      let colors := join ", " (brand_colors questionnaire) in
      ["Brand colors: " +++ colors]
    else [] in
  (if String.eqb segment_type "intro" then
     [ "[3-second intro - " +++ project_title questionnaire +++ "]";
       "";
       "Professional video intro for: " +++ sop_purpose questionnaire ]
     ++ company ++ brand
     ++ [ "";
          "Visual Elements:";
          "- Title text: '" +++ project_title questionnaire +++ "'";
          "- Clean, professional animation";
          "- Brand colors prominent" ]
     ++ (if truthy_opt (logo_placement questionnaire) then
           [ "- Logo placement: "
             +++ str_of_opt (logo_placement questionnaire) ]
         else [])
   else
     [ "[3-second outro - Call to Action]";
       "";
       "Professional video outro with call to action" ]
     ++ company ++ brand
     ++ [ "";
          "Visual Elements:";
          "- 'Thank you' or 'Questions?' text";
          "- Contact information display";
          "- Clean fade out" ]
     ++ (if truthy_opt (logo_placement questionnaire) then
           ["- Logo: " +++ str_of_opt (logo_placement questionnaire)]
         else []))
  ++ [ ""; "Technical:" ]
  ++ (if String.eqb segment_type "intro" then ["- Exactly 3 seconds"]
      else ["- Exactly 3 seconds"])
  ++ [ "- Professional animation quality";
       "- Smooth, polished execution" ].

Definition generate_intro_outro (questionnaire : SOPQuestionnaire)
           (segment_type : string) : string :=
  join newline (intro_outro_parts questionnaire segment_type).

(** The table [get_platform_specs] builds. *)
Definition platform_entry (ratios : list string) (max_duration
           recommended_duration : Z) (resolution : string)
  : list (string * value) :=
  [ ("aspect_ratios", of_str_list ratios);
    ("max_duration", VInt max_duration);
    ("recommended_duration", VInt recommended_duration);
    ("resolution", VStr resolution);
    ("format", VStr "mp4") ].

Definition specs : list (string * list (string * value)) :=
  [ ("instagram", platform_entry ["16:9"; "1:1"; "9:16"] 60 30 "1080x1080");
    ("tiktok", platform_entry ["9:16"] 60 15 "1080x1920");
    ("youtube_shorts", platform_entry ["9:16"] 60 30 "1080x1920");
    ("linkedin", platform_entry ["16:9"] 600 30 "1920x1080");
    ("facebook", platform_entry ["16:9"; "1:1"] 240 30 "1920x1080");
    ("twitter", platform_entry ["16:9"; "1:1"] 140 30 "1920x1080") ].

(** [d.get(k)] and [d.get(k, default)] on the table. *)
Fixpoint specs_lookup (d : list (string * list (string * value)))
         (k : string) : option (list (string * value)) :=
  match d with
  | [] => None
  | (k', v) :: d' => if String.eqb k k' then Some v else specs_lookup d' k
  end.

Definition specs_get (d : list (string * list (string * value)))
           (k : string) (default : list (string * value))
  : list (string * value) :=
  match specs_lookup d k with
  | Some v => v
  | None => default
  end.

(** [SOPPromptTranslator.get_platform_specs]. The default is
    [specs["instagram"]]; the table has that key, so the lookup of the
    default never takes its own default. *)
Definition get_platform_specs (platform : string) : list (string * value) :=
  specs_get specs (lower platform) (specs_get specs "instagram" []).

End Translator.

(* ================================================================== *)
(** * src/config.py, the dataclass in full *)
(* ================================================================== *)

Module ConfigDataclass.
Import Py.

Record VEO3Config : Type := mkVEO3Config {
  api_key : string;
  model : string;
  api_endpoint : string;
  consistency_mode : string;
  default_duration : Z;
  resolution : string;
  fps : Z;
  aspect_ratio : string;
  output_dir : string;
  metadata_dir : string;
  character_tracking : bool;
  location_tracking : bool;
  voice_tracking : bool;
  lighting_tracking : bool;
  style_tracking : bool;
  prompt_validation : bool;
  reference_checking : bool;
  continuity_validation : bool;
  max_retries : Z;
  log_level : string
}.

(** [VEO3Config(api_key=...)]: every other field at its default. *)
Definition VEO3Config_defaults (a_api_key : string) : VEO3Config :=
  mkVEO3Config a_api_key "veo-3"
    "https://generativelanguage.googleapis.com/v1beta/models" "strict"
    5 "1080p" 24 "16:9" "./output/videos" "./data/metadata"
    true true true true true true true true 3 "INFO".

(** The part of the configuration the client reads. *)
Definition client_config (c : VEO3Config) : Config.VEO3Config :=
  Config.mkConfig (api_key c) (model c) (api_endpoint c)
    (default_duration c) (resolution c) (fps c) (aspect_ratio c)
    (output_dir c) (max_retries c).

Inductive ConfigError : Type :=
| ValueError (msg : string)
| OSError (msg : string).

(** [os.makedirs(path, exist_ok=True)]: [made] lists the calls that went
    through so far, latest first, and [makedirs_error made path] is the text
    of the [OSError] the call raises then, if it raises. *)
Definition makedirs (makedirs_error : list string -> string -> option string)
           (path : string) (made : list string)
  : result ConfigError unit * list string :=
  match makedirs_error made path with
  | Some msg => (Raise (OSError msg), made)
  | None => (Ok tt, path :: made)
  end.

(** [VEO3Config.validate]. *)
Definition validate (makedirs_error : list string -> string -> option string)
           (self : VEO3Config) (made : list string)
  : result ConfigError bool * list string :=
  if negb (truthy_str (api_key self)) then
    (Raise (ValueError "API key is required"), made)
  else if negb (str_in (consistency_mode self)
                       ["strict"; "balanced"; "creative"]) then
    (Raise (ValueError ("Invalid consistency mode: "
                        +++ consistency_mode self)), made)
  else if Z.ltb (default_duration self) 1
          || Z.ltb 60 (default_duration self) then
    (Raise (ValueError "Duration must be between 1 and 60 seconds"), made)
  else
    match makedirs makedirs_error (output_dir self) made with
    | (Raise e, made1) => (Raise e, made1)
    | (Ok _, made1) =>
        match makedirs makedirs_error (metadata_dir self) made1 with
        | (Raise e, made2) => (Raise e, made2)
        | (Ok _, made2) => (Ok true, made2)
        end
    end.

End ConfigDataclass.

(* ================================================================== *)
(** * example_sop_video.py: the generation loop of the driver *)
(* ================================================================== *)

Module Driver.
Import Py Client.

Section WithClient.
Variable config : Config.VEO3Config.
Variable w : World.

(** The loop [for i, request in enumerate(requests, 1)] of
    [example_product_demo], started with [videos] already collected; it
    answers the list [videos] as it stands when the loop is left. The
    progress lines it prints are left out. *)
Fixpoint generate_segments (requests : list VideoGenerationRequest)
         (videos : list (option string)) : M (list (option string)) :=
  match requests with
  | [] => ret videos
  | request :: rest =>
      bindM (generate_video config w request)
            (fun response =>
               if success response then
                 generate_segments rest (videos ++ [video_path response])
               else ret videos)
  end.

End WithClient.

End Driver.

(* ================================================================== *)
(** * api/index.py *)
(* ================================================================== *)

Module Api.
Import Py Questionnaire.

(** The request models. The [Field] bounds pydantic enforces before an
    endpoint runs are [SegmentRequest_fields] and
    [QuestionnaireRequest_fields] below. *)
Record SegmentRequest : Type := mkSegmentRequest {
  s_segment_number : Z;
  s_title : string;
  s_description : string;
  s_key_action : string;
  s_visual_focus : string;
  s_duration : Z;
  s_text_overlay : option string;
  s_voiceover_script : option string;
  s_props_needed : list string
}.

Record QuestionnaireRequest : Type := mkQuestionnaireRequest {
  r_project_title : string;
  r_sop_purpose : string;
  r_target_audience : string;
  r_video_style : string;
  r_presenter_type : string;
  r_presenter_description : option string;
  r_presenter_clothing : option string;
  r_primary_location : string;
  r_location_description : string;
  r_lighting_preference : string;
  r_brand_colors : list string;
  r_company_name : option string;
  r_target_platforms : list string;
  r_consistency_mode : string;
  r_segments : list SegmentRequest
}.





Record QuestionnaireResponse : Type := mkQuestionnaireResponse {
  q_success : bool;
  q_message : string;
  questionnaire_id : option string;
  segment_count : option nat;
  total_duration : option Z
}.

Record PromptResponse : Type := mkPromptResponse {
  p_success : bool;
  prompts : list (list (string * value));
  total_prompts : nat
}.

Record HTTPException : Type := mkHTTPException {
  status_code : Z;
  detail : option string
}.

(** What the body of an endpoint's [try] can raise. *)
Inductive Raised : Type :=
| RaisedHTTP (h : HTTPException)
| RaisedOther (e : exn).

(** [str(e)] for the exceptions an endpoint body can meet. The translator
    raises [ValueError] only; the text of the others is given for the sake
    of totality. *)
Definition str_of_exn (e : exn) : string :=
  match e with
  | Py.ValueError msg => msg
  | KeyError key => "'" +++ key +++ "'"
  | NotAMember enum _ => enum
  | FileNotFoundError path => path
  | TypeError v => "'" +++ type_name v +++ "' object"
  end.

(** [except HTTPException: raise] followed by [except Exception as e: raise
    HTTPException(status_code=500, detail=f"{label}: {str(e)}")]. *)
Definition handle {A : Type} (label : string) (body : result Raised A)
  : result HTTPException A :=
  match body with
  | Ok a => Ok a
  | Raise (RaisedHTTP h) => Raise h
  | Raise (RaisedOther e) =>
      Raise (mkHTTPException 500 (Some (label +++ ": " +++ str_of_exn e)))
  end.

(** [d.get(k, default)] on the two string-to-enum maps. *)
Fixpoint enum_get {A : Type} (d : list (string * A)) (k : string)
         (default : A) : A :=
  match d with
  | [] => default
  | (k', v) :: d' => if String.eqb k k' then v else enum_get d' k default
  end.

Definition video_style_map : list (string * VideoStyle) :=
  [ ("professional", PROFESSIONAL); ("casual", CASUAL);
    ("educational", EDUCATIONAL); ("promotional", PROMOTIONAL) ].

Definition platform_map : list (string * PlatformTarget) :=
  [ ("instagram", INSTAGRAM); ("tiktok", TIKTOK);
    ("youtube_shorts", YOUTUBE_SHORTS); ("linkedin", LINKEDIN);
    ("facebook", FACEBOOK); ("twitter", TWITTER) ].

(** The [SOPSegment(...)] call of both endpoints: [location] is not passed
    and keeps its default. *)
Definition to_segment (s : SegmentRequest) : SOPSegment :=
  mkSegment (s_segment_number s) (s_title s) (s_description s)
            (s_key_action s) (s_visual_focus s) (s_duration s)
            (s_text_overlay s) (s_voiceover_script s) (s_props_needed s)
            None.

(** The conversion "to internal format" both endpoints make, lines 139-192
    and 227-279: the fields that are not passed keep their defaults. *)
Definition to_questionnaire (request : QuestionnaireRequest)
  : SOPQuestionnaire :=
  let a_segments := map to_segment (r_segments request) in
  let a_video_style :=
    enum_get video_style_map (lower (r_video_style request)) PROMOTIONAL in
  let a_target_platforms :=
    map (fun p => enum_get platform_map (lower p) INSTAGRAM)
        (r_target_platforms request) in
  mkQuestionnaire (r_project_title request) (r_sop_purpose request)
    (r_target_audience request) a_video_style (r_brand_colors request) []
    a_target_platforms (r_presenter_type request)
    (r_presenter_description request) (r_presenter_clothing request)
    (r_primary_location request) (r_location_description request)
    (r_lighting_preference request) a_segments (r_company_name request)
    None true None false "english" (r_consistency_mode request).

(** [validate_questionnaire], the endpoint. *)
Definition validate_questionnaire (request : QuestionnaireRequest)
  : result HTTPException QuestionnaireResponse :=
  handle "Validation error"
    (let segments := map to_segment (r_segments request) in
     let questionnaire := to_questionnaire request in
     let '(is_valid, a_error) := validate questionnaire in
     if negb is_valid then
       Raise (RaisedHTTP (mkHTTPException 400 a_error))
     else
       Ok (mkQuestionnaireResponse true "Questionnaire is valid"
             (Some (r_project_title request))
             (Some (length segments))
             (Some (sum_ints (map duration segments))))).

(** One element of the [prompts] list of the translate endpoint, [i] being
    the index [enumerate] gives. *)
Definition prompt_entry (i : nat) (req : Client.VideoGenerationRequest)
  : list (string * value) :=
  [ ("segment_number", VInt (Z.of_nat i + 1));
    ("scene_id", of_opt_str (Client.scene_id req));
    ("prompt", VStr (Client.prompt req));
    ("duration", match Client.duration req with
                 | Some d => VInt d
                 | None => VNone
                 end);
    ("consistency_markers", match Client.consistency_markers req with
                            | Some m => VDict m
                            | None => VNone
                            end) ].

(** [[f(i, x) for i, x in enumerate(l)]], counting from [i]. *)
Fixpoint enumerate_from {A B : Type} (f : nat -> A -> B) (i : nat)
         (l : list A) : list B :=
  match l with
  | [] => []
  | x :: l' => f i x :: enumerate_from f (S i) l'
  end.

(** [translate_questionnaire], the endpoint. *)
Definition translate_questionnaire (request : QuestionnaireRequest)
  : result HTTPException PromptResponse :=
  handle "Translation error"
    (match validate_questionnaire request with
     | Raise h => Raise (RaisedHTTP h)
     | Ok validate_response =>
         if negb (q_success validate_response) then
           Raise (RaisedHTTP (mkHTTPException 400
                                (Some "Invalid questionnaire")))
         else
           let questionnaire := to_questionnaire request in
           match Translator.translate_questionnaire questionnaire with
           | Raise e => Raise (RaisedOther e)
           | Ok generation_requests =>
               let a_prompts :=
                 enumerate_from prompt_entry 0 generation_requests in
               Ok (mkPromptResponse true a_prompts (length a_prompts))
           end
     end).

(** One entry of the list [list_templates] answers. *)
Definition template_info (name a_title a_description a_use_case : string)
  : list (string * value) :=
  [ ("name", VStr name);
    ("title", VStr a_title);
    ("description", VStr a_description);
    ("segments", VInt 4);
    ("use_case", VStr a_use_case) ].

(** [list_templates], the endpoint. *)
Definition list_templates : list (string * value) :=
  [ ("templates",
      VList
        [ VDict (template_info "product_demo" "Product Demonstration"
                   "Showcase product features and benefits"
                   "Product launches, feature highlights");
          VDict (template_info "how_to" "How-To Tutorial"
                   "Step-by-step instructional content"
                   "Tutorials, skill training");
          VDict (template_info "training" "Employee Training"
                   "Workplace procedures and protocols"
                   "Onboarding, safety training");
          VDict (template_info "announcement" "Company Announcement"
                   "News and updates"
                   "Company updates, news") ]) ].

Definition valid_templates : list string :=
  ["product_demo"; "how_to"; "training"; "announcement"].

(** [get_template], the endpoint. The 404 is raised before the [try]. *)
Definition get_template (template_name : string)
  : result HTTPException (list (string * value)) :=
  if negb (str_in template_name valid_templates) then
    Raise (mkHTTPException 404
             (Some ("Template not found. Available: "
                    +++ join ", " valid_templates)))
  else
    handle "Template error"
      (let questionnaire := quick_template template_name in
       Ok [ ("template_name", VStr template_name);
            ("questionnaire", VDict (to_dict questionnaire)) ]).

End Api.

(* ================================================================== *)
(** * Notions used to state the properties *)
(* ================================================================== *)

Module Spec.
Import Py.
Import Questionnaire.

(** ** Validation, as the specification words it *)

(** The reasons [validate] can give. *)
Inductive Reason : Type :=
| MissingProjectTitle
| MissingPurpose
| MissingAudience
| ZeroSegments
| TooManySegments
| SegmentMissingTitle (number : Z)
| SegmentMissingDescription (number : Z)
| SegmentMissingKeyAction (number : Z).

Definition message (r : Reason) : string :=
  match r with
  | MissingProjectTitle => "Project title is required"
  | MissingPurpose => "SOP purpose is required"
  | MissingAudience => "Target audience is required"
  | ZeroSegments => "At least one segment is required"
  | TooManySegments => "Maximum 6 segments allowed (48 seconds total)"
  | SegmentMissingTitle n => "Segment " +++ str_of_int n +++ " missing title"
  | SegmentMissingDescription n =>
      "Segment " +++ str_of_int n +++ " missing description"
  | SegmentMissingKeyAction n =>
      "Segment " +++ str_of_int n +++ " missing key action"
  end.

Definition is_empty (s : string) : bool := String.eqb s "".

(** The checks on one segment, in the order of the specification; each
    pairs "this check fails" with the reason to report. *)
Definition segment_checks (s : SOPSegment) : list (bool * Reason) :=
  [ (is_empty (title s), SegmentMissingTitle (segment_number s));
    (is_empty (description s), SegmentMissingDescription (segment_number s));
    (is_empty (key_action s), SegmentMissingKeyAction (segment_number s)) ].

(** All checks on a questionnaire, in the order of the specification. *)
Definition checks (q : SOPQuestionnaire) : list (bool * Reason) :=
  [ (is_empty (project_title q), MissingProjectTitle);
    (is_empty (sop_purpose q), MissingPurpose);
    (is_empty (target_audience q), MissingAudience);
    (Nat.eqb (length (segments q)) 0, ZeroSegments);
    (Nat.ltb 6 (length (segments q)), TooManySegments) ]
  ++ flat_map segment_checks (segments q).

(** Success, or the reason of the first check that fails. *)
Definition first_failure (cs : list (bool * Reason)) : bool * option string :=
  match find fst cs with
  | Some (_, r) => (false, Some (message r))
  | None => (true, None)
  end.

Definition validate_spec (q : SOPQuestionnaire) : bool * option string :=
  first_failure (checks q).

(** A segment with title, description and key action. *)
Definition complete (s : SOPSegment) : Prop :=
  title s <> "" /\ description s <> "" /\ key_action s <> "".

(** The words that end the message about an incomplete segment: those of
    its first missing field. *)
Definition missing_field (s : SOPSegment) : string :=
  if is_empty (title s) then "title"
  else if is_empty (description s) then "description"
  else "key action".

(** ** Changing one field *)

Definition with_number (s : SOPSegment) (n : Z) : SOPSegment :=
  mkSegment n (title s) (description s) (key_action s) (visual_focus s)
            (duration s) (text_overlay s) (voiceover_script s)
            (props_needed s) (location s).

Definition with_duration (s : SOPSegment) (d : Z) : SOPSegment :=
  mkSegment (segment_number s) (title s) (description s) (key_action s)
            (visual_focus s) d (text_overlay s) (voiceover_script s)
            (props_needed s) (location s).

Definition with_segments (q : SOPQuestionnaire) (segs : list SOPSegment)
  : SOPQuestionnaire :=
  mkQuestionnaire (project_title q) (sop_purpose q) (target_audience q)
    (video_style q) (brand_colors q) (brand_fonts q) (target_platforms q)
    (presenter_type q) (presenter_description q) (presenter_clothing q)
    (primary_location q) (location_description q) (lighting_preference q)
    segs (company_name q) (logo_placement q) (intro_outro_needed q)
    (music_style q) (voiceover_needed q) (voiceover_language q)
    (consistency_mode q).

Definition with_mode (q : SOPQuestionnaire) (mode : string)
  : SOPQuestionnaire :=
  mkQuestionnaire (project_title q) (sop_purpose q) (target_audience q)
    (video_style q) (brand_colors q) (brand_fonts q) (target_platforms q)
    (presenter_type q) (presenter_description q) (presenter_clothing q)
    (primary_location q) (location_description q) (lighting_preference q)
    (segments q) (company_name q) (logo_placement q) (intro_outro_needed q)
    (music_style q) (voiceover_needed q) (voiceover_language q)
    mode.

(** The segments renumbered: the one at position [i] gets number
    [numbers (i + start)]. *)
Fixpoint renumber_from (numbers : nat -> Z) (start : nat)
         (segs : list SOPSegment) : list SOPSegment :=
  match segs with
  | [] => []
  | s :: rest =>
      with_number s (numbers start) :: renumber_from numbers (S start) rest
  end.

Definition renumber (numbers : nat -> Z) (q : SOPQuestionnaire)
  : SOPQuestionnaire :=
  with_segments q (renumber_from numbers 0 (segments q)).

(** ** Lines and substrings of a prompt *)

(** [s.split("\n")]. *)
Fixpoint lines (s : string) : list string :=
  match s with
  | EmptyString => [EmptyString]
  | String c s' =>
      if Ascii.eqb c LF then EmptyString :: lines s'
      else match lines s' with
           | l :: ls => String c l :: ls
           | [] => [String c EmptyString]
           end
  end.

(** [t in s]. *)
Fixpoint contains (s t : string) : bool :=
  String.prefix t s
  || match s with
     | EmptyString => false
     | String _ s' => contains s' t
     end.

(** Every character of [s] is white space ([s] may be empty). *)
Fixpoint all_space (s : string) : bool :=
  match s with
  | EmptyString => true
  | String c s' => isspace c && all_space s'
  end.

(** [c * n]. *)
Fixpoint replicate (n : nat) (c : ascii) : string :=
  match n with
  | O => EmptyString
  | S n' => String c (replicate n' c)
  end.

Definition consistency_modes : list string :=
  ["strict"; "balanced"; "creative"].

(** The predecessor the loop of [translate_questionnaire] holds when it
    reaches position [k] of [segs], having started with [first]. *)
Definition predecessor (first : option SOPSegment) (segs : list SOPSegment)
           (k : nat) : option SOPSegment :=
  match k with
  | O => first
  | S k' => nth_error segs k'
  end.

(** The parts of a prompt before and after the consistency-mode line. *)
Definition before_mode (seg : SOPSegment) (q : SOPQuestionnaire)
           (prev : option SOPSegment) : list string :=
  Translator.scene_part seg ++ Translator.presenter_part q
  ++ Translator.location_part seg q ++ Translator.style_part q
  ++ Translator.colors_part q ++ Translator.overlay_part seg q
  ++ Translator.props_part seg ++ Translator.continuity_part seg q prev
  ++ Translator.technical_part.

Definition after_mode (seg : SOPSegment) : list string :=
  [""] ++ Translator.negative_part seg.

(** ** The client *)

(** The two addresses the client calls. *)
Definition generate_url (config : Config.VEO3Config) : string :=
  Config.api_endpoint config +++ "/" +++ Config.model config
  +++ ":generateVideo".

Definition operation_url (config : Config.VEO3Config)
           (operation_id : string) : string :=
  Config.api_endpoint config +++ "/operations/" +++ operation_id.

(** The reading of the clock that a download started in state [st] gets. *)
Definition reading (w : Client.World) (st : Client.Effects) : Z :=
  Client.time_now w (Client.clock_reads st).

(** Where [_download_video] writes the artifact of a scene when the clock
    reads [now]. *)
Definition download_path (config : Config.VEO3Config) (now : Z)
           (scene : option string) : string :=
  Client.os_path_join (Config.output_dir config)
    (Client.or_str scene "video" +++ "_" +++ str_of_int now +++ ".mp4").

(** A status answer that is an object and says done, and one that is an
    object and does not. *)
Definition says_done (d : Client.dict) : Prop :=
  truthy (get_default d "done" VNone) = true.

Definition not_done (r : value) : Prop :=
  exists d, r = VDict d /\ truthy (get_default d "done" VNone) = false.

(** A status answer that lets the polling loop go on: an object that does
    not say done, or one that says done, has no ["error"] key, and whose
    ["response"] is absent or an object without a true ["videoUrl"]. *)
Definition inconclusive (r : value) : Prop :=
  exists d,
    r = VDict d
    /\ (truthy (get_default d "done" VNone) = false
        \/ (dict_get d "error" = None
            /\ exists body,
                 get_default d "response" (VDict []) = VDict body
                 /\ truthy (get_default body "videoUrl" VNone) = false)).

(** The [k] status requests issued from the [start]-th on are all answered,
    and answered inconclusively. *)
Definition inconclusive_before (w : Client.World) (url : string)
           (start k : nat) : Prop :=
  forall j, j < k ->
    exists r, Client.get_operation w url (start + j) = Ok r
              /\ inconclusive r.

(** The effects after [k] more turns of polling that only waited. *)
Definition after_waiting (st : Client.Effects) (k : nat) : Client.Effects :=
  Client.mkEffects (Client.posts st) (Client.polls st + k)
    (Client.slept st + Client.poll_interval * Z.of_nat k)
    (Client.downloads st) (Client.clock_reads st).

(** The effects after one more status request; after one more reading of
    the clock, which is what a download that fails leaves behind; after a
    download into [path], which read the clock; after one more POST. *)
Definition after_poll (st : Client.Effects) : Client.Effects :=
  Client.mkEffects (Client.posts st) (S (Client.polls st))
    (Client.slept st) (Client.downloads st) (Client.clock_reads st).

Definition after_reading (st : Client.Effects) : Client.Effects :=
  Client.mkEffects (Client.posts st) (Client.polls st)
    (Client.slept st) (Client.downloads st) (S (Client.clock_reads st)).

Definition after_download (st : Client.Effects) (path : string)
  : Client.Effects :=
  Client.mkEffects (Client.posts st) (Client.polls st)
    (Client.slept st) (path :: Client.downloads st)
    (S (Client.clock_reads st)).

Definition after_post (st : Client.Effects) : Client.Effects :=
  Client.mkEffects (S (Client.posts st)) (Client.polls st)
    (Client.slept st) (Client.downloads st) (Client.clock_reads st).

(** The metadata of a finished operation, [body] being its ["response"]:
    [result.get("response", {}).get("metadata", {})]. *)
Definition operation_metadata (body : Client.dict) : value :=
  get_default body "metadata" (VDict []).

(** What is reported for an ["error"] object:
    [result["error"].get("message", "Unknown error")]. *)
Definition error_message (err : Client.dict) : value :=
  get_default err "message" (VStr "Unknown error").

(** [v] is what the error object of some status answer holds under
    ["message"]. *)
Definition service_message (w : Client.World) (v : value) : Prop :=
  exists url k d err,
    Client.get_operation w url k = Ok (VDict d)
    /\ dict_get d "error" = Some (VDict err)
    /\ dict_get err "message" = Some v.

(** A response is a failure carrying a text, a failure carrying the message
    of the service, or a success carrying a path, a URL and metadata. *)
Definition failure_or_success (w : Client.World)
           (resp : Client.VideoGenerationResponse) : Prop :=
  (exists text, resp = Client.failed text)
  \/ (exists v, service_message w v /\ resp = Client.failed_with v)
  \/ (exists path url meta, resp = Client.succeeded path url meta).

(** ** Notions for the functions around the claims *)

(** The keys [from_json] reads with [get]: a record may leave them out. *)
Definition optional_keys : list string :=
  [ "brand_colors"; "brand_fonts"; "target_platforms"; "presenter_type";
    "presenter_description"; "presenter_clothing"; "primary_location";
    "location_description"; "lighting_preference"; "segments";
    "company_name"; "logo_placement"; "intro_outro_needed"; "music_style";
    "voiceover_needed"; "voiceover_language"; "consistency_mode" ].

(** What of a questionnaire, of a segment and of the previous segment a
    segment prompt is made of. *)
Definition questionnaire_view (q : SOPQuestionnaire) :=
  (presenter_type q, presenter_description q, presenter_clothing q,
   primary_location q, location_description q, video_style q,
   brand_colors q, consistency_mode q).

Definition segment_view (s : SOPSegment) :=
  (segment_number s, title s, description s, key_action s, visual_focus s,
   text_overlay s, props_needed s, location s).

Definition predecessor_view (prev : option SOPSegment) : option Z :=
  match prev with
  | Some p => Some (segment_number p)
  | None => None
  end.

(** What of a questionnaire an intro and an outro are made of. *)
Definition intro_view (q : SOPQuestionnaire) :=
  (project_title q, sop_purpose q, company_name q, brand_colors q,
   logo_placement q).

Definition outro_view (q : SOPQuestionnaire) :=
  (company_name q, brand_colors q, logo_placement q).

(** The scene id the translator gives a segment. *)
Definition scene_id_of (q : SOPQuestionnaire) (s : SOPSegment)
  : option string :=
  Some (project_title q +++ "_segment_" +++ str_of_int (segment_number s)).

(** The file name [_download_video] builds for a scene when the clock reads
    [now]. *)
Definition download_filename (now : Z) (scene : option string) : string :=
  Client.or_str scene "video" +++ "_" +++ str_of_int now +++ ".mp4".

(** The checks of [VEO3Config.validate] all pass. *)
Definition config_acceptable (c : ConfigDataclass.VEO3Config) : Prop :=
  ConfigDataclass.api_key c <> ""
  /\ In (ConfigDataclass.consistency_mode c) consistency_modes
  /\ (1 <= ConfigDataclass.default_duration c <= 60)%Z.

(** A response together with the downloads made while it was obtained: a
    failure and none, or a success and the one file it names. *)
Definition settled (resp : Client.VideoGenerationResponse)
           (downloads_before downloads_after : list string) : Prop :=
  (exists message,
      resp = Client.failed_with message
      /\ downloads_after = downloads_before)
  \/ (exists path url meta,
        resp = Client.succeeded path url meta
        /\ downloads_after = path :: downloads_before).

(** The record [to_dict] writes for a questionnaire built by the dataclass
    from its four required fields alone: under each other key, the value the
    dataclass defaults to. Likewise for a segment. *)
Definition default_record : list (string * value) :=
  to_dict (SOPQuestionnaire_required "" "" "" PROFESSIONAL).

Definition default_segment_record : list (string * value) :=
  segment_object_items (segment_object (SOPSegment_positional 0 "" "" "" "")).

Definition required_keys : list string :=
  ["project_title"; "sop_purpose"; "target_audience"; "video_style"].

(** The keys under which [to_dict] writes back what [from_json] found:
    every key but the platforms and the segments, which are rebuilt. *)
Definition kept_keys : list string :=
  [ "project_title"; "sop_purpose"; "target_audience"; "video_style";
    "brand_colors"; "brand_fonts"; "presenter_type";
    "presenter_description"; "presenter_clothing"; "primary_location";
    "location_description"; "lighting_preference"; "company_name";
    "logo_placement"; "intro_outro_needed"; "music_style";
    "voiceover_needed"; "voiceover_language"; "consistency_mode" ].

Definition segment_keys : list string :=
  [ "segment_number"; "title"; "description"; "key_action"; "visual_focus";
    "duration"; "text_overlay"; "voiceover_script"; "props_needed";
    "location" ].

(** Under [k], the record [written] holds what the record [data] holds, or
    what [defaults] holds when [data] has no such key. *)
Definition kept_or_default (defaults data written : list (string * value))
           (k : string) : Prop :=
  dict_get written k
  = match dict_get data k with
    | Some v => Some v
    | None => dict_get defaults k
    end.

(** The segment object [o] was loaded from the element [v] of the record's
    segments: [v] is a dictionary, and writing [o] back gives, under each
    of the ten keys, what [v] holds or the default of the dataclass. *)
Definition loaded_segment (v : value) (o : SegmentObject) : Prop :=
  exists s,
    v = VDict s
    /\ Forall (kept_or_default default_segment_record s
                 (segment_object_items o))
              segment_keys.

(** The responses of [generate_video] to requests submitted one after the
    other, each in the state the one before it left, and the state after the
    last. *)
Fixpoint submit_all (config : Config.VEO3Config) (w : Client.World)
         (requests : list Client.VideoGenerationRequest)
         (st : Client.Effects)
  : list Client.VideoGenerationResponse * Client.Effects :=
  match requests with
  | [] => ([], st)
  | request :: rest =>
      match Client.generate_video config w request st with
      | (Ok response, st1) =>
          let (responses, st2) := submit_all config w rest st1 in
          (response :: responses, st2)
      | (Raise _, st1) => ([], st1)
      end
  end.

(** The longest prefix of responses that are all successes. *)
Fixpoint leading_successes (responses : list Client.VideoGenerationResponse)
  : list Client.VideoGenerationResponse :=
  match responses with
  | [] => []
  | r :: rest =>
      if Client.success r then r :: leading_successes rest else []
  end.

End Spec.

(* ================================================================== *)
(** * Concrete questionnaires, requests and worlds *)
(* ================================================================== *)

Module Examples.
Import Py.
Import Questionnaire.

(** [SOPSegment(n, title, description, key_action, visual_focus)]. *)
Definition seg (n : Z) (t d k f : string) : SOPSegment :=
  mkSegment n t d k f 8 None None [] None.

(** [SOPQuestionnaire(project_title=..., sop_purpose=..., target_audience=...,
    video_style=..., presenter_type=..., presenter_description=...,
    consistency_mode=..., segments=...)], the other fields at their
    defaults. *)
Definition questionnaire (a_title a_purpose a_audience : string)
           (style : VideoStyle) (presenter : string)
           (presenter_desc : option string) (mode : string)
           (segs : list SOPSegment) : SOPQuestionnaire :=
  mkQuestionnaire a_title a_purpose a_audience style [] [] []
    presenter presenter_desc None "" "" "bright_professional"
    segs None None true None false "english" mode.

Definition intro : SOPSegment :=
  seg 1 "Introduction" "Introduce the product" "Show product"
      "Product close-up".

Definition feature : SOPSegment :=
  seg 2 "Key Feature" "Demonstrate main feature" "Use feature"
      "Feature in action".

(** The scenario of the specification: project "Demo", two segments,
    promotional style, a person described as "X", strict consistency. *)
Definition demo : SOPQuestionnaire :=
  questionnaire "Demo" "Demonstrate the product" "Customers" PROMOTIONAL
                "person" (Some "X") "strict" [intro; feature].

(** The same project with no segment, and with seven. *)
Definition demo_empty : SOPQuestionnaire := Spec.with_segments demo [].

Definition demo_seven : SOPQuestionnaire :=
  Spec.with_segments demo
    [intro; feature; feature; feature; feature; feature; feature].

(** A second segment numbered 2 that lacks its description. *)
Definition demo_incomplete : SOPQuestionnaire :=
  Spec.with_segments demo
    [intro; seg 2 "Key Feature" "" "Use feature" "Feature in action"].

(** Nothing filled in at all. *)
Definition blank_questionnaire : SOPQuestionnaire :=
  questionnaire "" "" "" PROFESSIONAL "none" None "strict" [].

(** Segments whose numbers repeat, skip and ignore their positions. *)
Definition demo_misnumbered : SOPQuestionnaire :=
  Spec.with_segments demo
    [Spec.with_number intro 7; Spec.with_number feature 7;
     Spec.with_number feature (-3)].

(** A single segment that calls itself number 7. *)
Definition demo_seventh_only : SOPQuestionnaire :=
  Spec.with_segments demo [Spec.with_number feature 7].

(** Every optional field populated, some lists empty. *)
Definition full : SOPQuestionnaire :=
  mkQuestionnaire "Full" "Show everything" "Everyone" EDUCATIONAL
    ["#0066CC"; "#FFFFFF"] [] [INSTAGRAM; TIKTOK]
    "animated_character" (Some "A friendly robot") (Some "Blue suit")
    "studio" "A bright studio" "soft"
    [ mkSegment 1 "One" "First" "Wave" "Robot" 8 (Some "Hello")
                (Some "Welcome") ["table"; "lamp"] (Some "lobby");
      mkSegment 2 "Two" "Second" "Point" "Screen" 6 (Some "Look")
                (Some "See here") [] (Some "lab") ]
    (Some "SmartTech Inc") (Some "top right") false (Some "upbeat") true
    "french" "balanced".

(** A configuration with the defaults of [VEO3Config]. *)
Definition config : Config.VEO3Config :=
  Config.mkConfig "key" "veo-3"
    "https://generativelanguage.googleapis.com/v1beta/models"
    5 "1080p" 24 "16:9" "./output/videos" 3.

Definition request : Client.VideoGenerationRequest :=
  Client.mkRequest "A calm lake at dawn" None None None None None
                   (Some "scene_1") None.

(** The service answers the POST with an operation to poll. *)
Definition accepted : result Client.Exception Client.GenerateResult :=
  Ok (Client.mkGenerateResult (Some "op-1") None None).

(** [{"done": true, "response": {"videoUrl": "http://x/v.mp4"}}]. *)
Definition finished : value :=
  VDict [ ("done", VBool true);
          ("response", VDict [("videoUrl", VStr "http://x/v.mp4")]) ].

(** [{"done": false}]. *)
Definition pending : value := VDict [("done", VBool false)].

(** [{"done": true, "error": {"message": "quota exceeded"},
      "response": {"videoUrl": "http://x/v.mp4"}}]. *)
Definition refused : value :=
  VDict [ ("done", VBool true);
          ("error", VDict [("message", VStr "quota exceeded")]);
          ("response", VDict [("videoUrl", VStr "http://x/v.mp4")]) ].

(** [{"done": true, "error": null}], [{"done": true, "error": "quota"}] and
    [{"done": true, "error": {"message": null}}]. *)
Definition refused_null : value :=
  VDict [("done", VBool true); ("error", VNone)].

Definition refused_text : value :=
  VDict [("done", VBool true); ("error", VStr "quota")].

Definition refused_silent : value :=
  VDict [("done", VBool true); ("error", VDict [("message", VNone)])].

(** [{"done": true, "response": null}]. *)
Definition done_null : value :=
  VDict [("done", VBool true); ("response", VNone)].

(** A clock that starts at 1700000000 and has moved on by seven seconds at
    each reading. *)
Definition clock (k : nat) : Z := 1700000000 + 7 * Z.of_nat k.

(** The operation is finished at the first status request and the artifact
    downloads. *)
Definition world_finished : Client.World :=
  Client.mkWorld (fun _ _ => accepted) (fun _ _ => Ok finished)
                 (fun _ _ => None) clock.

(** The operation is finished at the third status request. *)
Definition world_finished_third : Client.World :=
  Client.mkWorld (fun _ _ => accepted)
                 (fun _ k => if Nat.ltb k 2 then Ok pending else Ok finished)
                 (fun _ _ => None) clock.

(** The operation is finished at once but the artifact cannot be written. *)
Definition world_download_fails : Client.World :=
  Client.mkWorld (fun _ _ => accepted) (fun _ _ => Ok finished)
                 (fun _ _ => Some (Client.OtherException "disk full"))
                 clock.

(** The operation never finishes. *)
Definition world_pending : Client.World :=
  Client.mkWorld (fun _ _ => accepted) (fun _ _ => Ok pending)
                 (fun _ _ => None) clock.

(** The operation ends with an error. *)
Definition world_refused : Client.World :=
  Client.mkWorld (fun _ _ => accepted) (fun _ _ => Ok refused)
                 (fun _ _ => None) clock.

(** The operation ends with an error that is no object, and with one that
    holds no text. *)
Definition world_refused_null : Client.World :=
  Client.mkWorld (fun _ _ => accepted) (fun _ _ => Ok refused_null)
                 (fun _ _ => None) clock.

Definition world_refused_text : Client.World :=
  Client.mkWorld (fun _ _ => accepted) (fun _ _ => Ok refused_text)
                 (fun _ _ => None) clock.

Definition world_refused_silent : Client.World :=
  Client.mkWorld (fun _ _ => accepted) (fun _ _ => Ok refused_silent)
                 (fun _ _ => None) clock.

(** The service cannot be reached. *)
Definition world_unreachable : Client.World :=
  Client.mkWorld
    (fun _ _ => Raise (Client.RequestException "connection refused"))
    (fun _ _ => Raise (Client.RequestException "connection refused"))
    (fun _ _ => Some (Client.RequestException "connection refused"))
    clock.

(** The service answers the POST with the video itself, which cannot be
    fetched. *)
Definition world_sync_download_fails : Client.World :=
  Client.mkWorld
    (fun _ _ => Ok (Client.mkGenerateResult None (Some "http://x/v.mp4") None))
    (fun _ _ => Ok pending)
    (fun _ _ => Some (Client.RequestException "404 Not Found"))
    clock.

(** A record that holds the four required keys only. *)
Definition minimal_record : list (string * value) :=
  [ ("project_title", VStr "Minimal");
    ("sop_purpose", VStr "Say little");
    ("target_audience", VStr "Anyone");
    ("video_style", VStr "casual") ].

(** A request to the HTTP interface within the bounds of its fields. *)
Definition api_segment : Api.SegmentRequest :=
  Api.mkSegmentRequest 5 "Unboxing" "Open the box" "Lift the lid"
    "Hands and box" 8 None None [].

Definition api_request : Api.QuestionnaireRequest :=
  Api.mkQuestionnaireRequest "Demo" "Demonstrate the product" "Customers"
    "Educational" "person" (Some "X") None "" "" "bright_professional" []
    None ["TikTok"; "vine"] "strict" [api_segment; api_segment].


(** The service answers the POST with a video that downloads. *)
Definition world_sync : Client.World :=
  Client.mkWorld
    (fun _ _ => Ok (Client.mkGenerateResult None (Some "http://x/v.mp4") None))
    (fun _ _ => Ok pending) (fun _ _ => None) clock.


(** [{"done": true}]: done, with neither an error nor a response. *)
Definition done_empty : value := VDict [("done", VBool true)].

Definition world_done_empty : Client.World :=
  Client.mkWorld (fun _ _ => accepted) (fun _ _ => Ok done_empty)
                 (fun _ _ => None) clock.

(** The operation is done and its response is [null]. *)
Definition world_done_null : Client.World :=
  Client.mkWorld (fun _ _ => accepted) (fun _ _ => Ok done_null)
                 (fun _ _ => None) clock.

(** The second status request cannot be made. *)
Definition world_poll_breaks : Client.World :=
  Client.mkWorld (fun _ _ => accepted)
    (fun _ k => if Nat.eqb k 1
                then Raise (Client.RequestException "timed out")
                else Ok pending)
    (fun _ _ => None) clock.

(** Requests that differ by their prompt only. *)
Definition request_with_prompt (p : string) : Client.VideoGenerationRequest :=
  Client.mkRequest p None None None None None (Some "scene_1") None.

(** The service answers the POSTs whose prompt is "first" or "second" with a
    video and the others with nothing usable. *)
Definition world_two_only : Client.World :=
  Client.mkWorld
    (fun _ payload =>
       match dict_get payload "prompt" with
       | Some (VStr "first") =>
           Ok (Client.mkGenerateResult None (Some "http://x/1.mp4") None)
       | Some (VStr "second") =>
           Ok (Client.mkGenerateResult None (Some "http://x/2.mp4") None)
       | _ => Ok (Client.mkGenerateResult None None None)
       end)
    (fun _ _ => Ok pending) (fun _ _ => None) clock.

(** A record whose platforms are an object, and one whose title is a
    number and that lacks the purpose. *)
Definition record_with_platform_object : list (string * value) :=
  [ ("project_title", VStr "Minimal");
    ("sop_purpose", VStr "Say little");
    ("target_audience", VStr "Anyone");
    ("video_style", VStr "casual");
    ("target_platforms", VDict [("tiktok", VInt 1)]) ].

Definition record_with_number_title : list (string * value) :=
  [ ("project_title", VInt 1) ].

Definition settings : ConfigDataclass.VEO3Config :=
  ConfigDataclass.VEO3Config_defaults "key".

End Examples.

(* ================================================================== *)
(** * Properties of [SOPQuestionnaire.validate] *)
(* ================================================================== *)

Section ValidateProperties.
Import Py Questionnaire Spec.

Lemma not_truthy_is_empty (s : string) : negb (truthy_str s) = is_empty s.
Proof. destruct s; reflexivity. Qed.

Lemma is_empty_true (s : string) : is_empty s = true <-> s = "".
Proof. unfold is_empty. apply String.eqb_eq. Qed.

Lemma is_empty_false (s : string) : is_empty s = false <-> s <> "".
Proof. unfold is_empty. apply String.eqb_neq. Qed.

Lemma validate_segments_first_failure (segs : list SOPSegment) :
  validate_segments segs = first_failure (flat_map segment_checks segs).
Proof.
  induction segs as [|s rest IH]; [reflexivity|].
  cbn [validate_segments flat_map segment_checks app].
  rewrite !not_truthy_is_empty. unfold first_failure in *.
  cbn [find fst].
  destruct (is_empty (title s)); [reflexivity|].
  destruct (is_empty (description s)); [reflexivity|].
  destruct (is_empty (key_action s)); [reflexivity|].
  exact IH.
Qed.

Lemma validate_refines_spec (q : SOPQuestionnaire) :
  validate q = validate_spec q.
Proof.
  unfold validate, validate_spec, checks, first_failure.
  rewrite !not_truthy_is_empty. cbn [app find fst].
  destruct (is_empty (project_title q)); [reflexivity|].
  destruct (is_empty (sop_purpose q)); [reflexivity|].
  destruct (is_empty (target_audience q)); [reflexivity|].
  destruct (Nat.eqb (length (segments q)) 0); [reflexivity|].
  destruct (Nat.ltb 6 (length (segments q))); [reflexivity|].
  apply validate_segments_first_failure.
Qed.

(** Past the three text checks and the two count checks, [validate] is the
    segment loop. *)
Lemma validate_reaches_segments (q : SOPQuestionnaire) :
  project_title q <> "" -> sop_purpose q <> "" -> target_audience q <> "" ->
  1 <= length (segments q) <= 6 ->
  validate q = validate_segments (segments q).
Proof.
  intros Ht Hp Ha [Hlo Hhi]. unfold validate.
  rewrite !not_truthy_is_empty.
  rewrite (proj2 (is_empty_false _) Ht), (proj2 (is_empty_false _) Hp),
          (proj2 (is_empty_false _) Ha).
  destruct (Nat.eqb_spec (length (segments q)) 0) as [E|_]; [lia|].
  destruct (Nat.ltb_spec 6 (length (segments q))) as [L|_]; [lia|].
  reflexivity.
Qed.

Lemma validate_rejects_bad_count (q : SOPQuestionnaire) :
  length (segments q) = 0 \/ 6 < length (segments q) ->
  fst (validate q) = false.
Proof.
  intros H. unfold validate.
  destruct (negb (truthy_str (project_title q))); [reflexivity|].
  destruct (negb (truthy_str (sop_purpose q))); [reflexivity|].
  destruct (negb (truthy_str (target_audience q))); [reflexivity|].
  destruct (Nat.eqb_spec (length (segments q)) 0) as [|N]; [reflexivity|].
  destruct (Nat.ltb_spec 6 (length (segments q))) as [|G]; [reflexivity|].
  lia.
Qed.

Lemma validate_count_reason (q : SOPQuestionnaire) :
  project_title q <> "" -> sop_purpose q <> "" -> target_audience q <> "" ->
  (length (segments q) = 0 ->
   validate q = (false, Some "At least one segment is required"))
  /\ (6 < length (segments q) ->
      validate q = (false, Some "Maximum 6 segments allowed (48 seconds total)")).
Proof.
  intros Ht Hp Ha. unfold validate.
  rewrite !not_truthy_is_empty.
  rewrite (proj2 (is_empty_false _) Ht), (proj2 (is_empty_false _) Hp),
          (proj2 (is_empty_false _) Ha).
  split; intros H.
  - rewrite H. reflexivity.
  - destruct (Nat.eqb_spec (length (segments q)) 0) as [E|_]; [lia|].
    destruct (Nat.ltb_spec 6 (length (segments q))) as [_|G]; [reflexivity|lia].
Qed.

Lemma complete_passes (s : SOPSegment) (rest : list SOPSegment) :
  complete s -> validate_segments (s :: rest) = validate_segments rest.
Proof.
  intros (Ht & Hd & Hk). cbn [validate_segments].
  rewrite !not_truthy_is_empty.
  rewrite (proj2 (is_empty_false _) Ht), (proj2 (is_empty_false _) Hd),
          (proj2 (is_empty_false _) Hk).
  reflexivity.
Qed.

Lemma incomplete_stops (s : SOPSegment) (rest : list SOPSegment) :
  ~ complete s ->
  validate_segments (s :: rest)
  = (false, Some ("Segment " +++ str_of_int (segment_number s)
                  +++ " missing " +++ missing_field s)).
Proof.
  intros N. cbn [validate_segments]. unfold missing_field.
  rewrite !not_truthy_is_empty.
  destruct (is_empty (title s)) eqn:Et; [reflexivity|].
  destruct (is_empty (description s)) eqn:Ed; [reflexivity|].
  destruct (is_empty (key_action s)) eqn:Ek; [reflexivity|].
  exfalso. apply N. repeat split; apply is_empty_false; assumption.
Qed.

Lemma validate_segments_first_incomplete
      (pre : list SOPSegment) (s : SOPSegment) (post : list SOPSegment) :
  Forall complete pre -> ~ complete s ->
  validate_segments (pre ++ s :: post)
  = (false, Some ("Segment " +++ str_of_int (segment_number s)
                  +++ " missing " +++ missing_field s)).
Proof.
  intros Hpre N. induction Hpre as [|p pre Hp _ IH].
  - apply incomplete_stops, N.
  - cbn [app]. rewrite complete_passes by exact Hp. exact IH.
Qed.

Lemma validate_segments_all_complete (segs : list SOPSegment) :
  Forall complete segs -> validate_segments segs = (true, None).
Proof.
  induction 1 as [|s rest Hs _ IH]; [reflexivity|].
  rewrite complete_passes by exact Hs. exact IH.
Qed.

Lemma validate_segments_renumber (numbers : nat -> Z) (start : nat)
      (segs : list SOPSegment) :
  fst (validate_segments (renumber_from numbers start segs))
  = fst (validate_segments segs).
Proof.
  revert start. induction segs as [|s rest IH]; intros start; [reflexivity|].
  cbn [renumber_from validate_segments with_number title description
       key_action].
  destruct (negb (truthy_str (title s))); [reflexivity|].
  destruct (negb (truthy_str (description s))); [reflexivity|].
  destruct (negb (truthy_str (key_action s))); [reflexivity|].
  apply IH.
Qed.

Lemma renumber_from_length (numbers : nat -> Z) (start : nat)
      (segs : list SOPSegment) :
  length (renumber_from numbers start segs) = length segs.
Proof.
  revert start. induction segs as [|s rest IH]; intros start; [reflexivity|].
  cbn [renumber_from length]. rewrite IH. reflexivity.
Qed.

Lemma validate_renumber (numbers : nat -> Z) (q : SOPQuestionnaire) :
  fst (validate (renumber numbers q)) = fst (validate q).
Proof.
  unfold validate, renumber.
  cbn [with_segments project_title sop_purpose target_audience segments].
  rewrite renumber_from_length.
  destruct (negb (truthy_str (project_title q))); [reflexivity|].
  destruct (negb (truthy_str (sop_purpose q))); [reflexivity|].
  destruct (negb (truthy_str (target_audience q))); [reflexivity|].
  destruct (Nat.eqb (length (segments q)) 0); [reflexivity|].
  destruct (Nat.ltb 6 (length (segments q))); [reflexivity|].
  apply validate_segments_renumber.
Qed.

(** A rejection always comes with a reason. *)
Lemma validate_segments_reason (segs : list SOPSegment) :
  fst (validate_segments segs) = false ->
  exists msg, snd (validate_segments segs) = Some msg.
Proof.
  induction segs as [|s rest IH]; cbn [validate_segments].
  - discriminate.
  - destruct (negb (truthy_str (title s))); [intros _; eexists; reflexivity|].
    destruct (negb (truthy_str (description s)));
      [intros _; eexists; reflexivity|].
    destruct (negb (truthy_str (key_action s)));
      [intros _; eexists; reflexivity|].
    exact IH.
Qed.

Lemma validate_reason (q : SOPQuestionnaire) :
  fst (validate q) = false -> exists msg, snd (validate q) = Some msg.
Proof.
  unfold validate.
  destruct (negb (truthy_str (project_title q)));
    [intros _; eexists; reflexivity|].
  destruct (negb (truthy_str (sop_purpose q)));
    [intros _; eexists; reflexivity|].
  destruct (negb (truthy_str (target_audience q)));
    [intros _; eexists; reflexivity|].
  destruct (Nat.eqb (length (segments q)) 0);
    [intros _; eexists; reflexivity|].
  destruct (Nat.ltb 6 (length (segments q)));
    [intros _; eexists; reflexivity|].
  apply validate_segments_reason.
Qed.

(** C3. [validate] answers success or the reason of the first check that
    fails, the checks being made in the order: project title, purpose,
    audience, zero segments, more than six segments, then for each segment
    in list order its title, its description, its key action. The message
    about a segment names that segment's number, and a questionnaire whose
    segment count is outside 1..6 is always rejected, with the reason of the
    count as soon as the three text checks before it pass. *)
Theorem validate_first_encountered_reason (q : SOPQuestionnaire) :
  validate q = validate_spec q
  /\ (validate q = (true, None)
      \/ exists r : Reason, validate q = (false, Some (message r)))
  /\ (length (segments q) = 0 \/ 6 < length (segments q) ->
      fst (validate q) = false)
  /\ (project_title q <> "" -> sop_purpose q <> "" ->
      target_audience q <> "" ->
      (length (segments q) = 0 ->
       validate q = (false, Some "At least one segment is required"))
      /\ (6 < length (segments q) ->
          validate q
          = (false, Some "Maximum 6 segments allowed (48 seconds total)")))
  /\ (forall pre s post,
        project_title q <> "" -> sop_purpose q <> "" ->
        target_audience q <> "" -> 1 <= length (segments q) <= 6 ->
        segments q = pre ++ s :: post ->
        Forall complete pre -> ~ complete s ->
        validate q
        = (false, Some ("Segment " +++ str_of_int (segment_number s)
                        +++ " missing " +++ missing_field s))).
Proof.
  split; [apply validate_refines_spec|].
  split.
  { rewrite validate_refines_spec. unfold validate_spec, first_failure.
    destruct (find fst (checks q)) as [[b r]|].
    - right. exists r. reflexivity.
    - left. reflexivity. }
  split; [apply validate_rejects_bad_count|].
  split; [apply validate_count_reason|].
  intros pre s post Ht Hp Ha Hlen Hsegs Hpre Hs.
  rewrite validate_reaches_segments by assumption.
  rewrite Hsegs. apply validate_segments_first_incomplete; assumption.
Qed.

Lemma validate_first_encountered_reason_witness :
  validate Examples.demo_empty
  = (false, Some "At least one segment is required")
  /\ validate Examples.demo_seven
     = (false, Some "Maximum 6 segments allowed (48 seconds total)")
  /\ fst (validate Examples.blank_questionnaire) = false
  /\ validate Examples.demo_incomplete
     = (false, Some "Segment 2 missing description").
Proof.
  split; [|split; [|split]].
  - apply (validate_first_encountered_reason Examples.demo_empty);
      [discriminate | discriminate | discriminate | reflexivity].
  - apply (validate_first_encountered_reason Examples.demo_seven);
      [discriminate | discriminate | discriminate | cbn; lia].
  - apply (validate_first_encountered_reason Examples.blank_questionnaire).
    left. reflexivity.
  - apply (proj2 (proj2 (proj2 (proj2
             (validate_first_encountered_reason Examples.demo_incomplete))))
             [Examples.intro]
             (Examples.seg 2 "Key Feature" "" "Use feature"
                           "Feature in action")
             []);
      [discriminate | discriminate | discriminate | cbn; lia | reflexivity
      | | ].
    + constructor; [|constructor]. repeat split; discriminate.
    + intros (_ & Hd & _). apply Hd. reflexivity.
Defined.

(** C10. The outcome of [validate] does not depend on the segments'
    [segment_number]: renumbering the segments in any way leaves acceptance
    unchanged, and every questionnaire with a project title, a purpose, an
    audience and one to six segments that each have a title, a description
    and a key action is accepted, whatever numbers its segments carry. *)
Theorem validate_ignores_segment_numbers (q : SOPQuestionnaire) :
  (forall numbers : nat -> Z,
      fst (validate (renumber numbers q)) = fst (validate q))
  /\ (project_title q <> "" -> sop_purpose q <> "" ->
      target_audience q <> "" -> 1 <= length (segments q) <= 6 ->
      Forall complete (segments q) ->
      validate q = (true, None)).
Proof.
  split.
  - intros numbers. apply validate_renumber.
  - intros Ht Hp Ha Hlen Hall.
    rewrite validate_reaches_segments by assumption.
    apply validate_segments_all_complete, Hall.
Qed.

Lemma validate_ignores_segment_numbers_witness :
  map segment_number (segments Examples.demo_misnumbered) = [7; 7; -3]%Z
  /\ validate Examples.demo_misnumbered = (true, None).
Proof.
  split; [reflexivity|].
  apply (validate_ignores_segment_numbers Examples.demo_misnumbered);
    [discriminate | discriminate | discriminate | cbn; lia | ].
  repeat constructor; discriminate.
Defined.

End ValidateProperties.

(* ================================================================== *)
(** * Properties of [VEO3Client.validate_prompt] *)
(* ================================================================== *)

Section ValidatePromptProperties.
Import Py Spec Client.

Lemma all_space_lstrip (s : string) : all_space (lstrip s) = all_space s.
Proof.
  induction s as [|c s IH]; [reflexivity|].
  cbn [lstrip all_space]. destruct (isspace c) eqn:E.
  - exact IH.
  - cbn [all_space]. rewrite E. reflexivity.
Qed.

Lemma rstrip_empty (s : string) : is_empty (rstrip s) = all_space s.
Proof.
  induction s as [|c s IH]; [reflexivity|].
  cbn [rstrip all_space]. rewrite <- IH.
  destruct (rstrip s); cbn; destruct (isspace c); reflexivity.
Qed.

Lemma length_zero_is_empty (s : string) :
  Nat.eqb (String.length s) 0 = is_empty s.
Proof. destruct s; reflexivity. Qed.

(** The first test of [validate_prompt] holds exactly of the strings made
    of white space only, the empty one among them. *)
Lemma empty_test (p : string) :
  negb (truthy_str p) || Nat.eqb (String.length (strip p)) 0 = all_space p.
Proof.
  unfold strip.
  rewrite length_zero_is_empty, rstrip_empty, all_space_lstrip.
  destruct p; reflexivity.
Qed.

(** C9. [validate_prompt] rejects every empty or white-space-only prompt
    with "Prompt cannot be empty"; of the others it rejects those shorter
    than 10 characters as too short and those longer than 5000 characters
    as too long, and accepts the rest. So every prompt shorter than 10 or
    longer than 5000 characters is rejected; "" and "hi" are rejected, a
    5001-character prompt is rejected and a 50-character one is accepted. *)
Theorem validate_prompt_cases :
  (forall p : string,
      (all_space p = true ->
       validate_prompt p = (false, Some "Prompt cannot be empty"))
      /\ (all_space p = false -> String.length p < 10 ->
          validate_prompt p
          = (false, Some "Prompt too short (minimum 10 characters)"))
      /\ (all_space p = false -> 5000 < String.length p ->
          validate_prompt p
          = (false, Some "Prompt too long (maximum 5000 characters)"))
      /\ (all_space p = false -> 10 <= String.length p <= 5000 ->
          validate_prompt p = (true, None))
      /\ (String.length p < 10 \/ 5000 < String.length p ->
          fst (validate_prompt p) = false))
  /\ validate_prompt "" = (false, Some "Prompt cannot be empty")
  /\ validate_prompt "hi"
     = (false, Some "Prompt too short (minimum 10 characters)")
  /\ validate_prompt (replicate 5001 "a")
     = (false, Some "Prompt too long (maximum 5000 characters)")
  /\ validate_prompt (replicate 50 "a") = (true, None).
Proof.
  split.
  - intros p. unfold validate_prompt. rewrite empty_test.
    repeat split.
    + intros ->. reflexivity.
    + intros -> L.
      destruct (Nat.ltb_spec (String.length p) 10); [reflexivity|lia].
    + intros -> L.
      destruct (Nat.ltb_spec (String.length p) 10); [lia|].
      destruct (Nat.ltb_spec 5000 (String.length p)); [reflexivity|lia].
    + intros -> [L H].
      destruct (Nat.ltb_spec (String.length p) 10); [lia|].
      destruct (Nat.ltb_spec 5000 (String.length p)); [lia|reflexivity].
    + intros H. destruct (all_space p); [reflexivity|].
      destruct (Nat.ltb_spec (String.length p) 10); [reflexivity|].
      destruct (Nat.ltb_spec 5000 (String.length p)); [reflexivity|lia].
  - repeat split; vm_compute; reflexivity.
Qed.

Lemma validate_prompt_cases_witness :
  validate_prompt (String " " (String "009" ""))
  = (false, Some "Prompt cannot be empty")
  /\ validate_prompt "a b"
     = (false, Some "Prompt too short (minimum 10 characters)")
  /\ validate_prompt "exactly 10"  = (true, None)
  /\ fst (validate_prompt (replicate 5001 " ")) = false.
Proof.
  split; [|split; [|split]].
  - apply (proj1 validate_prompt_cases). reflexivity.
  - apply (proj1 validate_prompt_cases); [reflexivity | cbn; lia].
  - apply (proj1 validate_prompt_cases); [reflexivity | cbn; lia].
  - apply (proj1 validate_prompt_cases). right.
    apply Nat.ltb_lt. vm_compute. reflexivity.
Defined.

End ValidatePromptProperties.

(* ================================================================== *)
(** * Properties of [SOPPromptTranslator.translate_segment] *)
(* ================================================================== *)

Section TranslateSegmentProperties.
Import Py Questionnaire Translator Spec.

Lemma lines_nonempty (s : string) : lines s <> [].
Proof.
  induction s as [|c s IH]; cbn [lines]; [discriminate|].
  destruct (Ascii.eqb c LF); [discriminate|].
  destruct (lines s); discriminate.
Qed.

Lemma lines_append_newline (a b : string) :
  lines (a +++ newline +++ b) = lines a ++ lines b.
Proof.
  induction a as [|c a IH].
  - reflexivity.
  - cbn [append lines]. fold (a +++ newline +++ b). rewrite IH.
    destruct (Ascii.eqb c LF); [reflexivity|].
    destruct (lines a) as [|l ls] eqn:E; [|reflexivity].
    exfalso. exact (lines_nonempty a E).
Qed.

(** The lines of a joined prompt are the lines of its parts, in order. *)
Lemma lines_join (parts : list string) :
  parts <> [] -> lines (join newline parts) = flat_map lines parts.
Proof.
  induction parts as [|x rest IH]; [congruence|]. intros _.
  destruct rest as [|y rest].
  - cbn [join String.concat flat_map]. rewrite app_nil_r. reflexivity.
  - change (join newline (x :: y :: rest))
      with (x +++ newline +++ join newline (y :: rest)).
    rewrite lines_append_newline, IH by discriminate. reflexivity.
Qed.

Lemma prompt_parts_nonempty seg q prev : prompt_parts seg q prev <> [].
Proof. unfold prompt_parts, scene_part. discriminate. Qed.

Lemma prompt_parts_around_mode seg q prev :
  prompt_parts seg q prev
  = before_mode seg q prev ++ [mode_line q] ++ after_mode seg.
Proof.
  unfold prompt_parts, before_mode, after_mode.
  rewrite <- !app_assoc. reflexivity.
Qed.

Lemma before_mode_nonempty seg q prev : before_mode seg q prev <> [].
Proof. unfold before_mode, scene_part. discriminate. Qed.

Lemma mode_line_of_mode q m :
  In m consistency_modes ->
  lines (mode_line (with_mode q m)) = [mode_line (with_mode q m)].
Proof.
  intros [<-|[<-|[<-|[]]]]; reflexivity.
Qed.

Lemma mode_line_injective q m1 m2 :
  In m1 consistency_modes -> In m2 consistency_modes -> m1 <> m2 ->
  mode_line (with_mode q m1) <> mode_line (with_mode q m2).
Proof.
  intros [<-|[<-|[<-|[]]]] [<-|[<-|[<-|[]]]] N;
    try congruence; discriminate.
Qed.

Lemma lines_translate_segment seg q prev :
  lines (translate_segment seg q prev)
  = flat_map lines (before_mode seg q prev)
    ++ lines (mode_line q) ++ flat_map lines (after_mode seg).
Proof.
  unfold translate_segment.
  rewrite lines_join by apply prompt_parts_nonempty.
  rewrite prompt_parts_around_mode, !flat_map_app.
  cbn [flat_map]. rewrite app_nil_r. reflexivity.
Qed.

(** C6. Two questionnaires that differ in their consistency mode only, the
    two modes being distinct values among strict, balanced and creative,
    give for every segment (and every predecessor) prompts whose lines are
    the same but for one: the line of the mode. *)
Theorem mode_changes_exactly_one_line (q : SOPQuestionnaire)
        (seg : SOPSegment) (prev : option SOPSegment) (m1 m2 : string) :
  In m1 consistency_modes -> In m2 consistency_modes -> m1 <> m2 ->
  exists (before after : list string) (line1 line2 : string),
    lines (translate_segment seg (with_mode q m1) prev)
    = before ++ line1 :: after
    /\ lines (translate_segment seg (with_mode q m2) prev)
       = before ++ line2 :: after
    /\ line1 <> line2
    /\ line1 = mode_line (with_mode q m1)
    /\ line2 = mode_line (with_mode q m2).
Proof.
  intros H1 H2 N.
  exists (flat_map lines (before_mode seg q prev)),
         (flat_map lines (after_mode seg)),
         (mode_line (with_mode q m1)), (mode_line (with_mode q m2)).
  rewrite !lines_translate_segment, !mode_line_of_mode by assumption.
  repeat split; try reflexivity.
  apply mode_line_injective; assumption.
Qed.

Lemma mode_changes_exactly_one_line_witness :
  exists (before after : list string),
    lines (translate_segment Examples.feature
             (with_mode Examples.demo "strict") (Some Examples.intro))
    = before
      ++ "- STRICT consistency: no variations from established baseline"
      :: after
    /\ lines (translate_segment Examples.feature
                (with_mode Examples.demo "creative") (Some Examples.intro))
       = before
         ++ "- Creative: preserve key elements but allow creative expression"
         :: after.
Proof.
  destruct (mode_changes_exactly_one_line Examples.demo Examples.feature
              (Some Examples.intro) "strict" "creative")
    as (before & after & l1 & l2 & E1 & E2 & _ & -> & ->).
  - cbn. auto.
  - cbn. auto.
  - discriminate.
  - exists before, after. split; [exact E1 | exact E2].
Defined.

(** C8. Whatever the segment's [duration] field holds, the prompt carries
    the same technical-requirements block, whose second line is
    "- Exactly 8 seconds duration"; the field has no influence on the
    prompt at all. *)
Theorem technical_block_always_8_seconds (seg : SOPSegment)
        (q : SOPQuestionnaire) (prev : option SOPSegment) :
  exists before after : list string,
    forall d : Z,
      prompt_parts (with_duration seg d) q prev
      = before
        ++ [ "Technical Requirements:";
             "- Exactly 8 seconds duration";
             "- Smooth, professional quality";
             "- No camera shake or jitter";
             "- Clear, in-focus subjects";
             "- Professional production value" ]
        ++ after
      /\ In "- Exactly 8 seconds duration"
            (lines (translate_segment (with_duration seg d) q prev))
      /\ translate_segment (with_duration seg d) q prev
         = translate_segment seg q prev.
Proof.
  exists (scene_part seg ++ presenter_part q ++ location_part seg q
          ++ style_part q ++ colors_part q ++ overlay_part seg q
          ++ props_part seg ++ continuity_part seg q prev),
         ([mode_line q] ++ after_mode seg).
  intros d. split; [|split].
  - unfold prompt_parts, after_mode. rewrite <- !app_assoc. reflexivity.
  - rewrite lines_translate_segment. apply in_or_app. left.
    unfold before_mode. rewrite !flat_map_app.
    do 8 (apply in_or_app; right).
    cbn. auto.
  - reflexivity.
Qed.

End TranslateSegmentProperties.

(* ================================================================== *)
(** * Continuity between segments *)
(* ================================================================== *)

Section ContinuityProperties.
Import Py Questionnaire Translator Spec.

Lemma continuity_part_absent seg q prev :
  prev = None \/ (segment_number seg <= 1)%Z ->
  continuity_part seg q prev = [].
Proof.
  intros [->|H]; [reflexivity|].
  unfold continuity_part. destruct prev; [|reflexivity].
  destruct (Z.ltb_spec 1 (segment_number seg)); [lia|reflexivity].
Qed.

Lemma mode_line_in_prompt seg q prev : In (mode_line q) (prompt_parts seg q prev).
Proof.
  rewrite prompt_parts_around_mode.
  apply in_or_app. right. left. reflexivity.
Qed.

(** C2, as the code has it. The continuity block is there exactly when a
    previous segment is supplied and the segment's number exceeds 1: the
    prompt is then the prompt without predecessor with the block inserted,
    a block that opens with "CONTINUITY REQUIREMENTS:", closes with the
    color-palette line and, for a person or an animated character, holds
    the line "- Presenter MUST match exact appearance from Segment n", n
    being the previous segment's number. Otherwise the prompt is the one
    without predecessor. The strict disclaimer is a line of every prompt of
    a strict questionnaire, whatever the segment. In the "Demo" scenario the
    second prompt contains both phrases and the first contains the STRICT
    phrase but neither the Presenter phrase nor a continuity block. *)
Theorem continuity_block_needs_predecessor :
  (forall seg q p,
      (1 < segment_number seg)%Z ->
      exists before block after : list string,
        prompt_parts seg q (Some p)
        = before
          ++ ("CONTINUITY REQUIREMENTS:"
              :: block
              ++ [ "- Color palette MUST be consistent with previous segment";
                   "" ])
          ++ after
        /\ prompt_parts seg q None = before ++ after
        /\ (str_in (presenter_type q) ["person"; "animated_character"] = true ->
            In ("- Presenter MUST match exact appearance from Segment "
                +++ str_of_int (segment_number p)) block))
  /\ (forall seg q prev,
        prev = None \/ (segment_number seg <= 1)%Z ->
        continuity_part seg q prev = []
        /\ translate_segment seg q prev = translate_segment seg q None)
  /\ (forall seg q prev,
        consistency_mode q = "strict" ->
        In "- STRICT consistency: no variations from established baseline"
           (prompt_parts seg q prev))
  /\ (exists r1 r2,
        translate_questionnaire Examples.demo = Ok [r1; r2]
        /\ contains (Client.prompt r2)
             "Presenter MUST match exact appearance from Segment 1" = true
        /\ contains (Client.prompt r2)
             "STRICT consistency: no variations from established baseline"
           = true
        /\ contains (Client.prompt r1)
             "Presenter MUST match exact appearance from Segment 1" = false
        /\ contains (Client.prompt r1) "CONTINUITY REQUIREMENTS:" = false
        /\ contains (Client.prompt r1)
             "STRICT consistency: no variations from established baseline"
           = true).
Proof.
  split; [|split; [|split]].
  - intros seg q p H.
    exists (scene_part seg ++ presenter_part q ++ location_part seg q
            ++ style_part q ++ colors_part q ++ overlay_part seg q
            ++ props_part seg),
      ((if str_in (presenter_type q) ["person"; "animated_character"] then
          [ "- Presenter MUST match exact appearance from Segment "
            +++ str_of_int (segment_number p) ]
          ++ (if truthy_opt (presenter_clothing q) then
                [ "- Maintain exact clothing: "
                  +++ str_of_opt (presenter_clothing q) ]
              else [])
        else [])
       ++ (if truthy_str (primary_location q) then
             [ "- Location MUST be identical to previous segment";
               "- Lighting MUST match previous segment exactly" ]
           else [])),
      (technical_part ++ [mode_line q] ++ [""] ++ negative_part seg).
    split; [|split].
    + unfold prompt_parts, continuity_part.
      apply Z.ltb_lt in H. rewrite H.
      rewrite <- !app_assoc. cbn [app]. rewrite <- !app_assoc. reflexivity.
    + unfold prompt_parts. cbn [continuity_part app].
      rewrite <- !app_assoc. reflexivity.
    + intros ->. apply in_or_app. left. left. reflexivity.
  - intros seg q prev H.
    pose proof (continuity_part_absent seg q prev H) as E.
    split; [exact E|].
    unfold translate_segment, prompt_parts. rewrite E. reflexivity.
  - intros seg q prev H.
    pose proof (mode_line_in_prompt seg q prev) as I.
    unfold mode_line in I. rewrite H in I. exact I.
  - eexists. eexists. split; [vm_compute; reflexivity|].
    vm_compute. repeat split.
Qed.

Lemma continuity_block_needs_predecessor_witness :
  In "- Presenter MUST match exact appearance from Segment 1"
     (prompt_parts Examples.feature Examples.demo (Some Examples.intro))
  /\ translate_segment Examples.intro Examples.demo (Some Examples.feature)
     = translate_segment Examples.intro Examples.demo None
  /\ In "- STRICT consistency: no variations from established baseline"
        (prompt_parts Examples.intro Examples.demo None).
Proof.
  split; [|split].
  - destruct (proj1 continuity_block_needs_predecessor
                Examples.feature Examples.demo Examples.intro)
      as (before & block & after & E & _ & I).
    + reflexivity.
    + rewrite E. apply in_or_app. right. right.
      apply in_or_app. left. apply in_or_app. left.
      apply I. reflexivity.
  - apply (proj1 (proj2 continuity_block_needs_predecessor)).
    right. cbn. lia.
  - apply (proj1 (proj2 (proj2 continuity_block_needs_predecessor))).
    reflexivity.
Defined.

(** C2 as stated fails twice. In the scenario the first segment's prompt
    does contain the STRICT phrase; and a segment whose number exceeds 1
    gets no continuity block when it has no predecessor, be it translated
    alone or as the first segment of an accepted questionnaire. *)
Lemma continuity_claim_counterexample :
  contains (translate_segment Examples.intro Examples.demo None)
    "STRICT consistency: no variations from established baseline" = true
  /\ (1 < segment_number Examples.feature)%Z
  /\ contains (translate_segment Examples.feature Examples.demo None)
       "CONTINUITY REQUIREMENTS:" = false
  /\ validate Examples.demo_seventh_only = (true, None)
  /\ exists r,
       translate_questionnaire Examples.demo_seventh_only = Ok [r]
       /\ contains (Client.prompt r) "CONTINUITY REQUIREMENTS:" = false
       /\ contains (Client.prompt r) "Presenter MUST match" = false.
Proof.
  split; [vm_compute; reflexivity|].
  split; [reflexivity|].
  split; [vm_compute; reflexivity|].
  split; [vm_compute; reflexivity|].
  eexists. split; [vm_compute; reflexivity|].
  vm_compute. split; reflexivity.
Qed.

End ContinuityProperties.

(* ================================================================== *)
(** * Properties of [SOPPromptTranslator.translate_questionnaire] *)
(* ================================================================== *)

Section TranslateQuestionnaireProperties.
Import Py Questionnaire Translator Spec.

Lemma translate_loop_length q segs prev :
  length (translate_loop q segs prev) = length segs.
Proof.
  revert prev. induction segs as [|s rest IH]; intros prev; [reflexivity|].
  cbn [translate_loop length]. rewrite IH. reflexivity.
Qed.

Lemma translate_loop_nth q segs prev k s :
  nth_error segs k = Some s ->
  nth_error (translate_loop q segs prev) k
  = Some (request_of s q (predecessor prev segs k)).
Proof.
  revert prev k. induction segs as [|s0 rest IH]; intros prev k H.
  - destruct k; discriminate.
  - destruct k as [|k].
    + injection H as ->. reflexivity.
    + cbn [translate_loop nth_error] in *.
      rewrite (IH (Some s0) k H).
      destruct k; reflexivity.
Qed.

(** C1, as the code has it. On a questionnaire [validate] accepts,
    [translate_questionnaire] returns one request per segment, in list
    order; the request at position k has the scene id
    "{project_title}_segment_{n}" where n is the [segment_number] of the
    k-th segment (hence k when the segment is numbered by its position),
    the project title as sequence id, and the prompt of that segment with
    the segment before it as predecessor. On a questionnaire [validate]
    rejects it raises, with the reason in the message, and returns no
    request. *)
Theorem translate_questionnaire_requests (q : SOPQuestionnaire) :
  (fst (validate q) = true ->
   exists reqs,
     translate_questionnaire q = Ok reqs
     /\ length reqs = length (segments q)
     /\ forall k s,
         nth_error (segments q) k = Some s ->
         exists r,
           nth_error reqs k = Some r
           /\ Client.scene_id r
              = Some (project_title q +++ "_segment_"
                      +++ str_of_int (segment_number s))
           /\ Client.sequence_id r = Some (project_title q)
           /\ Client.prompt r
              = translate_segment s q (predecessor None (segments q) k)
           /\ (segment_number s = Z.of_nat (S k) ->
               Client.scene_id r
               = Some (project_title q +++ "_segment_"
                       +++ str_of_int (Z.of_nat (S k)))))
  /\ (fst (validate q) = false ->
      exists msg,
        snd (validate q) = Some msg
        /\ translate_questionnaire q
           = Raise (ValueError ("Invalid questionnaire: " +++ msg))).
Proof.
  split; intros H.
  - exists (translate_loop q (segments q) None).
    unfold translate_questionnaire.
    destruct (validate q) as [v e]. cbn in H. subst v.
    split; [reflexivity|].
    split; [apply translate_loop_length|].
    intros k s Hk. exists (request_of s q (predecessor None (segments q) k)).
    split; [apply translate_loop_nth, Hk|].
    repeat split. intros <-. reflexivity.
  - destruct (validate_reason q H) as [msg E]. exists msg.
    split; [exact E|].
    unfold translate_questionnaire.
    destruct (validate q) as [v e]. cbn in H, E. subst v e. reflexivity.
Qed.

Lemma translate_questionnaire_requests_witness :
  (exists r1 r2,
      translate_questionnaire Examples.demo = Ok [r1; r2]
      /\ Client.scene_id r1 = Some "Demo_segment_1"
      /\ Client.scene_id r2 = Some "Demo_segment_2"
      /\ Client.sequence_id r2 = Some "Demo")
  /\ translate_questionnaire Examples.demo_empty
     = Raise (ValueError "Invalid questionnaire: At least one segment is required").
Proof.
  split.
  - destruct (proj1 (translate_questionnaire_requests Examples.demo))
      as (reqs & E & L & N); [reflexivity|].
    destruct reqs as [|r1 [|r2 [|r3 reqs]]]; try discriminate L.
    exists r1, r2. split; [exact E|].
    destruct (N 0 Examples.intro eq_refl) as (x1 & X1 & S1 & _).
    destruct (N 1 Examples.feature eq_refl) as (x2 & X2 & S2 & Q2 & _).
    cbn in X1, X2. injection X1 as <-. injection X2 as <-.
    repeat split; assumption.
  - destruct (proj2 (translate_questionnaire_requests Examples.demo_empty))
      as (msg & M & E); [reflexivity|].
    cbn in M. injection M as <-. exact E.
Defined.

(** C1 as stated fails: [validate] accepts a questionnaire whose only
    segment is numbered 7, and the first (and only) request then has the
    scene id "Demo_segment_7", not "Demo_segment_1". *)
Lemma scene_id_claim_counterexample :
  validate Examples.demo_seventh_only = (true, None)
  /\ exists r,
       translate_questionnaire Examples.demo_seventh_only = Ok [r]
       /\ Client.scene_id r = Some "Demo_segment_7"
       /\ Client.scene_id r <> Some "Demo_segment_1".
Proof.
  split; [vm_compute; reflexivity|].
  eexists. split; [vm_compute; reflexivity|].
  split; [reflexivity|discriminate].
Qed.

End TranslateQuestionnaireProperties.

(* ================================================================== *)
(** * Serialization round trip *)
(* ================================================================== *)

Section RoundTripProperties.
Import Py Questionnaire Spec.

Lemma VideoStyle_round_trip (m : VideoStyle) :
  VideoStyle_of_value (VStr (VideoStyle_value m)) = Ok m.
Proof. destruct m; reflexivity. Qed.

Lemma PlatformTarget_round_trip (m : PlatformTarget) :
  PlatformTarget_of_value (VStr (PlatformTarget_value m)) = Ok m.
Proof. destruct m; reflexivity. Qed.

Lemma find_by_value_sound {A : Type} (value_of : A -> string) (s : string)
      (all : list A) (m : A) :
  find (fun x => String.eqb (value_of x) s) all = Some m -> s = value_of m.
Proof.
  intros H. apply find_some in H. destruct H as [_ H].
  apply String.eqb_eq in H. symmetry. exact H.
Qed.

Lemma VideoStyle_exact_match (s : string) (m : VideoStyle) :
  VideoStyle_of_value (VStr s) = Ok m <-> s = VideoStyle_value m.
Proof.
  split.
  - unfold VideoStyle_of_value.
    destruct (find _ all_VideoStyle) as [m'|] eqn:F; [|discriminate].
    intros E. injection E as <-.
    exact (find_by_value_sound VideoStyle_value s _ _ F).
  - intros ->. apply VideoStyle_round_trip.
Qed.

Lemma PlatformTarget_exact_match (s : string) (m : PlatformTarget) :
  PlatformTarget_of_value (VStr s) = Ok m <-> s = PlatformTarget_value m.
Proof.
  split.
  - unfold PlatformTarget_of_value.
    destruct (find _ all_PlatformTarget) as [m'|] eqn:F; [|discriminate].
    intros E. injection E as <-.
    exact (find_by_value_sound PlatformTarget_value s _ _ F).
  - intros ->. apply PlatformTarget_round_trip.
Qed.

Lemma VideoStyle_unrecognized (s : string) :
  (forall m, s <> VideoStyle_value m) ->
  VideoStyle_of_value (VStr s) = Raise (NotAMember "VideoStyle" (VStr s)).
Proof.
  intros N. unfold VideoStyle_of_value.
  destruct (find _ all_VideoStyle) as [m|] eqn:F; [|reflexivity].
  exfalso. exact (N m (find_by_value_sound VideoStyle_value s _ _ F)).
Qed.

Lemma PlatformTarget_unrecognized (s : string) :
  (forall m, s <> PlatformTarget_value m) ->
  PlatformTarget_of_value (VStr s)
  = Raise (NotAMember "PlatformTarget" (VStr s)).
Proof.
  intros N. unfold PlatformTarget_of_value.
  destruct (find _ all_PlatformTarget) as [m|] eqn:F; [|reflexivity].
  exfalso. exact (N m (find_by_value_sound PlatformTarget_value s _ _ F)).
Qed.

Lemma platforms_round_trip (ps : list PlatformTarget) :
  map_result PlatformTarget_of_value
    (map (fun p => VStr (PlatformTarget_value p)) ps) = Ok ps.
Proof.
  induction ps as [|p ps IH]; [reflexivity|].
  cbn [map map_result]. rewrite PlatformTarget_round_trip.
  cbn [bind]. rewrite IH. reflexivity.
Qed.

Lemma segment_round_trip (s : SOPSegment) :
  segment_from_dict (segment_to_dict s) = Ok (segment_object s).
Proof. destruct s. reflexivity. Qed.

Lemma segments_round_trip (segs : list SOPSegment) :
  map_result segment_from_dict (map segment_to_dict segs)
  = Ok (map segment_object segs).
Proof.
  induction segs as [|s segs IH]; [reflexivity|].
  cbn [map map_result]. rewrite segment_round_trip.
  cbn [bind]. rewrite IH. reflexivity.
Qed.

Lemma questionnaire_round_trip (q : SOPQuestionnaire) :
  from_dict (to_dict q) = Ok (questionnaire_object q).
Proof.
  destruct q. unfold from_dict, to_dict.
  cbn -[VideoStyle_of_value map_result map segment_from_dict segment_to_dict
        PlatformTarget_of_value].
  rewrite VideoStyle_round_trip. cbn [bind].
  rewrite platforms_round_trip. cbn [bind].
  rewrite segments_round_trip. reflexivity.
Qed.

Lemma of_opt_str_injective (a b : option string) :
  of_opt_str a = of_opt_str b -> a = b.
Proof. destruct a, b; cbn; congruence. Qed.

Lemma map_VStr_injective (a b : list string) :
  map VStr a = map VStr b -> a = b.
Proof.
  revert b. induction a as [|x a IH]; intros [|y b] E; try discriminate E;
    [reflexivity|].
  cbn in E. injection E as -> E. rewrite (IH b E). reflexivity.
Qed.

Lemma segment_object_injective (a b : SOPSegment) :
  segment_object a = segment_object b -> a = b.
Proof.
  destruct a, b. unfold segment_object. cbn.
  intros [= -> -> -> -> -> -> O V P L].
  apply of_opt_str_injective in O, V, L.
  apply map_VStr_injective in P. subst. reflexivity.
Qed.

Lemma segment_objects_injective (a b : list SOPSegment) :
  map segment_object a = map segment_object b -> a = b.
Proof.
  revert b. induction a as [|x a IH]; intros [|y b] E; try discriminate E;
    [reflexivity|].
  cbn [map] in E.
  assert (X : segment_object x = segment_object y) by congruence.
  assert (R : map segment_object a = map segment_object b) by congruence.
  rewrite (segment_object_injective x y X), (IH b R). reflexivity.
Qed.

Lemma questionnaire_object_injective (a b : SOPQuestionnaire) :
  questionnaire_object a = questionnaire_object b -> a = b.
Proof.
  destruct a, b. unfold questionnaire_object. cbn.
  intros [= -> -> -> -> C F -> -> D K -> -> -> S N L -> M -> -> ->].
  apply map_VStr_injective in C, F.
  apply of_opt_str_injective in D, K, N, L, M.
  apply segment_objects_injective in S. subst. reflexivity.
Qed.

Lemma map_result_raises {A B : Type} (f : A -> result exn B) (l : list A)
      (a : A) (e : exn) :
  In a l -> f a = Raise e -> exists e', map_result f l = Raise e'.
Proof.
  intros I F. induction l as [|x l IH]; [contradiction|].
  cbn [map_result]. destruct I as [->|I].
  - rewrite F. eexists. reflexivity.
  - destruct (f x) as [b|ex]; cbn [bind]; [|eexists; reflexivity].
    destruct (IH I) as [e' ->]. eexists. reflexivity.
Qed.

(** Skip a field that is read before the one under study: either reading
    it raises, and so does [from_dict], or it yields a value. *)
Ltac skip_field :=
  match goal with
  | |- exists _, bind ?c _ = Raise _ =>
      destruct c; cbn [bind]; [|eexists; reflexivity]
  end.

Lemma from_dict_unrecognized_style (data : list (string * value))
      (s : string) :
  dict_get data "video_style" = Some (VStr s) ->
  (forall m, s <> VideoStyle_value m) ->
  exists e, from_dict data = Raise e.
Proof.
  intros G N. unfold from_dict. do 3 skip_field.
  unfold getitem. rewrite G. cbn [bind].
  rewrite (VideoStyle_unrecognized s N). eexists. reflexivity.
Qed.

Lemma from_dict_unrecognized_platform (data : list (string * value))
      (l : list value) (s : string) :
  dict_get data "target_platforms" = Some (VList l) ->
  In (VStr s) l ->
  (forall m, s <> PlatformTarget_value m) ->
  exists e, from_dict data = Raise e.
Proof.
  intros G I N. unfold from_dict. do 4 skip_field.
  unfold get_default at 1. rewrite G. cbn [iterate bind].
  destruct (map_result_raises PlatformTarget_of_value l (VStr s) _ I
              (PlatformTarget_unrecognized s N)) as [e' ->].
  eexists. reflexivity.
Qed.

(** A record written by [to_dict] in which the style was then replaced by
    a string that is no member's value: reading stops at the style. *)
Lemma from_dict_replaced_style (q : SOPQuestionnaire) (s : string) :
  (forall m, s <> VideoStyle_value m) ->
  from_dict (("video_style", VStr s) :: to_dict q)
  = Raise (NotAMember "VideoStyle" (VStr s)).
Proof.
  intros N. destruct q. unfold from_dict, to_dict.
  cbn -[VideoStyle_of_value map_result].
  rewrite (VideoStyle_unrecognized s N). reflexivity.
Qed.

(** C7. Writing a questionnaire with [to_dict] and reading the record back
    with the parsing logic of [from_json] gives the questionnaire back,
    field for field, whatever its optional fields and lists hold: the object
    built is the one whose attributes hold the values of the questionnaire,
    and no two questionnaires have the same. So does saving it with
    [to_json] and loading the file with [from_json]. The two enum fields are
    written as their string values and read back by exact match: a string
    is accepted exactly when it is a member's value, and a record whose
    style or platform is any other string makes the reading fail. *)
Theorem to_dict_from_dict_round_trip :
  (forall q, from_dict (to_dict q) = Ok (questionnaire_object q))
  /\ (forall q filepath fs,
        from_json filepath (to_json q filepath fs)
        = Ok (questionnaire_object q))
  /\ (forall q q', questionnaire_object q = questionnaire_object q' -> q = q')
  /\ (forall q,
        dict_get (to_dict q) "video_style"
        = Some (VStr (VideoStyle_value (video_style q)))
        /\ dict_get (to_dict q) "target_platforms"
           = Some (VList (map (fun p => VStr (PlatformTarget_value p))
                              (target_platforms q))))
  /\ (forall s m,
        VideoStyle_of_value (VStr s) = Ok m <-> s = VideoStyle_value m)
  /\ (forall s m,
        PlatformTarget_of_value (VStr s) = Ok m
        <-> s = PlatformTarget_value m)
  /\ (forall data s,
        dict_get data "video_style" = Some (VStr s) ->
        (forall m, s <> VideoStyle_value m) ->
        exists e, from_dict data = Raise e)
  /\ (forall data l s,
        dict_get data "target_platforms" = Some (VList l) ->
        In (VStr s) l ->
        (forall m, s <> PlatformTarget_value m) ->
        exists e, from_dict data = Raise e)
  /\ (forall q s,
        (forall m, s <> VideoStyle_value m) ->
        from_dict (("video_style", VStr s) :: to_dict q)
        = Raise (NotAMember "VideoStyle" (VStr s))).
Proof.
  split; [exact questionnaire_round_trip|].
  split.
  { intros q filepath fs. unfold from_json, to_json. cbn [read_file].
    rewrite String.eqb_refl. apply questionnaire_round_trip. }
  split; [exact questionnaire_object_injective|].
  split; [intros q; split; reflexivity|].
  split; [exact VideoStyle_exact_match|].
  split; [exact PlatformTarget_exact_match|].
  split; [exact from_dict_unrecognized_style|].
  split; [exact from_dict_unrecognized_platform|].
  exact from_dict_replaced_style.
Qed.

Lemma to_dict_from_dict_round_trip_witness :
  from_dict (to_dict Examples.full) = Ok (questionnaire_object Examples.full)
  /\ from_dict (("video_style", VStr "Professional") :: to_dict Examples.full)
     = Raise (NotAMember "VideoStyle" (VStr "Professional"))
  /\ (exists e,
        from_dict (("target_platforms", VList [VStr "tiktok"; VStr "vine"])
                   :: to_dict Examples.full) = Raise e).
Proof.
  split; [apply (proj1 to_dict_from_dict_round_trip)|].
  split.
  - apply (proj2 (proj2 (proj2 (proj2 (proj2 (proj2 (proj2 (proj2
             to_dict_from_dict_round_trip)))))))).
    intros m. destruct m; discriminate.
  - apply (proj1 (proj2 (proj2 (proj2 (proj2 (proj2 (proj2 (proj2
             to_dict_from_dict_round_trip)))))))
             _ [VStr "tiktok"; VStr "vine"] "vine").
    + reflexivity.
    + right. left. reflexivity.
    + intros m. destruct m; discriminate.
Defined.

End RoundTripProperties.

(* ================================================================== *)
(** * Properties of the generation client *)
(* ================================================================== *)

Section ClientProperties.
Import Py Client Spec.

Variable config : Config.VEO3Config.
Variable w : World.

Lemma download_succeeds url scene st :
  fetch_video w url (download_path config (reading w st) scene) = None ->
  _download_video config w url scene st
  = (Ok (download_path config (reading w st) scene),
     after_download st (download_path config (reading w st) scene)).
Proof.
  intros F.
  unfold _download_video, try_except, bindM, read_clock, stream_to_file.
  fold (reading w st). fold (download_path config (reading w st) scene).
  cbn [posts polls slept downloads clock_reads]. rewrite F. reflexivity.
Qed.

Lemma download_raises url scene st e :
  fetch_video w url (download_path config (reading w st) scene) = Some e ->
  _download_video config w url scene st = (Raise e, after_reading st).
Proof.
  intros F.
  unfold _download_video, try_except, bindM, read_clock, stream_to_file.
  fold (reading w st). fold (download_path config (reading w st) scene).
  cbn [posts polls slept downloads clock_reads]. rewrite F. reflexivity.
Qed.

(** One turn when the status request itself fails. *)
Lemma poll_once_request_raises url request st e :
  get_operation w url (polls st) = Raise e ->
  poll_once config w url request st
  = (Ok (Some (failed ("Polling failed: " +++ str_of_exception e))),
     after_poll st).
Proof.
  intros G. unfold poll_once, try_except, bindM, http_get.
  rewrite G. reflexivity.
Qed.

(** One turn when the answer is no object. *)
Lemma poll_once_not_object url request st r :
  get_operation w url (polls st) = Ok r -> (forall d, r <> VDict d) ->
  poll_once config w url request st
  = (Ok (Some (failed ("Polling failed: '" +++ type_name r
                       +++ "' object has no attribute 'get'"))),
     after_poll st).
Proof.
  intros G N. unfold poll_once, try_except, bindM, http_get.
  rewrite G. destruct r; try reflexivity.
  exfalso. exact (N d eq_refl).
Qed.

(** One turn when the answer lets the loop go on. *)
Lemma poll_once_inconclusive url request st r :
  get_operation w url (polls st) = Ok r -> inconclusive r ->
  poll_once config w url request st = (Ok None, after_waiting st 1).
Proof.
  intros G (d & -> & I). unfold poll_once, try_except, bindM, http_get.
  rewrite G. cbn [fst snd].
  assert (W : after_waiting st 1
              = mkEffects (posts st) (S (polls st)) (slept st + poll_interval)
                          (downloads st) (clock_reads st)).
  { unfold after_waiting, poll_interval. f_equal; lia. }
  rewrite W.
  destruct I as [D|(E & body & B & T)].
  - rewrite D. reflexivity.
  - destruct (truthy (get_default d "done" VNone)); [|reflexivity].
    rewrite E, B. unfold get_attr, ret. rewrite T. reflexivity.
Qed.

(** One turn when the operation ended with an error object. *)
Lemma poll_once_error url request st d err :
  get_operation w url (polls st) = Ok (VDict d) -> says_done d ->
  dict_get d "error" = Some (VDict err) ->
  poll_once config w url request st
  = (Ok (Some (failed_with (error_message err))), after_poll st).
Proof.
  intros G D E. unfold poll_once, try_except, bindM, http_get.
  rewrite G, D, E. reflexivity.
Qed.

(** One turn when the operation ended with an error that is no object. *)
Lemma poll_once_error_not_object url request st d v :
  get_operation w url (polls st) = Ok (VDict d) -> says_done d ->
  dict_get d "error" = Some v -> (forall err, v <> VDict err) ->
  poll_once config w url request st
  = (Ok (Some (failed ("Polling failed: '" +++ type_name v
                       +++ "' object has no attribute 'get'"))),
     after_poll st).
Proof.
  intros G D E N. unfold poll_once, try_except, bindM, http_get.
  rewrite G, D, E. destruct v; try reflexivity.
  exfalso. exact (N d0 eq_refl).
Qed.

(** One turn when the operation is done and its response is no object. *)
Lemma poll_once_response_not_object url request st d v :
  get_operation w url (polls st) = Ok (VDict d) -> says_done d ->
  dict_get d "error" = None ->
  get_default d "response" (VDict []) = v -> (forall body, v <> VDict body) ->
  poll_once config w url request st
  = (Ok (Some (failed ("Polling failed: '" +++ type_name v
                       +++ "' object has no attribute 'get'"))),
     after_poll st).
Proof.
  intros G D E B N. unfold poll_once, try_except, bindM, http_get.
  rewrite G, D, E, B. destruct v; try reflexivity.
  exfalso. exact (N d0 eq_refl).
Qed.

(** One turn when the operation is done and has a video URL. *)
Lemma poll_once_video url request st d body :
  get_operation w url (polls st) = Ok (VDict d) -> says_done d ->
  dict_get d "error" = None ->
  get_default d "response" (VDict []) = VDict body ->
  truthy (get_default body "videoUrl" VNone) = true ->
  let vurl := get_default body "videoUrl" VNone in
  let path := download_path config (reading w st) (scene_id request) in
  (fetch_video w vurl path = None ->
   poll_once config w url request st
   = (Ok (Some (succeeded path vurl (operation_metadata body))),
      after_download (after_poll st) path))
  /\ (forall e, fetch_video w vurl path = Some e ->
      poll_once config w url request st
      = (Ok (Some (failed ("Polling failed: " +++ str_of_exception e))),
         after_reading (after_poll st))).
Proof.
  intros G D E B T vurl path. subst vurl path.
  split.
  - intros F. unfold poll_once, try_except, bindM at 1 2, http_get.
    rewrite G. cbn [fst snd]. rewrite D, E, B.
    unfold get_attr, ret, bindM at 1. rewrite T. unfold bindM.
    fold (after_poll st). change (reading w st) with (reading w (after_poll st)) in F.
    rewrite (download_succeeds _ (scene_id request) _ F).
    reflexivity.
  - intros e F. unfold poll_once, try_except, bindM at 1 2, http_get.
    rewrite G. cbn [fst snd]. rewrite D, E, B.
    unfold get_attr, ret, bindM at 1. rewrite T. unfold bindM.
    fold (after_poll st). change (reading w st) with (reading w (after_poll st)) in F.
    rewrite (download_raises _ (scene_id request) _ e F).
    reflexivity.
Qed.

(** One turn of the polling loop: it waits, or it returns a response after
    one status request, no POST and no sleep, with the download the response
    tells of. *)
Lemma poll_once_effects url request st :
  exists returned st',
    poll_once config w url request st = (Ok returned, st')
    /\ ((returned = None /\ st' = after_waiting st 1)
        \/ (exists resp,
              returned = Some resp
              /\ posts st' = posts st /\ polls st' = S (polls st)
              /\ slept st' = slept st
              /\ settled resp (downloads st) (downloads st')
              /\ failure_or_success w resp)).
Proof.
  assert (Fails : forall text st',
    poll_once config w url request st = (Ok (Some (failed text)), st') ->
    posts st' = posts st -> polls st' = S (polls st) ->
    slept st' = slept st -> downloads st' = downloads st ->
    exists returned st',
      poll_once config w url request st = (Ok returned, st')
      /\ ((returned = None /\ st' = after_waiting st 1)
          \/ (exists resp,
                returned = Some resp
                /\ posts st' = posts st /\ polls st' = S (polls st)
                /\ slept st' = slept st
                /\ settled resp (downloads st) (downloads st')
                /\ failure_or_success w resp))).
  { intros text st' E P Q S D. exists (Some (failed text)), st'.
    split; [exact E|]. right. exists (failed text).
    repeat (split; [assumption || reflexivity|]). split.
    - left. exists (VStr text). split; [reflexivity|exact D].
    - left. exists text. reflexivity. }
  assert (Waits : forall r,
    get_operation w url (polls st) = Ok r -> inconclusive r ->
    exists returned st',
      poll_once config w url request st = (Ok returned, st')
      /\ ((returned = None /\ st' = after_waiting st 1)
          \/ (exists resp,
                returned = Some resp
                /\ posts st' = posts st /\ polls st' = S (polls st)
                /\ slept st' = slept st
                /\ settled resp (downloads st) (downloads st')
                /\ failure_or_success w resp))).
  { intros r G I. exists None, (after_waiting st 1).
    split; [apply (poll_once_inconclusive url request st r G I)|].
    left. split; reflexivity. }
  destruct (get_operation w url (polls st)) as [r|e] eqn:G.
  2:{ apply (Fails _ _ (poll_once_request_raises url request st e G));
        reflexivity. }
  assert (NotObject : (forall d, r <> VDict d) ->
    exists returned st',
      poll_once config w url request st = (Ok returned, st')
      /\ ((returned = None /\ st' = after_waiting st 1)
          \/ (exists resp,
                returned = Some resp
                /\ posts st' = posts st /\ polls st' = S (polls st)
                /\ slept st' = slept st
                /\ settled resp (downloads st) (downloads st')
                /\ failure_or_success w resp))).
  { intros N.
    apply (Fails _ _ (poll_once_not_object url request st r G N));
      reflexivity. }
  destruct r as [| | | | |d]; try (apply NotObject; discriminate).
  clear NotObject.
  destruct (truthy (get_default d "done" VNone)) eqn:D.
  2:{ apply (Waits _ eq_refl). exists d. split; [reflexivity|]. left. exact D. }
  destruct (dict_get d "error") as [v|] eqn:E.
  { assert (NotObject : (forall err, v <> VDict err) ->
      exists returned st',
        poll_once config w url request st = (Ok returned, st')
        /\ ((returned = None /\ st' = after_waiting st 1)
            \/ (exists resp,
                  returned = Some resp
                  /\ posts st' = posts st /\ polls st' = S (polls st)
                  /\ slept st' = slept st
                  /\ settled resp (downloads st) (downloads st')
                  /\ failure_or_success w resp))).
    { intros N.
      apply (Fails _ _ (poll_once_error_not_object url request st d v
                          G D E N)); reflexivity. }
    destruct v as [| | | | |err]; try (apply NotObject; discriminate).
    exists (Some (failed_with (error_message err))), (after_poll st).
    split; [apply (poll_once_error url request st d err G D E)|].
    right. eexists. split; [reflexivity|].
    repeat (split; [reflexivity|]). split.
    - left. eexists. split; reflexivity.
    - unfold error_message, get_default.
      destruct (dict_get err "message") as [m|] eqn:M.
      + right. left. exists m. split; [|reflexivity].
        exists url, (polls st), d, err. auto.
      + left. eexists. reflexivity. }
  destruct (get_default d "response" (VDict [])) as [| | | | |body] eqn:B;
    try (apply (Fails _ _ (poll_once_response_not_object url request st d _
                             G D E B ltac:(discriminate)));
         reflexivity).
  destruct (truthy (get_default body "videoUrl" VNone)) eqn:T.
  2:{ apply (Waits _ eq_refl). exists d. split; [reflexivity|].
      right. split; [exact E|]. exists body. auto. }
  destruct (poll_once_video url request st d body G D E B T) as [Hok Hko].
  destruct (fetch_video w (get_default body "videoUrl" VNone)
              (download_path config (reading w st) (scene_id request)))
    as [e|] eqn:F.
  - apply (Fails _ _ (Hko e eq_refl)); reflexivity.
  - eexists. eexists. split; [apply Hok; reflexivity|].
    right. eexists. split; [reflexivity|].
    repeat (split; [reflexivity|]). split.
    + right. do 3 eexists. split; reflexivity.
    + right. right. do 3 eexists. reflexivity.
Qed.

(** The polling loop with [n] turns: it never raises, makes [k <= n] status
    requests, sleeps five seconds after each but the last, or after each
    when it times out, and returns a response with the download it tells
    of. *)
Lemma poll_loop_effects url request n st :
  exists resp st' k,
    poll_loop config w url request n st = (Ok resp, st')
    /\ k <= n
    /\ posts st' = posts st
    /\ polls st' = polls st + k
    /\ (slept st <= slept st' <= slept st + 5 * Z.of_nat k)%Z
    /\ settled resp (downloads st) (downloads st')
    /\ failure_or_success w resp.
Proof.
  revert st. induction n as [|n IH]; intros st.
  - exists (failed "Generation timeout"), st, 0.
    split; [reflexivity|]. repeat split; try lia.
    + left. eexists. split; reflexivity.
    + left. eexists. reflexivity.
  - destruct (poll_once_effects url request st)
      as (returned & st1 & E1 & [[-> ->]|(resp & -> & P & Q & S1 & W & F)]);
      cbn [poll_loop]; unfold bindM at 1; rewrite E1.
    + destruct (IH (after_waiting st 1))
        as (resp & st2 & k & E2 & Hk & P & Q & S2 & W & F).
      exists resp, st2, (S k). split; [exact E2|].
      cbn [after_waiting posts polls slept downloads] in *.
      unfold poll_interval in *.
      repeat split; try lia; assumption.
    + exists resp, st1, 1. split; [reflexivity|].
      repeat split; try lia; assumption.
Qed.

Lemma after_waiting_zero st : after_waiting st 0 = st.
Proof.
  destruct st. unfold after_waiting. cbn.
  f_equal; lia.
Qed.

Lemma after_waiting_succ st k :
  after_waiting (after_waiting st 1) k = after_waiting st (S k).
Proof.
  unfold after_waiting, poll_interval.
  cbn [posts polls slept downloads clock_reads].
  f_equal; lia.
Qed.

(** Turns that find nothing conclusive only wait. *)
Lemma poll_loop_waits url request k n st :
  inconclusive_before w url (polls st) k ->
  poll_loop config w url request (k + n) st
  = poll_loop config w url request n (after_waiting st k).
Proof.
  revert st. induction k as [|k IH]; intros st H.
  - rewrite after_waiting_zero. reflexivity.
  - destruct (H 0) as (r & G & I); [lia|].
    rewrite Nat.add_0_r in G.
    cbn [Nat.add poll_loop]. unfold bindM at 1.
    rewrite (poll_once_inconclusive url request st r G I).
    rewrite IH.
    + rewrite after_waiting_succ. reflexivity.
    + intros j Hj. destruct (H (S j)) as (r' & G' & I'); [lia|].
      exists r'. split; [|exact I'].
      cbn [after_waiting polls]. rewrite <- G'. f_equal. lia.
Qed.

(** After [k] turns that only wait, a turn that returns ends the loop. *)
Lemma poll_loop_stops url request k n st resp st1 :
  inconclusive_before w url (polls st) k ->
  poll_once config w url request (after_waiting st k) = (Ok (Some resp), st1) ->
  poll_loop config w url request (k + S n) st = (Ok resp, st1).
Proof.
  intros H E. rewrite (poll_loop_waits url request k (S n) st H).
  cbn [poll_loop]. unfold bindM. rewrite E. reflexivity.
Qed.

Lemma poll_loop_times_out url request n st :
  inconclusive_before w url (polls st) n ->
  poll_loop config w url request n st
  = (Ok (failed "Generation timeout"), after_waiting st n).
Proof.
  intros H. rewrite <- (Nat.add_0_r n) at 1.
  rewrite (poll_loop_waits url request n 0 st H). reflexivity.
Qed.

(** The loop is left with [k] turns that only waited and a turn that
    returned: what that turn returned is what polling returns, after
    [k + 1] status requests. *)
Lemma polling_stops_at url request k st resp st1 :
  k < 60 -> inconclusive_before w url (polls st) k ->
  poll_once config w url request (after_waiting st k) = (Ok (Some resp), st1) ->
  polls st1 = S (polls (after_waiting st k)) ->
  exists st',
    poll_loop config w url request max_polls st = (Ok resp, st')
    /\ polls st' = polls st + k + 1.
Proof.
  intros Hk H E P. exists st1.
  replace max_polls with (k + S (59 - k)) by (unfold max_polls; lia).
  split; [apply (poll_loop_stops url request k _ st _ _ H E)|].
  rewrite P. cbn. lia.
Qed.

(** C5, as the code has it. Polling never raises and issues at most 60
    status requests. An answer that is an object and does not say done lets
    the loop go on, and so does one that says done but holds neither an
    error nor a video URL. When the requests before the k-th were answered
    so and the k-th (k < 60, the first included) is answered by an object
    that says done: with no error and a video URL, the artifact is
    downloaded and the result is at once a success if the download
    succeeds, a failure "Polling failed: ..." if it does not; with an error
    that is an object, the result is at once a failure carrying what that
    object holds as message, whatever it is, or "Unknown error" when it
    holds none, also when the answer has a video URL; with an error that is
    no object, or with a response that is none, or when the answer itself
    is none, the result is at once the failure "Polling failed: '...' object
    has no attribute 'get'". In each case no further status request is
    issued. Sixty answers in a row that let the loop go on give the failure
    "Generation timeout". *)
Theorem polling_outcomes (operation_id : string)
        (request : VideoGenerationRequest) (st : Effects) :
  let url := operation_url config operation_id in
  let path := download_path config (reading w st) (scene_id request) in
  let run := _poll_generation_status config w operation_id request st in
  let stops_with resp :=
    exists st', run = (Ok resp, st') /\ polls st' = polls st + 60 in
  let stops_at k resp :=
    exists st', run = (Ok resp, st') /\ polls st' = polls st + k + 1 in
  (exists resp st', run = (Ok resp, st') /\ polls st' <= polls st + 60)
  /\ (forall r, not_done r -> inconclusive r)
  /\ (forall k d body,
        k < 60 -> inconclusive_before w url (polls st) k ->
        get_operation w url (polls st + k) = Ok (VDict d) ->
        says_done d -> dict_get d "error" = None ->
        get_default d "response" (VDict []) = VDict body ->
        truthy (get_default body "videoUrl" VNone) = true ->
        let vurl := get_default body "videoUrl" VNone in
        (fetch_video w vurl path = None ->
         stops_at k (succeeded path vurl (operation_metadata body)))
        /\ (forall e,
              fetch_video w vurl path = Some e ->
              stops_at k (failed ("Polling failed: " +++ str_of_exception e))))
  /\ (forall k d err,
        k < 60 -> inconclusive_before w url (polls st) k ->
        get_operation w url (polls st + k) = Ok (VDict d) ->
        says_done d -> dict_get d "error" = Some (VDict err) ->
        stops_at k (failed_with (error_message err)))
  /\ (forall k d v,
        k < 60 -> inconclusive_before w url (polls st) k ->
        get_operation w url (polls st + k) = Ok (VDict d) ->
        says_done d -> dict_get d "error" = Some v ->
        (forall err, v <> VDict err) ->
        stops_at k (failed ("Polling failed: '" +++ type_name v
                            +++ "' object has no attribute 'get'")))
  /\ (forall k d v,
        k < 60 -> inconclusive_before w url (polls st) k ->
        get_operation w url (polls st + k) = Ok (VDict d) ->
        says_done d -> dict_get d "error" = None ->
        dict_get d "response" = Some v -> (forall body, v <> VDict body) ->
        stops_at k (failed ("Polling failed: '" +++ type_name v
                            +++ "' object has no attribute 'get'")))
  /\ (forall k r,
        k < 60 -> inconclusive_before w url (polls st) k ->
        get_operation w url (polls st + k) = Ok r ->
        (forall d, r <> VDict d) ->
        stops_at k (failed ("Polling failed: '" +++ type_name r
                            +++ "' object has no attribute 'get'")))
  /\ (inconclusive_before w url (polls st) 60 ->
      stops_with (failed "Generation timeout")).
Proof.
  intros url path run stops_with stops_at.
  subst run stops_with stops_at. cbv beta.
  unfold _poll_generation_status.
  fold (operation_url config operation_id). fold url.
  split; [|split; [|split; [|split; [|split; [|split; [|split]]]]]].
  - destruct (poll_loop_effects url request max_polls st)
      as (resp & st' & k & E & Hk & _ & P & _).
    exists resp, st'. split; [exact E|]. unfold max_polls in Hk. lia.
  - intros r (d & -> & D). exists d. split; [reflexivity|]. left. exact D.
  - intros k d body Hk H G D E B T.
    destruct (poll_once_video url request (after_waiting st k) d body
                G D E B T) as [Hok Hko].
    split.
    + intros F.
      apply (polling_stops_at url request k st _ _ Hk H (Hok F)). reflexivity.
    + intros e F.
      apply (polling_stops_at url request k st _ _ Hk H (Hko e F)).
      reflexivity.
  - intros k d err Hk H G D E.
    apply (polling_stops_at url request k st _ _ Hk H
             (poll_once_error url request (after_waiting st k) d err G D E)).
    reflexivity.
  - intros k d v Hk H G D E N.
    apply (polling_stops_at url request k st _ _ Hk H
             (poll_once_error_not_object url request (after_waiting st k)
                d v G D E N)).
    reflexivity.
  - intros k d v Hk H G D E B N.
    assert (B' : get_default d "response" (VDict []) = v)
      by (unfold get_default; rewrite B; reflexivity).
    apply (polling_stops_at url request k st _ _ Hk H
             (poll_once_response_not_object url request (after_waiting st k)
                d v G D E B' N)).
    reflexivity.
  - intros k r Hk H G N.
    apply (polling_stops_at url request k st _ _ Hk H
             (poll_once_not_object url request (after_waiting st k) r G N)).
    reflexivity.
  - intros H. eexists.
    split; [apply (poll_loop_times_out url request max_polls st H)|].
    reflexivity.
Qed.

(** What a failed response reports. *)
Lemma failure_carries_message resp :
  failure_or_success w resp -> success resp = false ->
  (exists text, error resp = VStr text) \/ service_message w (error resp).
Proof.
  intros [[text ->]|[(v & M & ->)|(p & u & m & ->)]] H.
  - left. exists text. reflexivity.
  - right. exact M.
  - discriminate H.
Qed.

(** One call of [generate_video]: it never raises; it makes one POST, at
    most 60 status requests and sleeps at most 300 seconds, and returns a
    response with the download it tells of. *)
Lemma generate_video_settles (request : VideoGenerationRequest)
      (st : Effects) :
  exists resp st',
    generate_video config w request st = (Ok resp, st')
    /\ posts st' = S (posts st)
    /\ polls st <= polls st' <= polls st + 60
    /\ (slept st <= slept st' <= slept st + 300)%Z
    /\ settled resp (downloads st) (downloads st')
    /\ failure_or_success w resp.
Proof.
  unfold generate_video, try_except, bindM, http_post.
  fold (generate_url config). fold (after_post st).
  destruct (post_generate w (generate_url config) (payload_of config request))
    as [r|e].
  2:{ destruct e; eexists; eexists; (split; [reflexivity|]);
        cbn; repeat split; try lia;
        left; eexists; try split; reflexivity. }
  destruct (operationId r) as [op|].
  { unfold _poll_generation_status. fold (operation_url config op).
    destruct (poll_loop_effects (operation_url config op) request max_polls
                (after_post st))
      as (resp & st' & k & -> & Hk & P & Q & S & W & F).
    exists resp, st'. split; [reflexivity|].
    unfold max_polls in Hk. cbn [after_post posts polls slept downloads] in *.
    repeat split; try lia; assumption. }
  destruct (videoUrl r) as [vurl|].
  2:{ eexists. eexists. split; [reflexivity|].
      cbn; repeat split; try lia; left; eexists; try split; reflexivity. }
  destruct (fetch_video w (VStr vurl)
              (download_path config (reading w (after_post st))
                 (scene_id request))) as [e|] eqn:F.
  - rewrite (download_raises (VStr vurl) (scene_id request) _ e F).
    destruct e; eexists; eexists; (split; [reflexivity|]);
      cbn; repeat split; try lia; left; eexists; try split; reflexivity.
  - rewrite (download_succeeds (VStr vurl) (scene_id request) _ F).
    eexists. eexists. split; [reflexivity|].
    cbn; repeat split; try lia.
    + right. do 3 eexists. split; reflexivity.
    + right. right. do 3 eexists. reflexivity.
Qed.

(** An answer to the POST that names an operation hands over to polling. *)
Lemma generate_video_polls request st r op :
  post_generate w (generate_url config) (payload_of config request) = Ok r ->
  operationId r = Some op ->
  generate_video config w request st
  = _poll_generation_status config w op request (after_post st).
Proof.
  intros P O. unfold generate_video, try_except, bindM, http_post.
  fold (generate_url config). rewrite P, O. fold (after_post st).
  unfold _poll_generation_status. fold (operation_url config op).
  destruct (poll_loop_effects (operation_url config op) request
              max_polls (after_post st)) as (resp & st' & k & -> & _).
  reflexivity.
Qed.

(** C4. [generate_video] never raises: whatever the service, the network
    and the file system do, it returns a response, and a response with
    [success = false] carries an error text, unless it carries what the
    error object of a status answer holds as its message. A failure of the
    POST, and one of a status request, is returned as a failed response
    holding the text of the exception. [_download_video], for its part,
    does not absorb the error of a download: it raises it again to its
    caller. Its callers are the [try] blocks of [generate_video] and of the
    polling loop, so an error raised by a download in the course of
    [generate_video] is in turn returned as a failed response holding its
    text, preceded by "Polling failed: " when the polling loop started the
    download. *)
Theorem generate_video_never_raises (request : VideoGenerationRequest)
        (st : Effects) :
  let path := download_path config (reading w st) (scene_id request) in
  let posted :=
    post_generate w (generate_url config) (payload_of config request) in
  (exists resp st',
      generate_video config w request st = (Ok resp, st')
      /\ (success resp = false ->
          (exists text, error resp = VStr text)
          \/ service_message w (error resp)))
  /\ (forall e,
        posted = Raise e ->
        generate_video config w request st
        = (Ok (failed (str_of_exception e)), after_post st))
  /\ (forall vurl e,
        fetch_video w vurl path = Some e ->
        _download_video config w vurl (scene_id request) st
        = (Raise e, after_reading st))
  /\ (forall r vurl e,
        posted = Ok r -> operationId r = None -> videoUrl r = Some vurl ->
        fetch_video w (VStr vurl) path = Some e ->
        generate_video config w request st
        = (Ok (failed (str_of_exception e)), after_reading (after_post st)))
  /\ (forall r op,
        posted = Ok r -> operationId r = Some op ->
        generate_video config w request st
        = _poll_generation_status config w op request (after_post st))
  /\ (forall r op e,
        posted = Ok r -> operationId r = Some op ->
        get_operation w (operation_url config op) (polls st) = Raise e ->
        generate_video config w request st
        = (Ok (failed ("Polling failed: " +++ str_of_exception e)),
           after_poll (after_post st)))
  /\ (forall r op d body e,
        posted = Ok r -> operationId r = Some op ->
        get_operation w (operation_url config op) (polls st) = Ok (VDict d) ->
        says_done d -> dict_get d "error" = None ->
        get_default d "response" (VDict []) = VDict body ->
        truthy (get_default body "videoUrl" VNone) = true ->
        fetch_video w (get_default body "videoUrl" VNone) path = Some e ->
        generate_video config w request st
        = (Ok (failed ("Polling failed: " +++ str_of_exception e)),
           after_reading (after_poll (after_post st)))).
Proof.
  intros path posted. subst posted.
  split; [|split; [|split; [|split; [|split; [|split]]]]].
  - destruct (generate_video_settles request st)
      as (resp & st' & E & _ & _ & _ & _ & W).
    exists resp, st'. split; [exact E|].
    apply failure_carries_message, W.
  - intros e P. unfold generate_video, try_except, bindM, http_post.
    fold (generate_url config). rewrite P. destruct e; reflexivity.
  - intros vurl e F. apply download_raises, F.
  - intros r vurl e P O V F.
    unfold generate_video, try_except, bindM, http_post.
    fold (generate_url config). rewrite P, O, V.
    fold (after_post st).
    rewrite (download_raises (VStr vurl) (scene_id request) (after_post st)
               e F).
    destruct e; reflexivity.
  - intros r op P O. apply (generate_video_polls request st r op P O).
  - intros r op e P O G.
    rewrite (generate_video_polls request st r op P O).
    unfold _poll_generation_status.
    fold (operation_url config op).
    change max_polls with (S 59). cbn [poll_loop]. unfold bindM.
    rewrite (poll_once_request_raises (operation_url config op) request
               (after_post st) e G).
    reflexivity.
  - intros r op d body e P O G D E B T F.
    rewrite (generate_video_polls request st r op P O).
    unfold _poll_generation_status.
    fold (operation_url config op).
    change max_polls with (S 59). cbn [poll_loop]. unfold bindM.
    rewrite (proj2 (poll_once_video (operation_url config op) request
                      (after_post st) d body G D E B T) e F).
    reflexivity.
Qed.

End ClientProperties.

Section ClientScenarios.
Import Py Client Spec.

Lemma polling_outcomes_witness :
  (exists st',
      _poll_generation_status Examples.config Examples.world_finished
        "op-1" Examples.request no_effects
      = (Ok (succeeded "./output/videos/scene_1_1700000000.mp4"
               (VStr "http://x/v.mp4") (VDict [])), st')
      /\ polls st' = 1)
  /\ (exists st',
        _poll_generation_status Examples.config Examples.world_finished_third
          "op-1" Examples.request no_effects
        = (Ok (succeeded "./output/videos/scene_1_1700000000.mp4"
                 (VStr "http://x/v.mp4") (VDict [])), st')
        /\ polls st' = 3)
  /\ (exists st',
        _poll_generation_status Examples.config Examples.world_refused
          "op-1" Examples.request no_effects
        = (Ok (failed "quota exceeded"), st')
        /\ polls st' = 1)
  /\ (exists st',
        _poll_generation_status Examples.config Examples.world_pending
          "op-1" Examples.request no_effects
        = (Ok (failed "Generation timeout"), st')
        /\ polls st' = 60)
  /\ (exists st',
        _poll_generation_status Examples.config Examples.world_download_fails
          "op-1" Examples.request no_effects
        = (Ok (failed "Polling failed: disk full"), st')
        /\ polls st' = 1)
  /\ (exists st',
        _poll_generation_status Examples.config Examples.world_refused_null
          "op-1" Examples.request no_effects
        = (Ok (failed "Polling failed: 'NoneType' object has no attribute 'get'"),
           st')
        /\ polls st' = 1).
Proof.
  split; [|split; [|split; [|split; [|split]]]].
  - apply (proj1 (proj2 (proj2 (polling_outcomes Examples.config
                                  Examples.world_finished "op-1"
                                  Examples.request no_effects)))
             0 [ ("done", VBool true);
               ("response", VDict [("videoUrl", VStr "http://x/v.mp4")]) ]
             [("videoUrl", VStr "http://x/v.mp4")]);
      try reflexivity; [lia | intros j Hj; lia].
  - apply (proj1 (proj2 (proj2 (polling_outcomes Examples.config
                                  Examples.world_finished_third "op-1"
                                  Examples.request no_effects)))
             2 [ ("done", VBool true);
               ("response", VDict [("videoUrl", VStr "http://x/v.mp4")]) ]
             [("videoUrl", VStr "http://x/v.mp4")]);
      try reflexivity; [lia|].
    intros j Hj. exists Examples.pending.
    split; [destruct j as [|[|j]]; [reflexivity | reflexivity | lia]|].
    eexists. split; [reflexivity|]. left. reflexivity.
  - apply (proj1 (proj2 (proj2 (proj2 (polling_outcomes Examples.config
                                         Examples.world_refused "op-1"
                                         Examples.request no_effects))))
             0 [ ("done", VBool true);
                 ("error", VDict [("message", VStr "quota exceeded")]);
                 ("response", VDict [("videoUrl", VStr "http://x/v.mp4")]) ]
             [("message", VStr "quota exceeded")]);
      try reflexivity; [lia | intros j Hj; lia].
  - apply (proj2 (proj2 (proj2 (proj2 (proj2 (proj2 (proj2
             (polling_outcomes Examples.config Examples.world_pending "op-1"
                Examples.request no_effects)))))))).
    intros j Hj. exists Examples.pending. split; [reflexivity|].
    eexists. split; [reflexivity|]. left. reflexivity.
  - apply (proj2 (proj1 (proj2 (proj2 (polling_outcomes Examples.config
                                         Examples.world_download_fails "op-1"
                                         Examples.request no_effects)))
                    0 [ ("done", VBool true);
               ("response", VDict [("videoUrl", VStr "http://x/v.mp4")]) ]
                    [("videoUrl", VStr "http://x/v.mp4")]
                    ltac:(lia) ltac:(intros j Hj; lia)
                    eq_refl eq_refl eq_refl eq_refl eq_refl)
             (OtherException "disk full")).
    reflexivity.
  - apply (proj1 (proj2 (proj2 (proj2 (proj2 (polling_outcomes Examples.config
                                                Examples.world_refused_null
                                                "op-1" Examples.request
                                                no_effects)))))
             0 [("done", VBool true); ("error", VNone)] VNone);
      try reflexivity; [lia | intros j Hj; lia | discriminate].
Defined.

(** C5 as stated fails twice. An answer with [done = true] and a video URL
    does not always yield a success: when the artifact cannot be downloaded
    the result is a failure, and so it is when the answer also has an error
    field, which is looked at first. And a done answer with an error field
    does not always yield a failure with the message of the service: when
    the error is [null], or a text, the failure reports that the value has
    no [get], and when the error object holds [null] as its message the
    failure reports nothing at all. *)
Lemma polling_claim_counterexample :
  (get_operation Examples.world_download_fails
     (operation_url Examples.config "op-1") 0 = Ok Examples.finished
   /\ (exists st',
         _poll_generation_status Examples.config
           Examples.world_download_fails "op-1" Examples.request no_effects
         = (Ok (failed "Polling failed: disk full"), st'))
   /\ success (failed "Polling failed: disk full") = false)
  /\ (get_operation Examples.world_refused
        (operation_url Examples.config "op-1") 0 = Ok Examples.refused
      /\ dict_get [ ("done", VBool true);
                    ("error", VDict [("message", VStr "quota exceeded")]);
                    ("response",
                      VDict [("videoUrl", VStr "http://x/v.mp4")]) ]
                  "response"
         = Some (VDict [("videoUrl", VStr "http://x/v.mp4")])
      /\ exists st',
           _poll_generation_status Examples.config Examples.world_refused
             "op-1" Examples.request no_effects
           = (Ok (failed "quota exceeded"), st'))
  /\ (get_operation Examples.world_refused_null
        (operation_url Examples.config "op-1") 0
      = Ok (VDict [("done", VBool true); ("error", VNone)])
      /\ exists st',
           _poll_generation_status Examples.config
             Examples.world_refused_null "op-1" Examples.request no_effects
           = (Ok (failed
                    "Polling failed: 'NoneType' object has no attribute 'get'"),
              st'))
  /\ (get_operation Examples.world_refused_text
        (operation_url Examples.config "op-1") 0
      = Ok (VDict [("done", VBool true); ("error", VStr "quota")])
      /\ exists st',
           _poll_generation_status Examples.config
             Examples.world_refused_text "op-1" Examples.request no_effects
           = (Ok (failed
                    "Polling failed: 'str' object has no attribute 'get'"),
              st'))
  /\ (get_operation Examples.world_refused_silent
        (operation_url Examples.config "op-1") 0
      = Ok (VDict [ ("done", VBool true);
                    ("error", VDict [("message", VNone)]) ])
      /\ exists st',
           _poll_generation_status Examples.config
             Examples.world_refused_silent "op-1" Examples.request no_effects
           = (Ok (mkResponse false None VNone VNone VNone 0), st')).
Proof.
  repeat split; try (eexists; vm_compute; reflexivity).
Qed.

Lemma generate_video_never_raises_witness :
  generate_video Examples.config Examples.world_unreachable
    Examples.request no_effects
  = (Ok (failed "connection refused"), after_post no_effects)
  /\ _download_video Examples.config Examples.world_sync_download_fails
       (VStr "http://x/v.mp4") (Some "scene_1") no_effects
     = (Raise (RequestException "404 Not Found"), after_reading no_effects)
  /\ generate_video Examples.config Examples.world_sync_download_fails
       Examples.request no_effects
     = (Ok (failed "404 Not Found"), after_reading (after_post no_effects))
  /\ generate_video Examples.config Examples.world_download_fails
       Examples.request no_effects
     = (Ok (failed "Polling failed: disk full"),
        after_reading (after_poll (after_post no_effects))).
Proof.
  split; [|split; [|split]].
  - apply (proj1 (proj2 (generate_video_never_raises Examples.config
                           Examples.world_unreachable Examples.request
                           no_effects))
             (RequestException "connection refused")).
    reflexivity.
  - apply (proj1 (proj2 (proj2 (generate_video_never_raises Examples.config
                                  Examples.world_sync_download_fails
                                  Examples.request no_effects)))
             (VStr "http://x/v.mp4") (RequestException "404 Not Found")).
    reflexivity.
  - apply (proj1 (proj2 (proj2 (proj2
             (generate_video_never_raises Examples.config
                Examples.world_sync_download_fails Examples.request
                no_effects))))
             (mkGenerateResult None (Some "http://x/v.mp4") None)
             "http://x/v.mp4" (RequestException "404 Not Found"));
      reflexivity.
  - apply (proj2 (proj2 (proj2 (proj2 (proj2 (proj2
             (generate_video_never_raises Examples.config
                Examples.world_download_fails Examples.request
                no_effects))))))
             (mkGenerateResult (Some "op-1") None None) "op-1"
             [ ("done", VBool true);
               ("response", VDict [("videoUrl", VStr "http://x/v.mp4")]) ]
             [("videoUrl", VStr "http://x/v.mp4")]
             (OtherException "disk full"));
      reflexivity.
Defined.

End ClientScenarios.

(* ================================================================== *)
(** * Loading records and the templates of the builder *)
(* ================================================================== *)

Section LoadingProperties.
Import Py Questionnaire Spec.

Lemma getitem_inv d k v : getitem d k = Ok v -> dict_get d k = Some v.
Proof.
  unfold getitem. destruct (dict_get d k); [|discriminate].
  intros [= ->]. reflexivity.
Qed.

Lemma VideoStyle_of_value_inv (v : value) (m : VideoStyle) :
  VideoStyle_of_value v = Ok m -> v = VStr (VideoStyle_value m).
Proof.
  destruct v; try discriminate. intros H.
  apply VideoStyle_exact_match in H. subst. reflexivity.
Qed.

Lemma PlatformTarget_of_value_inv (v : value) (m : PlatformTarget) :
  PlatformTarget_of_value v = Ok m -> v = VStr (PlatformTarget_value m).
Proof.
  destruct v; try discriminate. intros H.
  apply PlatformTarget_exact_match in H. subst. reflexivity.
Qed.

Lemma read_style d m :
  bind (getitem d "video_style") VideoStyle_of_value = Ok m ->
  dict_get d "video_style" = Some (VStr (VideoStyle_value m)).
Proof.
  unfold getitem. destruct (dict_get d "video_style") as [v|]; cbn;
    [|discriminate].
  intros H. rewrite (VideoStyle_of_value_inv v m H). reflexivity.
Qed.

Lemma map_result_platforms_inv (vs : list value) (ps : list PlatformTarget) :
  map_result PlatformTarget_of_value vs = Ok ps ->
  vs = map (fun p => VStr (PlatformTarget_value p)) ps.
Proof.
  revert ps. induction vs as [|v vs IH]; intros ps; cbn [map_result].
  - intros [= <-]. reflexivity.
  - destruct (PlatformTarget_of_value v) as [p|] eqn:P; cbn; [|discriminate].
    destruct (map_result PlatformTarget_of_value vs) as [ps'|]; cbn;
      [|discriminate].
    intros [= <-]. cbn.
    rewrite (PlatformTarget_of_value_inv v p P), (IH ps' eq_refl).
    reflexivity.
Qed.

(** The next field of a constructor call was read, or the call raised. *)
Ltac field_read H :=
  match type of H with
  | bind ?c _ = Ok _ =>
      let E := fresh "E" in
      destruct c eqn:E; cbn [bind] in H; [|discriminate H]
  end.

(** A key read with [get]: the record's value, or the default. *)
Ltac kept_by_get :=
  unfold kept_or_default; cbn; unfold get_default;
  match goal with
  | |- context [dict_get ?d ?k] => destruct (dict_get d k); reflexivity
  end.

(** A key read by subscript: the record's value. *)
Ltac kept_by_subscript :=
  unfold kept_or_default; cbn;
  match goal with
  | E : dict_get ?d ?k = Some _ |- context [dict_get ?d ?k] =>
      rewrite E; reflexivity
  end.

Lemma object_to_dict_of_questionnaire (q : SOPQuestionnaire) :
  object_to_dict (questionnaire_object q) = to_dict q.
Proof.
  destruct q. unfold object_to_dict, questionnaire_object, to_dict.
  cbn -[map segment_object_to_dict segment_object segment_to_dict].
  rewrite map_map. reflexivity.
Qed.

Lemma segment_from_dict_loaded (v : value) (o : SegmentObject) :
  segment_from_dict v = Ok o -> loaded_segment v o.
Proof.
  destruct v as [| | | | |s]; try discriminate.
  unfold segment_from_dict. intros H. do 5 field_read H.
  injection H as <-.
  repeat match goal with
         | E : getitem _ _ = Ok _ |- _ => apply getitem_inv in E
         end.
  exists s. split; [reflexivity|].
  repeat constructor; first [kept_by_subscript | kept_by_get].
Qed.

Lemma segments_loaded (l : list value) (segs : list SegmentObject) :
  map_result segment_from_dict l = Ok segs -> Forall2 loaded_segment l segs.
Proof.
  revert segs. induction l as [|v l IH]; intros segs; cbn [map_result].
  - intros [= <-]. constructor.
  - destruct (segment_from_dict v) as [o|] eqn:S; cbn [bind]; [|discriminate].
    destruct (map_result segment_from_dict l) as [segs'|]; cbn [bind];
      [|discriminate].
    intros [= <-]. constructor; [apply segment_from_dict_loaded, S|].
    apply IH. reflexivity.
Qed.

(** X1. Loading checks no type, and alters nothing of what it keeps. When
    [from_json] builds an object from a record, the four required keys are
    in the record, and writing the object back with [to_dict] gives, under
    every key but the platforms and the segments, the value the record holds
    under it, whatever its type, or the default of the dataclass when the
    record has no such key. The platforms are written back as the list of
    what iterating the record's value yields: a list is kept, while an
    object is replaced by the list of its keys and a string by the list of
    its characters. The segments are loaded one by one and in order from
    what iterating the record's value yields, each from a dictionary, and
    each keeps the values of its ten keys likewise. On the object of a
    questionnaire, writing back is [to_dict]. *)
Theorem from_dict_keeps_values (data : list (string * value))
        (o : QuestionnaireObject) :
  from_dict data = Ok o ->
  Forall (fun k => dict_get data k <> None) required_keys
  /\ Forall (kept_or_default default_record data (object_to_dict o))
            kept_keys
  /\ (exists l,
        iterate (get_default data "target_platforms" (VList [])) = Ok l
        /\ dict_get (object_to_dict o) "target_platforms" = Some (VList l))
  /\ (exists l,
        iterate (get_default data "segments" (VList [])) = Ok l
        /\ Forall2 loaded_segment l (qo_segments o))
  /\ (forall q, object_to_dict (questionnaire_object q) = to_dict q).
Proof.
  intros H. unfold from_dict in H. do 4 field_read H.
  destruct (iterate (get_default data "target_platforms" (VList [])))
    as [platforms|] eqn:P; cbn [bind] in H; [|discriminate H].
  field_read H.
  destruct (iterate (get_default data "segments" (VList [])))
    as [segs|] eqn:S; cbn [bind] in H; [|discriminate H].
  field_read H. injection H as <-.
  repeat match goal with
         | E : getitem _ _ = Ok _ |- _ => apply getitem_inv in E
         | E : bind (getitem _ _) VideoStyle_of_value = Ok _ |- _ =>
             apply read_style in E
         | E : map_result PlatformTarget_of_value _ = Ok _ |- _ =>
             apply map_result_platforms_inv in E
         | E : map_result segment_from_dict _ = Ok _ |- _ =>
             apply segments_loaded in E
         end.
  split; [|split; [|split; [|split]]];
    [ | | | | exact object_to_dict_of_questionnaire].
  - repeat constructor;
      match goal with
      | E : dict_get data ?k = Some _ |- dict_get data ?k <> None =>
          rewrite E; discriminate
      end.
  - repeat constructor; first [kept_by_subscript | kept_by_get].
  - exists platforms. split; [reflexivity|]. cbn. subst platforms.
    reflexivity.
  - exists segs. split; [reflexivity|]. assumption.
Qed.

Lemma from_dict_keeps_values_witness :
  exists o,
    from_dict Examples.record_with_platform_object = Ok o
    /\ dict_get Examples.record_with_platform_object "target_platforms"
       = Some (VDict [("tiktok", VInt 1)])
    /\ dict_get (object_to_dict o) "target_platforms"
       = Some (VList [VStr "tiktok"])
    /\ Forall (kept_or_default default_record
                 Examples.record_with_platform_object (object_to_dict o))
              kept_keys.
Proof.
  eexists. split; [reflexivity|]. split; [reflexivity|].
  split; [reflexivity|].
  apply (from_dict_keeps_values Examples.record_with_platform_object).
  reflexivity.
Defined.

(** X2. Required and optional keys of a record. [from_json] fails with a
    [KeyError] naming the first of project title, purpose, audience and
    style, in that order, that the record lacks, whatever the record holds
    under the others. A record that holds those four, the style being a
    member's value, and none of the other keys loads as the object the
    dataclass builds from the four values alone, every other field at its
    default; when the three others are texts this is the questionnaire of
    those texts, which, having no segment, is rejected by [validate]. *)
Theorem from_dict_required_and_optional_keys (data : list (string * value)) :
  (dict_get data "project_title" = None ->
   from_dict data = Raise (KeyError "project_title"))
  /\ (dict_get data "project_title" <> None ->
      dict_get data "sop_purpose" = None ->
      from_dict data = Raise (KeyError "sop_purpose"))
  /\ (dict_get data "project_title" <> None ->
      dict_get data "sop_purpose" <> None ->
      dict_get data "target_audience" = None ->
      from_dict data = Raise (KeyError "target_audience"))
  /\ (dict_get data "project_title" <> None ->
      dict_get data "sop_purpose" <> None ->
      dict_get data "target_audience" <> None ->
      dict_get data "video_style" = None ->
      from_dict data = Raise (KeyError "video_style"))
  /\ (forall t p a m,
        dict_get data "project_title" = Some t ->
        dict_get data "sop_purpose" = Some p ->
        dict_get data "target_audience" = Some a ->
        dict_get data "video_style" = Some (VStr (VideoStyle_value m)) ->
        Forall (fun k => dict_get data k = None) optional_keys ->
        from_dict data = Ok (QuestionnaireObject_required t p a m))
  /\ (forall t p a m,
        QuestionnaireObject_required (VStr t) (VStr p) (VStr a) m
        = questionnaire_object (SOPQuestionnaire_required t p a m)
        /\ fst (validate (SOPQuestionnaire_required t p a m)) = false).
Proof.
  split; [|split; [|split; [|split; [|split]]]].
  - unfold from_dict, getitem. intros ->. reflexivity.
  - unfold from_dict, getitem. intros T ->.
    destruct (dict_get data "project_title"); [reflexivity|congruence].
  - unfold from_dict, getitem. intros T P ->.
    destruct (dict_get data "project_title"); [|congruence].
    destruct (dict_get data "sop_purpose"); [reflexivity|congruence].
  - unfold from_dict, getitem. intros T P A ->.
    destruct (dict_get data "project_title"); [|congruence].
    destruct (dict_get data "sop_purpose"); [|congruence].
    destruct (dict_get data "target_audience"); [reflexivity|congruence].
  - intros t p a m Ht Hp Ha Hm Hopt.
    rewrite Forall_forall in Hopt.
    assert (A : forall k, existsb (String.eqb k) optional_keys = true ->
                          dict_get data k = None).
    { intros k E. apply Hopt. apply existsb_exists in E.
      destruct E as (k' & I & E). apply String.eqb_eq in E. subst k'.
      exact I. }
    unfold from_dict, getitem, get_default.
    rewrite Ht, Hp, Ha, Hm. cbn [bind].
    rewrite VideoStyle_round_trip. cbn [bind].
    rewrite !A by reflexivity. reflexivity.
  - intros t p a m. split; [reflexivity|].
    apply validate_rejects_bad_count. left. reflexivity.
Qed.

Lemma from_dict_required_and_optional_keys_witness :
  from_dict Examples.minimal_record
  = Ok (questionnaire_object
          (SOPQuestionnaire_required "Minimal" "Say little" "Anyone" CASUAL))
  /\ from_dict Examples.record_with_number_title
     = Raise (KeyError "sop_purpose")
  /\ from_dict (skipn 2 (to_dict Examples.full))
     = Raise (KeyError "project_title").
Proof.
  split; [|split].
  - apply (proj1 (proj2 (proj2 (proj2 (proj2
             (from_dict_required_and_optional_keys Examples.minimal_record)))))
             (VStr "Minimal") (VStr "Say little") (VStr "Anyone") CASUAL);
      try reflexivity.
    repeat constructor.
  - apply (proj1 (proj2 (from_dict_required_and_optional_keys
                           Examples.record_with_number_title)));
      [discriminate|reflexivity].
  - apply (proj1 (from_dict_required_and_optional_keys
                    (skipn 2 (to_dict Examples.full)))).
    reflexivity.
Defined.

Lemma quick_template_cases (name : string) :
  (name = "how_to" /\ quick_template name = _how_to_template)
  \/ (name = "training" /\ quick_template name = _training_template)
  \/ (name = "announcement" /\ quick_template name = _announcement_template)
  \/ (name <> "how_to" /\ name <> "training" /\ name <> "announcement"
      /\ quick_template name = _product_demo_template).
Proof.
  unfold quick_template. cbn [template_get].
  destruct (String.eqb_spec name "product_demo") as [->|N1].
  { do 3 right. repeat split; discriminate. }
  destruct (String.eqb_spec name "how_to") as [->|N2]; [left; auto|].
  destruct (String.eqb_spec name "training") as [->|N3]; [right; left; auto|].
  destruct (String.eqb_spec name "announcement") as [->|N4];
    [right; right; left; auto|].
  do 3 right. auto.
Qed.

Lemma quick_template_fallback (name : string) :
  ~ In name ["product_demo"; "how_to"; "training"; "announcement"] ->
  quick_template name = _product_demo_template.
Proof.
  intros N. unfold quick_template. cbn [template_get].
  destruct (String.eqb_spec name "product_demo"); [reflexivity|].
  destruct (String.eqb_spec name "how_to") as [->|]; [cbn in N; tauto|].
  destruct (String.eqb_spec name "training") as [->|]; [cbn in N; tauto|].
  destruct (String.eqb_spec name "announcement") as [->|];
    [cbn in N; tauto|reflexivity].
Qed.

(** X3. Whatever name it is given, [quick_template] answers a questionnaire
    that [validate] accepts, whose four segments are numbered 1 to 4 in list
    order, and that translates to four requests with the scene ids
    "{title}_segment_1" to "{title}_segment_4", the first prompt without a
    continuity block and each later one holding the presenter line that
    names the segment before it. A name that is none of the four falls back
    to the product demo. *)
Theorem quick_template_always_usable (name : string) :
  validate (quick_template name) = (true, None)
  /\ map segment_number (segments (quick_template name)) = [1; 2; 3; 4]%Z
  /\ (exists r1 r2 r3 r4,
        Translator.translate_questionnaire (quick_template name)
        = Ok [r1; r2; r3; r4]
        /\ map Client.scene_id [r1; r2; r3; r4]
           = map (fun k => Some (project_title (quick_template name)
                                 +++ "_segment_" +++ str_of_int k))
                 [1; 2; 3; 4]%Z
        /\ contains (Client.prompt r1) "CONTINUITY REQUIREMENTS:" = false
        /\ contains (Client.prompt r2)
             "- Presenter MUST match exact appearance from Segment 1" = true
        /\ contains (Client.prompt r3)
             "- Presenter MUST match exact appearance from Segment 2" = true
        /\ contains (Client.prompt r4)
             "- Presenter MUST match exact appearance from Segment 3" = true)
  /\ (~ In name ["product_demo"; "how_to"; "training"; "announcement"] ->
      quick_template name = _product_demo_template).
Proof.
  assert (U : forall q,
    In q [_how_to_template; _training_template; _announcement_template;
          _product_demo_template] ->
    validate q = (true, None)
    /\ map segment_number (segments q) = [1; 2; 3; 4]%Z
    /\ (exists r1 r2 r3 r4,
          Translator.translate_questionnaire q = Ok [r1; r2; r3; r4]
          /\ map Client.scene_id [r1; r2; r3; r4]
             = map (fun k => Some (project_title q
                                   +++ "_segment_" +++ str_of_int k))
                   [1; 2; 3; 4]%Z
          /\ contains (Client.prompt r1) "CONTINUITY REQUIREMENTS:" = false
          /\ contains (Client.prompt r2)
               "- Presenter MUST match exact appearance from Segment 1" = true
          /\ contains (Client.prompt r3)
               "- Presenter MUST match exact appearance from Segment 2" = true
          /\ contains (Client.prompt r4)
               "- Presenter MUST match exact appearance from Segment 3" = true)).
  { intros q [<-|[<-|[<-|[<-|[]]]]];
      (split; [vm_compute; reflexivity|]);
      (split; [vm_compute; reflexivity|]);
      do 4 eexists; (split; [vm_compute; reflexivity|]);
      vm_compute; repeat split. }
  split; [|split; [|split]]; try apply quick_template_fallback;
    apply U;
    destruct (quick_template_cases name)
      as [[_ ->]|[[_ ->]|[[_ ->]|(_ & _ & _ & ->)]]];
    cbn; auto 6.
Qed.

Lemma quick_template_always_usable_witness :
  quick_template "webinar" = _product_demo_template.
Proof.
  apply (quick_template_always_usable "webinar").
  cbn. intros [H|[H|[H|[H|[]]]]]; discriminate.
Defined.

End LoadingProperties.

(* ================================================================== *)
(** * What the prompts are made of and what the service is sent *)
(* ================================================================== *)

Section PromptProperties.
Import Py Questionnaire Translator Spec.

Lemma style_get_lighting_total (v : VideoStyle) (d1 d2 : string) :
  style_get style_to_lighting v d1 = style_get style_to_lighting v d2.
Proof. destruct v; reflexivity. Qed.

(** X4. A segment prompt is made of eight fields of the questionnaire
    (presenter type, description and clothing, primary location, location
    description, style, brand colors, consistency mode), of eight fields of
    the segment (number, title, description, key action, visual focus, text
    overlay, props, location) and of the previous segment's number, and of
    nothing else: questionnaires, segments and predecessors that agree on
    those give the same prompt. So the lighting preference (every style has
    its own lighting phrase), the voiceover script, the duration and the
    rest of the previous segment never show in a prompt. *)
Theorem prompt_depends_on_views (s1 s2 : SOPSegment)
        (q1 q2 : SOPQuestionnaire) (p1 p2 : option SOPSegment) :
  questionnaire_view q1 = questionnaire_view q2 ->
  segment_view s1 = segment_view s2 ->
  predecessor_view p1 = predecessor_view p2 ->
  translate_segment s1 q1 p1 = translate_segment s2 q2 p2.
Proof.
  intros Hq Hs Hp. destruct q1, q2, s1, s2.
  unfold questionnaire_view, segment_view in Hq, Hs. cbn in Hq, Hs.
  injection Hq as -> -> -> -> -> -> -> ->.
  injection Hs as -> -> -> -> -> -> -> ->.
  unfold translate_segment. f_equal.
  unfold prompt_parts, style_part, continuity_part.
  cbn [video_style Questionnaire.lighting_preference segment_number
       presenter_type presenter_clothing primary_location].
  rewrite (style_get_lighting_total _ lighting_preference0
             lighting_preference1).
  destruct p1 as [a|], p2 as [b|]; cbn in Hp; try discriminate;
    [injection Hp as ->|]; reflexivity.
Qed.

Lemma prompt_depends_on_views_witness :
  translate_segment
    (with_duration Examples.feature 15)
    (mkQuestionnaire "Other" "Another purpose" "Others" PROMOTIONAL [] ["Arial"]
       [TIKTOK] "person" (Some "X") None "" "" "moody_low_key"
       [] (Some "ACME") (Some "corner") false (Some "jazz") true "french"
       "strict")
    (Some (Examples.seg 1 "Another" "Different" "Words" "Here"))
  = translate_segment Examples.feature Examples.demo (Some Examples.intro).
Proof.
  apply prompt_depends_on_views; reflexivity.
Defined.

Lemma append_assoc (a b c : string) : (a +++ b) +++ c = a +++ (b +++ c).
Proof. induction a as [|x a IH]; cbn; [reflexivity|]. rewrite IH. reflexivity. Qed.

Lemma append_cancel_l (a b c : string) : a +++ b = a +++ c -> b = c.
Proof.
  induction a as [|x a IH]; cbn; [auto|].
  intros H. injection H as H. auto.
Qed.

Lemma join_two (sep x y : string) (l : list string) :
  join sep (x :: y :: l) = x +++ sep +++ join sep (y :: l).
Proof. reflexivity. Qed.

(** A string that opens with a bracket and nine more characters passes the
    first two tests of [validate_prompt]. *)
Lemma validate_prompt_bracketed (c1 c2 c3 c4 c5 c6 c7 c8 c9 : ascii)
      (rest : string) :
  let p :=
    String "[" (String c1 (String c2 (String c3 (String c4 (String c5
      (String c6 (String c7 (String c8 (String c9 rest))))))))) in
  Client.validate_prompt p
  = if Nat.ltb 5000 (String.length p)
    then (false, Some "Prompt too long (maximum 5000 characters)")
    else (true, None).
Proof.
  intros p. unfold Client.validate_prompt. rewrite empty_test.
  reflexivity.
Qed.

Lemma translate_segment_opening seg q prev :
  exists rest,
    translate_segment seg q prev = "[8-second video segment - " +++ rest.
Proof.
  unfold translate_segment, prompt_parts, scene_part.
  cbn [app]. rewrite join_two, append_assoc.
  eexists. reflexivity.
Qed.

Lemma intro_outro_opening q t :
  exists rest, generate_intro_outro q t = "[3-second " +++ rest.
Proof.
  unfold generate_intro_outro, intro_outro_parts.
  destruct (String.eqb t "intro");
    cbn [app]; rewrite join_two, ?append_assoc; eexists; reflexivity.
Qed.

(** X5. No prompt the translator writes, for a segment, an intro or an
    outro, is rejected by [validate_prompt] as empty or as too short: the
    prompt is accepted, unless it is longer than 5000 characters. *)
Theorem translator_prompts_pass_validate_prompt :
  (forall seg q prev,
      let p := translate_segment seg q prev in
      Client.validate_prompt p
      = if Nat.ltb 5000 (String.length p)
        then (false, Some "Prompt too long (maximum 5000 characters)")
        else (true, None))
  /\ (forall q t,
        let p := generate_intro_outro q t in
        Client.validate_prompt p
        = if Nat.ltb 5000 (String.length p)
          then (false, Some "Prompt too long (maximum 5000 characters)")
          else (true, None)).
Proof.
  split.
  - intros seg q prev p. subst p.
    destruct (translate_segment_opening seg q prev) as [rest ->].
    apply validate_prompt_bracketed.
  - intros q t p. subst p.
    destruct (intro_outro_opening q t) as [rest ->].
    apply validate_prompt_bracketed.
Qed.

End PromptProperties.

(* ================================================================== *)
(** * Requests of a questionnaire *)
(* ================================================================== *)

Section RequestProperties.
Import Py Questionnaire Translator Spec.

Lemma to_int_not_nil (z : Z) :
  Z.to_int z <> Decimal.Pos Decimal.Nil /\ Z.to_int z <> Decimal.Neg Decimal.Nil.
Proof.
  split; intros E;
    pose proof (DecimalZ.to_of (Z.to_int z)) as N;
    rewrite DecimalZ.of_to in N; rewrite E in N; discriminate N.
Qed.

Lemma str_of_int_injective (a b : Z) : str_of_int a = str_of_int b -> a = b.
Proof.
  unfold str_of_int. intros E.
  destruct (to_int_not_nil a) as [A1 A2], (to_int_not_nil b) as [B1 B2].
  pose proof (NilZero.isi _ A1 A2) as Ia.
  pose proof (NilZero.isi _ B1 B2) as Ib.
  rewrite E in Ia. rewrite Ia in Ib. injection Ib as Ib.
  rewrite <- (DecimalZ.of_to a), <- (DecimalZ.of_to b), Ib. reflexivity.
Qed.

Lemma scene_id_of_injective (q : SOPQuestionnaire) (s1 s2 : SOPSegment) :
  scene_id_of q s1 = scene_id_of q s2 -> segment_number s1 = segment_number s2.
Proof.
  unfold scene_id_of. intros E. injection E as E.
  apply append_cancel_l in E.
  apply str_of_int_injective.
  exact (append_cancel_l "_segment_" _ _ E).
Qed.

Lemma translate_loop_scene_ids q segs prev :
  map Client.scene_id (translate_loop q segs prev) = map (scene_id_of q) segs.
Proof.
  revert prev. induction segs as [|s rest IH]; intros prev; [reflexivity|].
  cbn [translate_loop map]. rewrite IH. reflexivity.
Qed.

Lemma NoDup_scene_ids q segs :
  NoDup (map (scene_id_of q) segs) <-> NoDup (map segment_number segs).
Proof.
  induction segs as [|s rest IH]; cbn [map].
  - split; constructor.
  - rewrite !NoDup_cons_iff, IH.
    assert (M : In (scene_id_of q s) (map (scene_id_of q) rest)
                <-> In (segment_number s) (map segment_number rest)).
    { rewrite !in_map_iff. split; intros (x & E & I); exists x; split; auto.
      - apply scene_id_of_injective with (q := q). exact E.
      - unfold scene_id_of. rewrite E. reflexivity. }
    rewrite M. reflexivity.
Qed.

Lemma startswith_sep_append (a b : string) :
  a <> "" -> Client.startswith_sep (a +++ b) = Client.startswith_sep a.
Proof. destruct a; [congruence|reflexivity]. Qed.

Lemma or_str_nonempty (scene : option string) :
  Client.or_str scene "video" <> "".
Proof.
  destruct scene as [[|c s]|]; cbn; discriminate.
Qed.

Lemma length_append (a b : string) :
  String.length (a +++ b) = String.length a + String.length b.
Proof.
  induction a as [|c a IH]; cbn; [reflexivity|]. rewrite IH. reflexivity.
Qed.

Lemma append_cancel_r (a b c : string) : a +++ c = b +++ c -> a = b.
Proof.
  revert b. induction a as [|x a IH]; intros [|y b] E.
  - reflexivity.
  - apply (f_equal String.length) in E. cbn in E.
    rewrite length_append in E. lia.
  - apply (f_equal String.length) in E. cbn in E.
    rewrite length_append in E. lia.
  - cbn in E. injection E as -> E. rewrite (IH b E). reflexivity.
Qed.

(** Two downloads of one scene go to the same file exactly when the clock
    reads the same second at both. *)
Lemma download_path_same_file (config : Config.VEO3Config) (t1 t2 : Z)
      (scene : option string) :
  download_path config t1 scene = download_path config t2 scene <-> t1 = t2.
Proof.
  split; [|intros ->; reflexivity].
  unfold download_path, Client.os_path_join.
  rewrite !startswith_sep_append by apply or_str_nonempty.
  intros E.
  assert (F : Client.or_str scene "video" +++ "_" +++ str_of_int t1 +++ ".mp4"
              = Client.or_str scene "video" +++ "_" +++ str_of_int t2
                +++ ".mp4").
  { destruct (Client.startswith_sep (Client.or_str scene "video"));
      [exact E|].
    destruct (negb (truthy_str (Config.output_dir config))
              || Client.endswith_sep (Config.output_dir config)).
    - exact (append_cancel_l _ _ _ E).
    - apply append_cancel_l in E. exact (append_cancel_l "/" _ _ E). }
  apply append_cancel_l in F.
  pose proof (append_cancel_l "_" _ _ F) as G.
  apply append_cancel_r in G. apply str_of_int_injective, G.
Qed.

(** X6. The requests of an accepted questionnaire have pairwise distinct
    scene ids exactly when its segments have pairwise distinct numbers: two
    segments that share a number share their scene id. The file a video is
    downloaded to is named after the scene id and the second the clock reads
    at the download, so the videos of two requests that share a scene id go
    to the same file exactly when they are downloaded within the same
    second, the later one then replacing the earlier. *)
Theorem scene_ids_distinct_iff_numbers_distinct (q : SOPQuestionnaire) :
  fst (validate q) = true ->
  exists reqs,
    translate_questionnaire q = Ok reqs
    /\ map Client.scene_id reqs = map (scene_id_of q) (segments q)
    /\ (NoDup (map Client.scene_id reqs)
        <-> NoDup (map segment_number (segments q)))
    /\ (forall config r1 r2 t1 t2,
          In r1 reqs -> In r2 reqs ->
          Client.scene_id r1 = Client.scene_id r2 ->
          (download_path config t1 (Client.scene_id r1)
           = download_path config t2 (Client.scene_id r2)
           <-> t1 = t2)).
Proof.
  intros V. exists (translate_loop q (segments q) None).
  unfold translate_questionnaire.
  destruct (validate q) as [v e]. cbn in V. subst v. cbn [negb].
  split; [reflexivity|].
  split; [apply translate_loop_scene_ids|].
  split.
  - rewrite translate_loop_scene_ids. apply NoDup_scene_ids.
  - intros config r1 r2 t1 t2 _ _ ->. apply download_path_same_file.
Qed.

Lemma scene_ids_distinct_iff_numbers_distinct_witness :
  exists r1 r2 r3,
    translate_questionnaire Examples.demo_misnumbered = Ok [r1; r2; r3]
    /\ Client.scene_id r1 = Client.scene_id r2
    /\ ~ NoDup (map Client.scene_id [r1; r2; r3])
    /\ download_path Examples.config 1700000000 (Client.scene_id r1)
       <> download_path Examples.config 1700000007 (Client.scene_id r2).
Proof.
  destruct (scene_ids_distinct_iff_numbers_distinct Examples.demo_misnumbered)
    as (reqs & E & S & D & P); [reflexivity|].
  destruct reqs as [|r1 [|r2 [|r3 [|r4 reqs]]]]; try discriminate S.
  exists r1, r2, r3. split; [exact E|].
  cbn in S. injection S as S1 S2 S3.
  assert (Same : Client.scene_id r1 = Client.scene_id r2)
    by (rewrite S1, S2; reflexivity).
  split; [exact Same|]. split.
  - intros N. apply D in N. cbn in N.
    inversion N as [|x l I _]. apply I. left. reflexivity.
  - intros F.
    apply (P Examples.config r1 r2 1700000000%Z 1700000007%Z) in F;
      [discriminate F | left; reflexivity | right; left; reflexivity
       | exact Same].
Defined.




End RequestProperties.

(* ================================================================== *)
(** * Intro, outro and platform specifications *)
(* ================================================================== *)

Section BumperAndPlatformProperties.
Import Py Questionnaire Translator Spec.

(** X8. [generate_intro_outro] writes an outro for every segment type other
    than "intro". Intro and outro both close with the same technical block,
    "- Exactly 3 seconds" included. The intro is made of the project title,
    the purpose, the company name, the brand colors and the logo placement
    only, the outro of the last three only: neither depends on the
    segments, the presenter, the location or the consistency mode. *)
Theorem intro_outro_structure :
  (forall q t,
      t <> "intro" -> generate_intro_outro q t = generate_intro_outro q "outro")
  /\ (forall q t,
        exists body,
          intro_outro_parts q t
          = body ++ [ ""; "Technical:"; "- Exactly 3 seconds";
                      "- Professional animation quality";
                      "- Smooth, polished execution" ])
  /\ (forall q1 q2,
        intro_view q1 = intro_view q2 ->
        generate_intro_outro q1 "intro" = generate_intro_outro q2 "intro")
  /\ (forall q1 q2 t,
        t <> "intro" -> outro_view q1 = outro_view q2 ->
        generate_intro_outro q1 t = generate_intro_outro q2 t).
Proof.
  split; [|split; [|split]].
  - intros q t N. unfold generate_intro_outro, intro_outro_parts.
    apply String.eqb_neq in N. rewrite N. reflexivity.
  - intros q t. unfold intro_outro_parts.
    destruct (String.eqb t "intro");
      match goal with
      | |- exists body, ?A ++ _ = _ => exists A; reflexivity
      end.
  - intros q1 q2 E. unfold intro_view in E.
    injection E as E1 E2 E3 E4 E5.
    unfold generate_intro_outro, intro_outro_parts.
    rewrite E1, E2, E3, E4, E5. reflexivity.
  - intros q1 q2 t N E. unfold outro_view in E.
    injection E as E1 E2 E3.
    unfold generate_intro_outro, intro_outro_parts.
    apply String.eqb_neq in N. rewrite N, E1, E2, E3. reflexivity.
Qed.

Lemma intro_outro_structure_witness :
  generate_intro_outro Examples.demo "credits"
  = generate_intro_outro Examples.demo "outro"
  /\ generate_intro_outro Examples.demo_seven "intro"
     = generate_intro_outro Examples.demo "intro"
  /\ generate_intro_outro Examples.blank_questionnaire "outro"
     = generate_intro_outro Examples.demo "outro".
Proof.
  split; [|split].
  - apply (proj1 intro_outro_structure). discriminate.
  - apply (proj1 (proj2 (proj2 intro_outro_structure))). reflexivity.
  - apply (proj2 (proj2 (proj2 intro_outro_structure)));
      [discriminate | reflexivity].
Defined.

Lemma specs_lookup_in (d : list (string * list (string * value)))
      (k : string) (v : list (string * value)) :
  specs_lookup d k = Some v -> In v (map snd d).
Proof.
  induction d as [|[k' v'] d IH]; cbn [specs_lookup map snd]; [discriminate|].
  destruct (String.eqb k k').
  - intros [= <-]. left. reflexivity.
  - intros H. right. apply IH, H.
Qed.

Lemma get_platform_specs_in (platform : string) :
  In (get_platform_specs platform) (map snd specs).
Proof.
  unfold get_platform_specs, specs_get at 1.
  destruct (specs_lookup specs (lower platform)) as [v|] eqn:E.
  - apply (specs_lookup_in _ _ _ E).
  - left. reflexivity.
Qed.

(** The goal of the next theorem once the entry is known. *)
Ltac entry_is ratios max_duration recommended resolution :=
  exists ratios, max_duration, recommended, resolution;
  split; [reflexivity|];
  split; [reflexivity|];
  split; [discriminate|];
  split; [repeat constructor; cbn; auto|];
  lia.

(** X9. Whatever name it is asked for, [get_platform_specs] answers an
    entry whose format is "mp4", whose aspect ratios are a non-empty choice
    among 16:9, 1:1 and 9:16, and whose recommended duration is positive and
    at most its maximal duration; the maximal duration is never below the 48
    seconds that six segments of eight seconds add up to. *)
Theorem platform_specs_invariants (platform : string) :
  exists ratios max_duration recommended resolution,
    get_platform_specs platform
    = platform_entry ratios max_duration recommended resolution
    /\ dict_get (get_platform_specs platform) "format" = Some (VStr "mp4")
    /\ ratios <> []
    /\ Forall (fun a => In a ["16:9"; "1:1"; "9:16"]) ratios
    /\ (0 < recommended <= max_duration)%Z
    /\ (6 * 8 <= max_duration)%Z.
Proof.
  pose proof (get_platform_specs_in platform) as I.
  cbn [specs map snd] in I.
  destruct I as [<-|[<-|[<-|[<-|[<-|[<-|[]]]]]]].
  - entry_is ["16:9"; "1:1"; "9:16"] 60%Z 30%Z "1080x1080".
  - entry_is ["9:16"] 60%Z 15%Z "1080x1920".
  - entry_is ["9:16"] 60%Z 30%Z "1080x1920".
  - entry_is ["16:9"] 600%Z 30%Z "1920x1080".
  - entry_is ["16:9"; "1:1"] 240%Z 30%Z "1920x1080".
  - entry_is ["16:9"; "1:1"] 140%Z 30%Z "1920x1080".
Qed.

Lemma lower_char_idempotent (c : ascii) :
  lower_char (lower_char c) = lower_char c.
Proof. destruct c as [[] [] [] [] [] [] [] []]; vm_compute; reflexivity. Qed.

Lemma lower_idempotent (s : string) : lower (lower s) = lower s.
Proof.
  induction s as [|c s IH]; cbn [lower]; [reflexivity|].
  rewrite lower_char_idempotent, IH. reflexivity.
Qed.

Lemma specs_lookup_unknown (k : string) :
  (forall p, k <> PlatformTarget_value p) -> specs_lookup specs k = None.
Proof.
  intros N. unfold specs. cbn [specs_lookup].
  destruct (String.eqb_spec k "instagram") as [E|_]; [destruct (N INSTAGRAM E)|].
  destruct (String.eqb_spec k "tiktok") as [E|_]; [destruct (N TIKTOK E)|].
  destruct (String.eqb_spec k "youtube_shorts") as [E|_];
    [destruct (N YOUTUBE_SHORTS E)|].
  destruct (String.eqb_spec k "linkedin") as [E|_]; [destruct (N LINKEDIN E)|].
  destruct (String.eqb_spec k "facebook") as [E|_]; [destruct (N FACEBOOK E)|].
  destruct (String.eqb_spec k "twitter") as [E|_]; [destruct (N TWITTER E)|].
  reflexivity.
Qed.

(** X10. [get_platform_specs] does not tell letter cases apart: a name and
    its lower-case form get the same entry. A name whose lower-case form is
    the value of a [PlatformTarget] member gets the entry the table holds
    under that value, each member having one; any other name gets the
    entry of instagram. *)
Theorem platform_specs_lookup :
  (forall s, get_platform_specs (lower s) = get_platform_specs s)
  /\ (forall s p,
        lower s = PlatformTarget_value p ->
        specs_lookup specs (PlatformTarget_value p)
        = Some (get_platform_specs s))
  /\ (forall s,
        (forall p, lower s <> PlatformTarget_value p) ->
        get_platform_specs s = get_platform_specs "instagram").
Proof.
  split; [|split].
  - intros s. unfold get_platform_specs. rewrite lower_idempotent.
    reflexivity.
  - intros s p E. unfold get_platform_specs, specs_get at 1. rewrite E.
    destruct p; reflexivity.
  - intros s N. unfold get_platform_specs, specs_get at 1.
    rewrite (specs_lookup_unknown _ N). reflexivity.
Qed.

Lemma platform_specs_lookup_witness :
  specs_lookup specs "tiktok" = Some (get_platform_specs "TikTok")
  /\ get_platform_specs "vine" = get_platform_specs "instagram".
Proof.
  split.
  - apply (proj1 (proj2 platform_specs_lookup) "TikTok" TIKTOK).
    vm_compute. reflexivity.
  - apply (proj2 (proj2 platform_specs_lookup)).
    intros p. destruct p; discriminate.
Defined.

End BumperAndPlatformProperties.

(* ================================================================== *)
(** * What a generation does to the world *)
(* ================================================================== *)

Section GenerationEffects.
Import Py Client Spec.

Variable config : Config.VEO3Config.
Variable w : World.

(** X11. One call of [generate_video] makes exactly one POST, whatever
    happens, so nothing is ever retried; it makes at most 60 status requests
    and sleeps at most 300 seconds in all. Its response is a success exactly
    when one file was downloaded, the one the response names as its video
    path; a failed response comes with no download. The retry count of the
    response is always 0. *)
Theorem generate_video_effects (request : VideoGenerationRequest)
        (st : Effects) :
  exists resp st',
    generate_video config w request st = (Ok resp, st')
    /\ posts st' = S (posts st)
    /\ polls st <= polls st' <= polls st + 60
    /\ (slept st <= slept st' <= slept st + 300)%Z
    /\ (success resp = true <->
        exists path, video_path resp = Some path
                     /\ downloads st' = path :: downloads st)
    /\ (success resp = false -> downloads st' = downloads st)
    /\ retry_count resp = 0%Z.
Proof.
  destruct (generate_video_settles config w request st)
    as (resp & st' & E & P & Q & S & W & _).
  exists resp, st'. split; [exact E|].
  split; [exact P|]. split; [exact Q|]. split; [exact S|].
  destruct W as [(message & -> & D)|(p & u & m & -> & D)].
  - split; [|split; [intros _; exact D|reflexivity]].
    split; [discriminate|]. intros (path & V & _). discriminate V.
  - split; [|split; [discriminate|reflexivity]].
    split; [|reflexivity]. intros _. exists p. split; [reflexivity|exact D].
Qed.

Lemma submit_all_cons request rest st resp st1 :
  generate_video config w request st = (Ok resp, st1) ->
  submit_all config w (request :: rest) st
  = (resp :: fst (submit_all config w rest st1),
     snd (submit_all config w rest st1)).
Proof.
  intros E. cbn [submit_all]. rewrite E.
  destruct (submit_all config w rest st1). reflexivity.
Qed.

(** Submitted one after the other, the requests all get a response. *)
Lemma submit_all_length requests st :
  length (fst (submit_all config w requests st)) = length requests.
Proof.
  revert st. induction requests as [|request rest IH]; intros st;
    [reflexivity|].
  destruct (generate_video_settles config w request st)
    as (resp & st1 & E & _).
  rewrite (submit_all_cons request rest st resp st1 E).
  cbn [fst length]. rewrite IH. reflexivity.
Qed.

(** The generation loop of the driver, started with [videos] collected: it
    appends the paths of the responses that precede the first failure, and
    stops in the state the request that failed, or the last one, left. *)
Lemma generate_segments_in_order (requests : list VideoGenerationRequest)
      (videos : list (option string)) (st : Effects) :
  let succeeded_first :=
    leading_successes (fst (submit_all config w requests st)) in
  Driver.generate_segments config w requests videos st
  = (Ok (videos ++ map video_path succeeded_first),
     snd (submit_all config w
            (firstn (S (length succeeded_first)) requests) st)).
Proof.
  revert videos st. induction requests as [|request rest IH];
    intros videos st; cbn zeta.
  - cbn. rewrite app_nil_r. reflexivity.
  - destruct (generate_video_settles config w request st)
      as (resp & st1 & E & _).
    rewrite (submit_all_cons request rest st resp st1 E).
    cbn [Driver.generate_segments fst leading_successes].
    unfold bindM at 1. rewrite E.
    destruct (success resp) eqn:S.
    + cbn zeta in IH. rewrite IH.
      cbn [length map firstn].
      rewrite (submit_all_cons request _ st resp st1 E).
      cbn [snd]. rewrite <- app_assoc. reflexivity.
    + cbn [length map firstn]. rewrite app_nil_r.
      rewrite (submit_all_cons request [] st resp st1 E). reflexivity.
Qed.

(** The generation loop of the driver: it makes one POST per collected
    video, and one more when it stopped early, and each collected path was
    downloaded. *)
Lemma generate_segments_outcome (requests : list VideoGenerationRequest)
      (videos : list (option string)) (st : Effects) :
  exists out st' paths,
    Driver.generate_segments config w requests videos st = (Ok out, st')
    /\ out = videos ++ map Some paths
    /\ length paths <= length requests
    /\ posts st' = posts st + Nat.min (S (length paths)) (length requests)
    /\ downloads st' = rev paths ++ downloads st.
Proof.
  revert videos st. induction requests as [|request rest IH]; intros videos st.
  - exists videos, st, []. cbn. rewrite app_nil_r.
    repeat split; lia.
  - destruct (generate_video_settles config w request st)
      as (resp & st1 & E & P & _ & _ & W & _).
    cbn [Driver.generate_segments]. unfold bindM at 1. rewrite E.
    destruct W as [(message & -> & D)|(p & u & m & -> & D)].
    + exists videos, st1, []. cbn. rewrite app_nil_r.
      repeat split; try lia. exact D.
    + cbn [success succeeded video_path].
      destruct (IH (videos ++ [Some p]) st1)
        as (out & st2 & paths & E2 & O & L & P2 & D2).
      exists out, st2, (p :: paths). split; [exact E2|].
      split; [rewrite O, <- app_assoc; reflexivity|].
      split; [cbn; lia|].
      split; [cbn [length]; lia|].
      rewrite D2, D. cbn [rev]. rewrite <- app_assoc. reflexivity.
Qed.

Lemma leading_successes_stop
      (responses : list VideoGenerationResponse) :
  length (leading_successes responses) < length responses ->
  exists resp,
    nth_error responses (length (leading_successes responses)) = Some resp
    /\ success resp = false.
Proof.
  induction responses as [|r rest IH]; cbn [leading_successes length];
    [lia|].
  destruct (success r) eqn:S; cbn [length nth_error].
  - intros L. apply IH. lia.
  - intros _. exists r. split; [reflexivity|exact S].
Qed.

(** X12. The generation loop of the driver submits the requests in list
    order, each in the state the one before it left, and stops at the first
    failure. With [responses] the responses the requests get when they are
    all submitted so, the loop collects the video paths of the responses
    that precede the first failed one, in that order, and ends in the state
    reached once the request that failed, or the last one, has been
    answered: no later request is submitted. Each collected path is that of
    a file downloaded in the meantime; the loop makes one POST per collected
    video, and one more for the request that failed when there is one; it
    generated everything exactly when it collected as many videos as there
    were requests. It never raises. *)
Theorem driver_stops_at_first_failure
        (requests : list VideoGenerationRequest) (st : Effects) :
  let responses := fst (submit_all config w requests st) in
  let succeeded_first := leading_successes responses in
  exists videos st',
    Driver.generate_segments config w requests [] st = (Ok videos, st')
    /\ length responses = length requests
    /\ videos = map video_path succeeded_first
    /\ st' = snd (submit_all config w
                    (firstn (S (length succeeded_first)) requests) st)
    /\ (exists paths,
          videos = map Some paths
          /\ downloads st' = rev paths ++ downloads st)
    /\ (length videos = length requests ->
        posts st' = posts st + length requests)
    /\ (length videos < length requests ->
        posts st' = posts st + length videos + 1
        /\ exists resp,
             nth_error responses (length videos) = Some resp
             /\ success resp = false).
Proof.
  intros responses succeeded_first.
  pose proof (generate_segments_in_order requests [] st) as E.
  cbn zeta in E. fold responses in E. fold succeeded_first in E.
  cbn [app] in E.
  destruct (generate_segments_outcome requests [] st)
    as (out & st' & paths & E' & O & L & P & D).
  cbn [app] in O.
  pose proof E' as E''. rewrite E in E''. injection E'' as Eo Es.
  exists out, st'. split; [exact E'|].
  assert (Len : length responses = length requests)
    by apply submit_all_length.
  split; [exact Len|]. split; [symmetry; exact Eo|].
  split; [symmetry; exact Es|].
  split; [exists paths; split; [exact O|exact D]|].
  assert (LP : length out = length paths)
    by (rewrite O, length_map; reflexivity).
  split.
  - intros H. rewrite P. lia.
  - intros H. split; [rewrite P; lia|].
    rewrite <- Eo, length_map. apply leading_successes_stop.
    rewrite <- Eo, length_map in H. unfold succeeded_first in H. lia.
Qed.

End GenerationEffects.

Section GenerationScenarios.
Import Py Client Spec.

Lemma generate_video_effects_witness :
  exists st',
    generate_video Examples.config Examples.world_sync Examples.request
      no_effects
    = (Ok (succeeded "./output/videos/scene_1_1700000000.mp4"
             (VStr "http://x/v.mp4") (VDict [])), st')
    /\ downloads st' = ["./output/videos/scene_1_1700000000.mp4"].
Proof.
  destruct (generate_video_effects Examples.config Examples.world_sync
              Examples.request no_effects)
    as (resp & st' & E & _ & _ & _ & (S & _) & _).
  exists st'.
  assert (R : resp = succeeded "./output/videos/scene_1_1700000000.mp4"
                       (VStr "http://x/v.mp4") (VDict [])).
  { vm_compute in E. injection E as <- _. reflexivity. }
  subst resp. split; [exact E|].
  destruct (S eq_refl) as (path & V & D).
  cbn in V. injection V as <-. exact D.
Defined.

Lemma driver_stops_at_first_failure_witness :
  exists st',
    Driver.generate_segments Examples.config Examples.world_two_only
      [ Examples.request_with_prompt "first";
        Examples.request_with_prompt "second";
        Examples.request_with_prompt "third";
        Examples.request_with_prompt "first" ] [] no_effects
    = (Ok [ Some "./output/videos/scene_1_1700000000.mp4";
            Some "./output/videos/scene_1_1700000007.mp4" ], st')
    /\ posts st' = 3.
Proof.
  destruct (driver_stops_at_first_failure Examples.config
              Examples.world_two_only
              [ Examples.request_with_prompt "first";
                Examples.request_with_prompt "second";
                Examples.request_with_prompt "third";
                Examples.request_with_prompt "first" ] no_effects)
    as (videos & st' & E & _ & _ & _ & _ & _ & P).
  exists st'.
  assert (V : videos = [ Some "./output/videos/scene_1_1700000000.mp4";
                         Some "./output/videos/scene_1_1700000007.mp4" ]).
  { vm_compute in E. injection E as <- _. reflexivity. }
  subst videos. split; [exact E|].
  apply P. cbn. lia.
Defined.

End GenerationScenarios.

(* ================================================================== *)
(** * Answers of the service and where the artifact goes *)
(* ================================================================== *)

Section AnswerProperties.
Import Py Client Spec.

Variable config : Config.VEO3Config.
Variable w : World.


(** X14. Edges of the polling loop. An answer that says done, holds no
    error, and whose response is absent or is an object without a video URL
    is treated like one that says not done: the loop sleeps five seconds and
    asks again, and 60 such answers in a row end in "Generation timeout"
    after 60 status requests and 300 seconds of sleep. A done answer whose
    response is [null], or anything else that is no object, is not treated
    so: it ends the polling at once with the failure "Polling failed: '...'
    object has no attribute 'get'". A status request that raises ends the
    polling at once with the failure "Polling failed: ..." and is not
    repeated. *)
Theorem polling_edges (operation_id : string)
        (request : VideoGenerationRequest) (st : Effects) :
  let url := operation_url config operation_id in
  let run := _poll_generation_status config w operation_id request st in
  (forall d,
      says_done d -> dict_get d "error" = None ->
      dict_get d "response" = None
      \/ (exists body,
            dict_get d "response" = Some (VDict body)
            /\ truthy (get_default body "videoUrl" VNone) = false) ->
      inconclusive (VDict d))
  /\ (inconclusive_before w url (polls st) 60 ->
      run = (Ok (failed "Generation timeout"), after_waiting st 60)
      /\ polls (after_waiting st 60) = polls st + 60
      /\ slept (after_waiting st 60) = (slept st + 300)%Z)
  /\ (forall k d v,
        k < 60 -> inconclusive_before w url (polls st) k ->
        get_operation w url (polls st + k) = Ok (VDict d) ->
        says_done d -> dict_get d "error" = None ->
        dict_get d "response" = Some v -> (forall body, v <> VDict body) ->
        run = (Ok (failed ("Polling failed: '" +++ type_name v
                           +++ "' object has no attribute 'get'")),
               after_poll (after_waiting st k))
        /\ polls (after_poll (after_waiting st k)) = polls st + k + 1)
  /\ (forall k e,
        k < 60 -> inconclusive_before w url (polls st) k ->
        get_operation w url (polls st + k) = Raise e ->
        run = (Ok (failed ("Polling failed: " +++ str_of_exception e)),
               after_poll (after_waiting st k))
        /\ polls (after_poll (after_waiting st k)) = polls st + k + 1).
Proof.
  intros url run. subst run. unfold _poll_generation_status.
  fold (operation_url config operation_id). fold url.
  split; [|split; [|split]].
  - intros d D E R. exists d. split; [reflexivity|]. right.
    split; [exact E|]. unfold get_default.
    destruct R as [->|(body & -> & T)].
    + exists []. split; reflexivity.
    + exists body. split; [reflexivity|exact T].
  - intros H. split; [|split; [reflexivity|cbn; unfold poll_interval; lia]].
    apply (poll_loop_times_out config w url request max_polls st H).
  - intros k d v Hk H G D E B N. split; [|cbn; lia].
    replace max_polls with (k + S (59 - k)) by (unfold max_polls; lia).
    apply (poll_loop_stops config w url request k _ st _ _ H).
    apply (poll_once_response_not_object config w url request
             (after_waiting st k) d v G D E); [|exact N].
    unfold get_default. rewrite B. reflexivity.
  - intros k e Hk H G. split; [|cbn; lia].
    replace max_polls with (k + S (59 - k)) by (unfold max_polls; lia).
    apply (poll_loop_stops config w url request k _ st _ _ H).
    apply (poll_once_request_raises config w url request
             (after_waiting st k) e G).
Qed.

Lemma prefix_append (a b : string) : String.prefix a (a +++ b) = true.
Proof.
  induction a as [|c a IH]; cbn; [destruct b; reflexivity|].
  destruct (ascii_dec c c); [exact IH|congruence].
Qed.

(** X15. Where [_download_video] writes. The file name is the scene id,
    or "video" when there is none or an empty one, followed by "_", the time
    in seconds the clock reads at the download and ".mp4". When the scene id
    does not begin with "/", the path begins with the configured output
    directory. When it does, the output directory is dropped altogether and
    the path is the file name alone: the artifact is written outside the
    output directory. A download that succeeds returns that path and has
    written that file. *)
Theorem download_path_location (now : Z) (scene : option string) :
  (scene = None \/ scene = Some "" ->
   download_filename now scene
   = "video_" +++ str_of_int now +++ ".mp4")
  /\ (forall s,
        scene = Some s -> s <> "" ->
        download_filename now scene
        = s +++ "_" +++ str_of_int now +++ ".mp4")
  /\ (startswith_sep (or_str scene "video") = false ->
      String.prefix (Config.output_dir config)
                    (download_path config now scene) = true)
  /\ (startswith_sep (or_str scene "video") = true ->
      download_path config now scene = download_filename now scene)
  /\ (forall url st,
        now = reading w st ->
        fetch_video w url (download_path config now scene) = None ->
        _download_video config w url scene st
        = (Ok (download_path config now scene),
           after_download st (download_path config now scene))).
Proof.
  split; [|split; [|split; [|split]]].
  - intros [->| ->]; reflexivity.
  - intros s -> N. unfold download_filename.
    destruct s; [congruence|reflexivity].
  - intros S. unfold download_path, os_path_join.
    fold (download_filename now scene).
    assert (F : startswith_sep (download_filename now scene) = false).
    { unfold download_filename.
      rewrite startswith_sep_append by apply or_str_nonempty. exact S. }
    rewrite F.
    destruct (negb (truthy_str (Config.output_dir config))
              || endswith_sep (Config.output_dir config));
      apply prefix_append.
  - intros S. unfold download_path, os_path_join.
    fold (download_filename now scene).
    assert (F : startswith_sep (download_filename now scene) = true).
    { unfold download_filename.
      rewrite startswith_sep_append by apply or_str_nonempty. exact S. }
    rewrite F. reflexivity.
  - intros url st -> F. apply download_succeeds, F.
Qed.

End AnswerProperties.

Section AnswerScenarios.
Import Py Client Spec.


Lemma polling_edges_witness :
  _poll_generation_status Examples.config Examples.world_done_empty "op-1"
    Examples.request no_effects
  = (Ok (failed "Generation timeout"), mkEffects 0 60 300 [] 0)
  /\ _poll_generation_status Examples.config Examples.world_poll_breaks "op-1"
       Examples.request no_effects
     = (Ok (failed "Polling failed: timed out"), mkEffects 0 2 5 [] 0)
  /\ _poll_generation_status Examples.config Examples.world_done_null "op-1"
       Examples.request no_effects
     = (Ok (failed "Polling failed: 'NoneType' object has no attribute 'get'"),
        mkEffects 0 1 0 [] 0).
Proof.
  split; [|split].
  - apply (proj1 (proj2 (polling_edges Examples.config
                           Examples.world_done_empty "op-1" Examples.request
                           no_effects))).
    intros j Hj. exists Examples.done_empty. split; [reflexivity|].
    apply (proj1 (polling_edges Examples.config Examples.world_done_empty
                    "op-1" Examples.request no_effects));
      [reflexivity | reflexivity | left; reflexivity].
  - apply (proj2 (proj2 (proj2 (polling_edges Examples.config
                                  Examples.world_poll_breaks "op-1"
                                  Examples.request no_effects)))
             1 (RequestException "timed out")).
    + lia.
    + intros j Hj. exists Examples.pending.
      destruct j as [|j]; [|lia]. split; [reflexivity|].
      eexists. split; [reflexivity|]. left. reflexivity.
    + reflexivity.
  - apply (proj1 (proj2 (proj2 (polling_edges Examples.config
                                  Examples.world_done_null "op-1"
                                  Examples.request no_effects)))
             0 [("done", VBool true); ("response", VNone)] VNone);
      try reflexivity; [lia | intros j Hj; lia | discriminate].
Defined.

Lemma download_path_location_witness :
  download_filename 1700000000 (Some "") = "video_1700000000.mp4"
  /\ String.prefix "./output/videos"
       (download_path Examples.config 1700000000 (Some "scene_1"))
     = true
  /\ download_path Examples.config 1700000000 (Some "/tmp/x_segment_1")
     = "/tmp/x_segment_1_1700000000.mp4".
Proof.
  split; [|split].
  - apply (proj1 (download_path_location Examples.config Examples.world_sync
                    1700000000 (Some ""))).
    right. reflexivity.
  - apply (proj1 (proj2 (proj2 (download_path_location Examples.config
                                  Examples.world_sync 1700000000
                                  (Some "scene_1"))))).
    reflexivity.
  - apply (proj1 (proj2 (proj2 (proj2
             (download_path_location Examples.config Examples.world_sync
                1700000000 (Some "/tmp/x_segment_1")))))).
    reflexivity.
Defined.

End AnswerScenarios.

(* ================================================================== *)
(** * Properties of [VEO3Config.validate] *)
(* ================================================================== *)

Section ConfigProperties.
Import Py Spec.
Import ConfigDataclass.

Lemma str_in_iff (x : string) (l : list string) :
  str_in x l = true <-> In x l.
Proof.
  unfold str_in. rewrite existsb_exists. split.
  - intros (y & I & E). apply String.eqb_eq in E. subst y. exact I.
  - intros I. exists x. split; [exact I|apply String.eqb_refl].
Qed.

Lemma config_checks (self : VEO3Config) :
  config_acceptable self
  <-> truthy_str (api_key self) = true
      /\ str_in (consistency_mode self) ["strict"; "balanced"; "creative"]
         = true
      /\ Z.ltb (default_duration self) 1 || Z.ltb 60 (default_duration self)
         = false.
Proof.
  unfold config_acceptable. rewrite str_in_iff.
  fold consistency_modes.
  assert (K : api_key self <> "" <-> truthy_str (api_key self) = true).
  { destruct (api_key self); cbn; split; congruence. }
  rewrite K, orb_false_iff, !Z.ltb_ge. tauto.
Qed.

(** X16. [VEO3Config.validate] returns [True], after creating the output
    and the metadata directory in that order, exactly when the API key is
    not empty, the consistency mode is strict, balanced or creative, the
    default duration lies between 1 and 60, both included, and both
    directories can be created; it never returns [False]. When one of the
    three checks fails it raises a [ValueError] before any directory is
    created: for a missing key first, then for the mode, then for the
    duration. A directory that cannot be created makes it raise the
    [OSError]: with nothing created when it is the output directory, with
    the output directory already created when it is the metadata
    directory. *)
Theorem config_validate_accepts_iff
        (makedirs_error : list string -> string -> option string)
        (self : VEO3Config) (made : list string) :
  (config_acceptable self ->
   makedirs_error made (output_dir self) = None ->
   makedirs_error (output_dir self :: made) (metadata_dir self) = None ->
   validate makedirs_error self made
   = (Ok true, metadata_dir self :: output_dir self :: made))
  /\ (~ config_acceptable self ->
      exists msg,
        validate makedirs_error self made = (Raise (ValueError msg), made))
  /\ (api_key self = "" ->
      validate makedirs_error self made
      = (Raise (ValueError "API key is required"), made))
  /\ (api_key self <> "" ->
      ~ In (consistency_mode self) consistency_modes ->
      validate makedirs_error self made
      = (Raise (ValueError ("Invalid consistency mode: "
                            +++ consistency_mode self)), made))
  /\ (api_key self <> "" ->
      In (consistency_mode self) consistency_modes ->
      ~ (1 <= default_duration self <= 60)%Z ->
      validate makedirs_error self made
      = (Raise (ValueError "Duration must be between 1 and 60 seconds"),
         made))
  /\ (forall msg,
        config_acceptable self ->
        makedirs_error made (output_dir self) = Some msg ->
        validate makedirs_error self made = (Raise (OSError msg), made))
  /\ (forall msg,
        config_acceptable self ->
        makedirs_error made (output_dir self) = None ->
        makedirs_error (output_dir self :: made) (metadata_dir self)
        = Some msg ->
        validate makedirs_error self made
        = (Raise (OSError msg), output_dir self :: made))
  /\ (forall b made',
        validate makedirs_error self made = (Ok b, made') ->
        b = true /\ config_acceptable self
        /\ makedirs_error made (output_dir self) = None
        /\ makedirs_error (output_dir self :: made) (metadata_dir self)
           = None
        /\ made' = metadata_dir self :: output_dir self :: made).
Proof.
  assert (K : api_key self <> "" <-> truthy_str (api_key self) = true).
  { destruct (api_key self); cbn; split; congruence. }
  split; [|split; [|split; [|split; [|split; [|split; [|split]]]]]].
  - intros A O M. apply config_checks in A. destruct A as (Hk & C & D).
    unfold validate, makedirs. rewrite Hk, C, D, O, M. reflexivity.
  - intros N. rewrite config_checks in N. unfold validate.
    destruct (truthy_str (api_key self)); cbn [negb];
      [|eexists; reflexivity].
    destruct (str_in (consistency_mode self) _); cbn [negb];
      [|eexists; reflexivity].
    destruct (_ || _); [eexists; reflexivity|].
    exfalso. apply N. auto.
  - intros Hk. unfold validate. rewrite Hk. reflexivity.
  - intros Hk C. apply K in Hk. unfold validate. rewrite Hk. cbn [negb].
    destruct (str_in (consistency_mode self) _) eqn:I; [|reflexivity].
    exfalso. apply C. apply str_in_iff. exact I.
  - intros Hk C D. apply K in Hk. unfold validate. rewrite Hk. cbn [negb].
    apply str_in_iff in C. unfold consistency_modes in C. rewrite C.
    cbn [negb].
    destruct (_ || _) eqn:B; [reflexivity|].
    exfalso. apply D. apply orb_false_iff in B.
    rewrite !Z.ltb_ge in B. lia.
  - intros msg A O. apply config_checks in A. destruct A as (Hk & C & D).
    unfold validate, makedirs. rewrite Hk, C, D, O. reflexivity.
  - intros msg A O M. apply config_checks in A. destruct A as (Hk & C & D).
    unfold validate, makedirs. rewrite Hk, C, D, O, M. reflexivity.
  - intros b made'. unfold validate, makedirs.
    destruct (truthy_str (api_key self)) eqn:Hk; cbn [negb]; [|discriminate].
    destruct (str_in (consistency_mode self) _) eqn:C; cbn [negb];
      [|discriminate].
    destruct (_ || _) eqn:D; [discriminate|].
    destruct (makedirs_error made (output_dir self)); [discriminate|].
    destruct (makedirs_error (output_dir self :: made) (metadata_dir self));
      [discriminate|].
    intros [= <- <-]. split; [reflexivity|].
    split; [apply config_checks; auto|]. auto.
Qed.

Lemma config_validate_accepts_iff_witness :
  validate (fun _ _ => None) Examples.settings []
  = (Ok true, ["./data/metadata"; "./output/videos"])
  /\ (exists msg,
        validate (fun _ _ => None)
          (mkVEO3Config "key" "veo-3" "" "strict" 61 "1080p" 24 "16:9"
             "out" "meta" true true true true true true true true 3 "INFO")
          []
        = (Raise (ValueError msg), []))
  /\ validate (fun _ _ => Some "Permission denied") Examples.settings []
     = (Raise (OSError "Permission denied"), [])
  /\ validate (fun made _ => match made with
                             | [] => None
                             | _ => Some "Read-only file system"
                             end)
       Examples.settings []
     = (Raise (OSError "Read-only file system"), ["./output/videos"]).
Proof.
  assert (A : config_acceptable Examples.settings)
    by (repeat split; cbn; auto; try discriminate; lia).
  split; [|split; [|split]].
  - apply (proj1 (config_validate_accepts_iff (fun _ _ => None)
                    Examples.settings [])); [exact A | reflexivity..].
  - apply (proj1 (proj2 (config_validate_accepts_iff (fun _ _ => None) _ []))).
    intros (_ & _ & D). cbn in D. lia.
  - apply (proj1 (proj2 (proj2 (proj2 (proj2 (proj2
             (config_validate_accepts_iff
                (fun _ _ => Some "Permission denied")
                Examples.settings []))))))); [exact A|reflexivity].
  - apply (proj1 (proj2 (proj2 (proj2 (proj2 (proj2 (proj2
             (config_validate_accepts_iff
                (fun made _ => match made with
                               | [] => None
                               | _ => Some "Read-only file system"
                               end)
                Examples.settings [])))))))); [exact A | reflexivity..].
Defined.

End ConfigProperties.

(* ================================================================== *)
(** * Properties of the HTTP interface *)
(* ================================================================== *)

Section ApiProperties.
Import Py Questionnaire Spec.
Import Api.




(** The endpoint, by the outcome of [validate]. *)
Lemma api_validate_outcome (r : QuestionnaireRequest) :
  validate_questionnaire r
  = match validate (to_questionnaire r) with
    | (true, _) =>
        Ok (mkQuestionnaireResponse true "Questionnaire is valid"
              (Some (r_project_title r))
              (Some (length (r_segments r)))
              (Some (sum_ints (map duration (map to_segment (r_segments r))))))
    | (false, e) => Raise (mkHTTPException 400 e)
    end.
Proof.
  unfold validate_questionnaire.
  destruct (validate (to_questionnaire r)) as [[] e]; cbn [negb handle];
    [rewrite length_map|]; reflexivity.
Qed.



Lemma enumerate_from_length {A B : Type} (f : nat -> A -> B) (i : nat)
      (l : list A) :
  length (enumerate_from f i l) = length l.
Proof.
  revert i. induction l as [|x l IH]; intros i; cbn; [reflexivity|].
  rewrite IH. reflexivity.
Qed.

Lemma enumerate_from_nth {A B : Type} (f : nat -> A -> B) (i : nat)
      (l : list A) (k : nat) (x : A) :
  nth_error l k = Some x ->
  nth_error (enumerate_from f i l) k = Some (f (i + k) x).
Proof.
  revert i k. induction l as [|y l IH]; intros i k H.
  - destruct k; discriminate.
  - destruct k as [|k]; cbn in *.
    + injection H as ->. rewrite Nat.add_0_r. reflexivity.
    + rewrite (IH (S i) k H). f_equal. f_equal. lia.
Qed.

(** The translation endpoint, by the outcome of [validate]. *)
Lemma api_translate_outcome (r : QuestionnaireRequest) :
  Api.translate_questionnaire r
  = match validate (to_questionnaire r) with
    | (true, _) =>
        Ok (mkPromptResponse true
              (enumerate_from prompt_entry 0
                 (Translator.translate_loop (to_questionnaire r)
                    (map to_segment (r_segments r)) None))
              (length (r_segments r)))
    | (false, e) => Raise (mkHTTPException 400 e)
    end.
Proof.
  unfold Api.translate_questionnaire. rewrite api_validate_outcome.
  unfold Translator.translate_questionnaire.
  destruct (validate (to_questionnaire r)) as [[] e]; cbn [negb handle q_success];
    [|reflexivity].
  cbn [to_questionnaire segments].
  rewrite enumerate_from_length, translate_loop_length, length_map.
  reflexivity.
Qed.

(** X18. The translation endpoint fails exactly when the validation endpoint
    does, with the same 400 answer, and never answers 500. When it succeeds
    it lists one prompt per segment, in order; the entry at position k (from
    0) is numbered k + 1, whatever number the segment carries, while its
    scene id is built from the segment's own number and its prompt is the
    segment's prompt with the segment before it as predecessor. *)
Theorem api_translate_endpoint (r : QuestionnaireRequest) :
  (forall h,
      validate_questionnaire r = Raise h ->
      Api.translate_questionnaire r = Raise h /\ status_code h = 400%Z)
  /\ (forall h,
        Api.translate_questionnaire r = Raise h ->
        validate_questionnaire r = Raise h)
  /\ (forall resp,
        validate_questionnaire r = Ok resp ->
        exists entries,
          Api.translate_questionnaire r
          = Ok (mkPromptResponse true entries (length (r_segments r)))
          /\ length entries = length (r_segments r)
          /\ forall k s,
              nth_error (r_segments r) k = Some s ->
              exists entry,
                nth_error entries k = Some entry
                /\ dict_get entry "segment_number"
                   = Some (VInt (Z.of_nat k + 1))
                /\ dict_get entry "scene_id"
                   = Some (VStr (r_project_title r +++ "_segment_"
                                 +++ str_of_int (s_segment_number s)))
                /\ dict_get entry "prompt"
                   = Some (VStr (Translator.translate_segment (to_segment s)
                                   (to_questionnaire r)
                                   (predecessor None
                                      (map to_segment (r_segments r)) k)))).
Proof.
  rewrite api_translate_outcome, api_validate_outcome.
  destruct (validate (to_questionnaire r)) as [[] e]; split; [|split| |split];
    try discriminate.
  - intros resp _. eexists. split; [reflexivity|].
    split; [rewrite enumerate_from_length, translate_loop_length;
            apply length_map|].
    intros k s H.
    assert (H' : nth_error (map to_segment (r_segments r)) k
                 = Some (to_segment s)).
    { rewrite nth_error_map, H. reflexivity. }
    eexists. split.
    + apply enumerate_from_nth. apply translate_loop_nth. exact H'.
    + repeat split.
  - intros h [= <-]. split; reflexivity.
  - intros h [= <-]. reflexivity.
Qed.

Lemma api_translate_endpoint_witness :
  exists e1 e2,
    Api.translate_questionnaire Examples.api_request
    = Ok (mkPromptResponse true [e1; e2] 2)
    /\ dict_get e2 "segment_number" = Some (VInt 2)
    /\ dict_get e2 "scene_id" = Some (VStr "Demo_segment_5").
Proof.
  destruct (proj2 (proj2 (api_translate_endpoint Examples.api_request))
              (mkQuestionnaireResponse true "Questionnaire is valid"
                 (Some "Demo") (Some 2) (Some 16%Z)))
    as (entries & E & L & N); [vm_compute; reflexivity|].
  destruct entries as [|e1 [|e2 [|e3 entries]]]; try discriminate L.
  exists e1, e2. split; [exact E|].
  destruct (N 1 Examples.api_segment eq_refl) as (entry & X & S & I & _).
  cbn in X. injection X as <-. split; [exact S|exact I].
Defined.

(** X19. The template endpoint answers 404, listing the four names, for
    every name that is not one of them, so the fallback of [quick_template]
    is never reached through it. For each of the four names it answers the
    name and the dictionary of a questionnaire; that dictionary loads back
    as a questionnaire [validate] accepts, with the four segments the
    listing endpoint advertises. The listing endpoint names exactly the four
    templates the template endpoint serves. *)
Theorem api_templates_consistent :
  (forall name,
      ~ In name valid_templates ->
      get_template name
      = Raise (mkHTTPException 404
                 (Some "Template not found. Available: product_demo, how_to, training, announcement")))
  /\ (forall name,
        In name valid_templates ->
        exists d q,
          get_template name
          = Ok [("template_name", VStr name); ("questionnaire", VDict d)]
          /\ from_dict d = Ok (questionnaire_object q)
          /\ validate q = (true, None)
          /\ length (segments q) = 4)
  /\ (exists infos,
        dict_get list_templates "templates" = Some (VList (map VDict infos))
        /\ map (fun i => dict_get i "name") infos
           = map (fun n => Some (VStr n)) valid_templates
        /\ Forall (fun i => dict_get i "segments" = Some (VInt 4)) infos).
Proof.
  split; [|split].
  - intros name N. unfold get_template.
    destruct (str_in name valid_templates) eqn:I; [|reflexivity].
    exfalso. apply N. apply str_in_iff. exact I.
  - intros name I.
    exists (to_dict (quick_template name)), (quick_template name).
    split; [|split; [apply questionnaire_round_trip|]].
    + unfold get_template.
      rewrite (proj2 (str_in_iff name valid_templates) I). reflexivity.
    + destruct I as [<-|[<-|[<-|[<-|[]]]]]; split; vm_compute; reflexivity.
  - exists [ template_info "product_demo" "Product Demonstration"
               "Showcase product features and benefits"
               "Product launches, feature highlights";
             template_info "how_to" "How-To Tutorial"
               "Step-by-step instructional content"
               "Tutorials, skill training";
             template_info "training" "Employee Training"
               "Workplace procedures and protocols"
               "Onboarding, safety training";
             template_info "announcement" "Company Announcement"
               "News and updates" "Company updates, news" ].
    split; [reflexivity|]. split; [reflexivity|].
    repeat constructor.
Qed.

Lemma api_templates_consistent_witness :
  (exists h, get_template "webinar" = Raise h /\ status_code h = 404%Z)
  /\ (exists d,
        get_template "training"
        = Ok [("template_name", VStr "training"); ("questionnaire", VDict d)]
        /\ from_dict d = Ok (questionnaire_object _training_template)).
Proof.
  split.
  - eexists. split.
    + apply (proj1 api_templates_consistent).
      intros [H|[H|[H|[H|[]]]]]; discriminate.
    + reflexivity.
  - destruct (proj1 (proj2 api_templates_consistent) "training")
      as (d & q & E & F & _); [right; right; left; reflexivity|].
    exists d. split; [exact E|].
    vm_compute in E. injection E as <-. vm_compute. reflexivity.
Defined.

Lemma video_style_map_member (s : string) (m : VideoStyle) :
  s = VideoStyle_value m -> enum_get video_style_map s PROMOTIONAL = m.
Proof. intros ->. destruct m; reflexivity. Qed.

Lemma video_style_map_unknown (s : string) :
  (forall m, s <> VideoStyle_value m) ->
  enum_get video_style_map s PROMOTIONAL = PROMOTIONAL.
Proof.
  intros N. unfold video_style_map. cbn [enum_get].
  destruct (String.eqb_spec s "professional") as [E|_];
    [destruct (N PROFESSIONAL E)|].
  destruct (String.eqb_spec s "casual") as [E|_]; [destruct (N CASUAL E)|].
  destruct (String.eqb_spec s "educational") as [E|_];
    [destruct (N EDUCATIONAL E)|].
  destruct (String.eqb s "promotional"); reflexivity.
Qed.

(** X20. The HTTP interface never refuses a style or a platform. A style
    that is a [VideoStyle] value once put in lower case becomes that member
    and any other style becomes PROMOTIONAL, where [from_json] would raise
    on both a differently cased and an unknown style; every platform name
    gives one platform, so their number is kept. The segments it builds have
    no location of their own, and their numbers, durations and texts are
    those of the request. *)
Theorem api_conversion_is_lenient (r : QuestionnaireRequest) :
  (forall m,
      lower (r_video_style r) = VideoStyle_value m ->
      video_style (to_questionnaire r) = m)
  /\ ((forall m, lower (r_video_style r) <> VideoStyle_value m) ->
      video_style (to_questionnaire r) = PROMOTIONAL)
  /\ ((forall m, r_video_style r <> VideoStyle_value m) ->
      VideoStyle_of_value (VStr (r_video_style r))
      = Raise (NotAMember "VideoStyle" (VStr (r_video_style r))))
  /\ length (target_platforms (to_questionnaire r))
     = length (r_target_platforms r)
  /\ map location (segments (to_questionnaire r))
     = map (fun _ => None) (r_segments r)
  /\ map segment_number (segments (to_questionnaire r))
     = map s_segment_number (r_segments r)
  /\ map duration (segments (to_questionnaire r))
     = map s_duration (r_segments r).
Proof.
  split; [|split; [|split; [|split; [|split; [|split]]]]].
  - intros m E. cbn [to_questionnaire video_style].
    apply video_style_map_member, E.
  - intros N. cbn [to_questionnaire video_style].
    apply video_style_map_unknown, N.
  - apply VideoStyle_unrecognized.
  - cbn [to_questionnaire target_platforms]. apply length_map.
  - cbn [to_questionnaire segments]. rewrite map_map. reflexivity.
  - cbn [to_questionnaire segments]. rewrite map_map. reflexivity.
  - cbn [to_questionnaire segments]. rewrite map_map. reflexivity.
Qed.

Lemma api_conversion_is_lenient_witness :
  video_style (to_questionnaire Examples.api_request) = EDUCATIONAL
  /\ VideoStyle_of_value (VStr (r_video_style Examples.api_request))
     = Raise (NotAMember "VideoStyle" (VStr "Educational"))
  /\ video_style (to_questionnaire
                    (mkQuestionnaireRequest "Demo" "P" "A" "cinematic" "none"
                       None None "" "" "" [] None [] "strict" []))
     = PROMOTIONAL.
Proof.
  split; [|split].
  - apply (proj1 (api_conversion_is_lenient Examples.api_request)).
    vm_compute. reflexivity.
  - apply (proj1 (proj2 (proj2 (api_conversion_is_lenient
                                  Examples.api_request)))).
    intros m. destruct m; discriminate.
  - apply (proj1 (proj2 (api_conversion_is_lenient _))).
    intros m. destruct m; vm_compute; discriminate.
Defined.

End ApiProperties.
